(** * DataFlint Spark UI: the SQL reducer (SqlReducer.ts)

    A shallow embedding of the plan enrichment code of the Spark UI:
    the DAG contractor [cleanUpDAG], the plan dispatcher [parseNodePlan],
    the derived metrics ([calcExchangeMetrics], [addFilterRatioMetric],
    [addJoinMetrics], ...), the per-execution pipeline [calculateSql],
    the store merge [calculateSqlStore] and the metric update
    [updateSqlNodeMetrics] with [calculateNodeToStorageInfo].

    Layout: the JavaScript runtime pieces the code relies on ([JS]), the
    graphlib [Graph] object ([Graphlib]), the data model, the functions of
    SqlReducer.ts in source order, concrete instances used to run the
    model, and then the properties. *)

From Stdlib Require Import ZArith QArith Qabs Qround List String Ascii Bool Lia.
From Stdlib Require Import Decimal DecimalString DecimalPos DecimalZ.
From Stdlib Require Import Relations Sorted.
Import ListNotations.

Local Open Scope string_scope.
Local Open Scope Z_scope.

(* ================================================================== *)
(** ** The JavaScript runtime *)
(* ================================================================== *)

Module JS.

(** *** Completions: a value, or a thrown exception. *)

Inductive exn : Type :=
| TypeError      (* property access on undefined *)
| Thrown.        (* an exception raised by a callee outside this file *)

Inductive completion (A : Type) : Type :=
| Normal (a : A)
| Throw (e : exn).
Arguments Normal {A} a.
Arguments Throw {A} e.

(** *** Strings *)

(** [String.prototype.includes]: [sub] occurs in [s]. *)
Fixpoint includes (s sub : string) : bool :=
  String.prefix sub s ||
  match s with
  | EmptyString => false
  | String _ s' => includes s' sub
  end.

Fixpoint drop (n : nat) (s : string) : string :=
  match n, s with
  | S n', String _ s' => drop n' s'
  | _, _ => s
  end.

(** [String.prototype.replace] with a string pattern: the first
    occurrence only.  (The replacement strings of the source contain no
    [$] pattern.) *)
Fixpoint replace (s pat rep : string) : string :=
  if String.prefix pat s then rep ++ drop (String.length pat) s
  else match s with
       | EmptyString => EmptyString
       | String c s' => String c (replace s' pat rep)
       end.

(** [s.replace(/,/g, e)], [e] the empty string: every comma is removed. *)
Fixpoint removeCommas (s : string) : string :=
  match s with
  | EmptyString => EmptyString
  | String c s' =>
      if Ascii.eqb c ","%char then removeCommas s' else String c (removeCommas s')
  end.

(** *** Integer-valued numbers

    Identifiers (node ids, execution ids) are JSON integers; the values
    [parseInt] and [Math.min] produce from them are an integer, [NaN] or
    [Infinity].  Integers are exact (no rounding above 2^53 is
    modelled). *)

Inductive jsint : Type :=
| NaN
| Int (z : Z)
| Infinity.

(** [a === b] *)
Definition strictEq (a b : jsint) : bool :=
  match a, b with
  | Int x, Int y => Z.eqb x y
  | Infinity, Infinity => true
  | _, _ => false
  end.

(** SameValueZero, the comparison of [Array.prototype.includes]. *)
Definition sameValueZero (a b : jsint) : bool :=
  match a, b with
  | NaN, NaN => true
  | _, _ => strictEq a b
  end.

(** [a < b] *)
Definition lt (a b : jsint) : bool :=
  match a, b with
  | Int x, Int y => Z.ltb x y
  | Int _, Infinity => true
  | _, _ => false
  end.

Definition min2 (a b : jsint) : jsint :=
  match a, b with
  | NaN, _ | _, NaN => NaN
  | Infinity, x | x, Infinity => x
  | Int x, Int y => Int (Z.min x y)
  end.

(** [Math.min(...l)]: [Infinity] on no argument, [NaN] if any is. *)
Definition Math_min (l : list jsint) : jsint := fold_left min2 l Infinity.

(** [Array.prototype.includes] *)
Definition Array_includes (l : list jsint) (x : jsint) : bool :=
  existsb (fun y => sameValueZero y x) l.

(** [Number.prototype.toString] on these values (integers print in
    decimal; the exponent notation of magnitudes from 1e21 on is not
    modelled). *)
Definition toString (n : jsint) : string :=
  match n with
  | NaN => "NaN"
  | Infinity => "Infinity"
  | Int z => NilZero.string_of_int (Z.to_int z)
  end.

(** [parseInt(s)] with no radix: leading white space is skipped, an
    optional sign is read, then, after a [0x] or [0X] prefix, the longest
    prefix of hexadecimal digits, and otherwise the longest prefix of
    decimal digits; [NaN] when there is no digit.  (Non-ASCII white space
    is not modelled.) *)
Definition isWhiteSpace (c : ascii) : bool :=
  match nat_of_ascii c with
  | 9%nat | 10%nat | 11%nat | 12%nat | 13%nat | 32%nat => true
  | _ => false
  end.

Fixpoint trimStart (s : string) : string :=
  match s with
  | String c s' => if isWhiteSpace c then trimStart s' else s
  | EmptyString => s
  end.

(** The longest prefix of decimal digits, most significant first. *)
Fixpoint digits (s : string) : uint :=
  match s with
  | String c s' =>
      match uint_of_char c (Some Nil) with
      | Some (D0 _) => D0 (digits s')
      | Some (D1 _) => D1 (digits s')
      | Some (D2 _) => D2 (digits s')
      | Some (D3 _) => D3 (digits s')
      | Some (D4 _) => D4 (digits s')
      | Some (D5 _) => D5 (digits s')
      | Some (D6 _) => D6 (digits s')
      | Some (D7 _) => D7 (digits s')
      | Some (D8 _) => D8 (digits s')
      | Some (D9 _) => D9 (digits s')
      | _ => Nil
      end
  | EmptyString => Nil
  end.

Definition parseDigits (s : string) : option Z :=
  match digits s with
  | Nil => None
  | d => Some (Z.of_uint d)
  end.

Definition hexDigit (c : ascii) : option Z :=
  let n := Z.of_nat (nat_of_ascii c) in
  if (48 <=? n) && (n <=? 57) then Some (n - 48)          (* 0-9 *)
  else if (97 <=? n) && (n <=? 102) then Some (n - 87)    (* a-f *)
  else if (65 <=? n) && (n <=? 70) then Some (n - 55)     (* A-F *)
  else None.

(** The value of the longest prefix of hexadecimal digits, [acc] being
    that of the digits read so far, if there are any. *)
Fixpoint parseHexDigits (acc : option Z) (s : string) : option Z :=
  match s with
  | String c s' =>
      match hexDigit c with
      | Some d =>
          parseHexDigits
            (Some (16 * match acc with Some a => a | None => 0 end + d)) s'
      | None => acc
      end
  | EmptyString => acc
  end.

Definition parseUnsignedInt (s : string) : option Z :=
  match s with
  | String "0"%char (String "x"%char s')
  | String "0"%char (String "X"%char s') => parseHexDigits None s'
  | _ => parseDigits s
  end.

Definition parseInt (s : string) : jsint :=
  match trimStart s with
  | String "-"%char s' =>
      match parseUnsignedInt s' with Some z => Int (- z) | None => NaN end
  | String "+"%char s' =>
      match parseUnsignedInt s' with Some z => Int z | None => NaN end
  | s' =>
      match parseUnsignedInt s' with Some z => Int z | None => NaN end
  end.

End JS.

(* ================================================================== *)
(** ** graphlib's [Graph]

    The directed, non-multi, non-compound graph [new Graph()] of the
    graphlib package, at the level of its API.  Node keys are strings.
    graphlib keeps edges in objects keyed by an edge id that is never an
    array index, so [edges()], [inEdges(v)] and [outEdges(v)] enumerate in
    insertion order: the edges are a list, a new edge goes to its end. *)
(* ================================================================== *)

Module Graphlib.

Record Edge : Type := mkEdge { v : string; w : string }.

Record Graph : Type := mkGraph {
  nodes : list string;
  edges : list Edge       (* insertion order, no duplicates *)
}.

Definition empty : Graph := {| nodes := []; edges := [] |}.

Definition edge_eqb (e1 e2 : Edge) : bool :=
  String.eqb (v e1) (v e2) && String.eqb (w e1) (w e2).

Definition hasNode (g : Graph) (x : string) : bool :=
  existsb (String.eqb x) (nodes g).

Definition hasEdge (g : Graph) (x y : string) : bool :=
  existsb (edge_eqb (mkEdge x y)) (edges g).

(** [g.setNode(x)]: no effect when [x] is already a node. *)
Definition setNode (g : Graph) (x : string) : Graph :=
  if hasNode g x then g
  else {| nodes := nodes g ++ [x]; edges := edges g |}.

(** [g.setEdge(x, y)]: no effect when the edge exists (there is no
    label to update); otherwise both end points are made nodes and the
    edge is added. *)
Definition setEdge (g : Graph) (x y : string) : Graph :=
  if hasEdge g x y then g
  else
    let g' := setNode (setNode g x) y in
    {| nodes := nodes g'; edges := edges g' ++ [mkEdge x y] |}.

Definition incident (x : string) (e : Edge) : bool :=
  String.eqb (v e) x || String.eqb (w e) x.

(** [g.removeNode(x)]: the node goes with every edge it is an end point
    of; no effect when [x] is not a node. *)
Definition removeNode (g : Graph) (x : string) : Graph :=
  if hasNode g x then
    {| nodes := filter (fun y => negb (String.eqb y x)) (nodes g);
       edges := filter (fun e => negb (incident x e)) (edges g) |}
  else g.

(** [g.inEdges(x)]: [undefined] when [x] is not a node. *)
Definition inEdges (g : Graph) (x : string) : option (list Edge) :=
  if hasNode g x then Some (filter (fun e => String.eqb (w e) x) (edges g))
  else None.

(** [g.outEdges(x)]: [undefined] when [x] is not a node. *)
Definition outEdges (g : Graph) (x : string) : option (list Edge) :=
  if hasNode g x then Some (filter (fun e => String.eqb (v e) x) (edges g))
  else None.

End Graphlib.

(* ================================================================== *)
(** ** Floating-point numbers

    Durations, row counts, ratios and percentages are JavaScript numbers
    (IEEE-754 doubles).  The functions below only combine them through
    the operations of the runtime, so these are taken as an interface;
    what is proved holds for every implementation of it, the doubles of
    an engine included.  [QNumber] further down implements it with exact
    rationals to run the model. *)
(* ================================================================== *)

Class JsNumber : Type := {
  number : Type;
  ofZ : Z -> number;                       (* an integer literal or JSON integer *)
  add : number -> number -> number;        (* a + b *)
  sub : number -> number -> number;        (* a - b *)
  mul : number -> number -> number;        (* a * b *)
  div : number -> number -> number;        (* a / b *)
  gt : number -> number -> bool;           (* a > b *)
  numEq : number -> number -> bool;        (* a === b *)
  isNaN : number -> bool;
  Math_max : number -> number -> number;   (* Math.max(a, b) *)
  toFixed : number -> nat -> string;       (* a.toFixed(d) *)
  numToString : number -> string;          (* a.toString() *)
  parseFloat : string -> number;
  (* the two comparisons of literals the code relies on *)
  zero_eq_zero : numEq (ofZ 0) (ofZ 0) = true;      (* 0 === 0 *)
  zero_gt_one : gt (ofZ 0) (ofZ 1) = false          (* 0 > 1 is false *)
}.

(* ================================================================== *)
(** ** Data model (interfaces/AppStore, SparkSQLs, SQLPlan, IcebergInfo)

    The records list the fields SqlReducer.ts reads or writes.  The
    payloads it only passes along are abstract. *)
(* ================================================================== *)

Class Payloads : Type := {
  PlanBody : Type;            (* the fields a plan parser extracts *)
  IcebergCommit : Type;       (* an iceberg commit, beside its execution id *)
  SparkStagesStore : Type
}.

Definition NodeType : Type := string.   (* "input", "output", "join", ... *)

Inductive PlanType : Type :=
| HashAggregate | TakeOrderedAndProject | CollectLimit | Coalesce
| WriteToHDFS | Filter | Exchange | Project | Sort | Window
| FileScan | Join.

Record EnrichedSqlMetric : Type := mkMetric { name : string; value : string }.

Record EnrichedSqlEdge : Type := mkSqlEdge { fromId : JS.jsint; toId : JS.jsint }.

(** The records take the payload types as parameters; [t] is the record
    at the types of the runtime at hand. *)

Module ParsedNodePlan.
Record record (PlanBody : Type) : Type := { type : PlanType; plan : PlanBody }.
Arguments type {PlanBody} _.
Arguments plan {PlanBody} _.
Abbreviation t := (record PlanBody).
End ParsedNodePlan.

Module ExchangeMetrics.
Record record (number : Type) : Type :=
  { writeDuration : number; readDuration : number; duration : number }.
Arguments writeDuration {number} _.
Arguments readDuration {number} _.
Arguments duration {number} _.
Abbreviation t := (record number).
End ExchangeMetrics.

Module SQLNodePlan.
Record t : Type :=
  { id : Z; planDescription : string; rddScopeId : option string }.
End SQLNodePlan.

Module SQLPlan.
Record t : Type := { executionId : Z; nodesPlan : list SQLNodePlan.t }.
End SQLPlan.

Module IcebergCommitsInfo.
Record record (IcebergCommit : Type) : Type :=
  { executionId : Z; commit : IcebergCommit }.
Arguments executionId {IcebergCommit} _.
Arguments commit {IcebergCommit} _.
Abbreviation t := (record IcebergCommit).
End IcebergCommitsInfo.

Module IcebergInfo.
Record record (IcebergCommit : Type) : Type :=
  { commitsInfo : list (IcebergCommitsInfo.record IcebergCommit) }.
Arguments commitsInfo {IcebergCommit} _.
Abbreviation t := (record IcebergCommit).
End IcebergInfo.

(** A node as the REST API sends it. *)
Module SqlNode.
Record t : Type := {
  nodeId : Z;
  nodeName : string;
  metrics : list EnrichedSqlMetric;
  wholeStageCodegenId : option Z
}.
End SqlNode.

Module EnrichedSqlNode.
Record record (number PlanBody IcebergCommit : Type) : Type := {
  nodeId : Z;
  nodeName : string;
  metrics : list EnrichedSqlMetric;
  wholeStageCodegenId : option JS.jsint;
  rddScopeId : option string;
  type : NodeType;
  parsedPlan : option (ParsedNodePlan.record PlanBody);
  enrichedName : string;
  isCodegenNode : bool;
  icebergCommit : option (IcebergCommitsInfo.record IcebergCommit);
  exchangeMetrics : option (ExchangeMetrics.record number);
  exchangeBroadcastDuration : option number;
  codegenDuration : option number
}.
Arguments nodeId {number PlanBody IcebergCommit} _.
Arguments nodeName {number PlanBody IcebergCommit} _.
Arguments metrics {number PlanBody IcebergCommit} _.
Arguments wholeStageCodegenId {number PlanBody IcebergCommit} _.
Arguments rddScopeId {number PlanBody IcebergCommit} _.
Arguments type {number PlanBody IcebergCommit} _.
Arguments parsedPlan {number PlanBody IcebergCommit} _.
Arguments enrichedName {number PlanBody IcebergCommit} _.
Arguments isCodegenNode {number PlanBody IcebergCommit} _.
Arguments icebergCommit {number PlanBody IcebergCommit} _.
Arguments exchangeMetrics {number PlanBody IcebergCommit} _.
Arguments exchangeBroadcastDuration {number PlanBody IcebergCommit} _.
Arguments codegenDuration {number PlanBody IcebergCommit} _.
Abbreviation t := (record number PlanBody IcebergCommit).
End EnrichedSqlNode.

(** An execution as the REST API sends it. *)
Module SparkSQL.
Record record (number : Type) : Type := {
  id : string;
  status : string;
  duration : number;
  submissionTime : string;
  runningJobIds : list Z;
  successJobIds : list Z;
  failedJobIds : list Z;
  nodes : list SqlNode.t;
  edges : list EnrichedSqlEdge
}.
Arguments id {number} _.
Arguments status {number} _.
Arguments duration {number} _.
Arguments submissionTime {number} _.
Arguments runningJobIds {number} _.
Arguments successJobIds {number} _.
Arguments failedJobIds {number} _.
Arguments nodes {number} _.
Arguments edges {number} _.
Abbreviation t := (record number).
End SparkSQL.

Module Tier.
Record t : Type := { nodesIds : list Z; edges : list EnrichedSqlEdge }.
End Tier.

Module Filters.
Record t : Type := { io : Tier.t; basic : Tier.t; advanced : Tier.t }.
End Filters.

Module EnrichedSparkSQL.
Record record (number PlanBody IcebergCommit : Type) : Type := {
  id : string;
  status : string;
  duration : number;
  submissionTime : string;
  runningJobIds : list Z;
  successJobIds : list Z;
  failedJobIds : list Z;
  edges : list EnrichedSqlEdge;
  nodes : list (EnrichedSqlNode.record number PlanBody IcebergCommit);
  codegenNodes : list (EnrichedSqlNode.record number PlanBody IcebergCommit);
  filters : Filters.t;
  uniqueId : nat;           (* the token [uuidv4] returned *)
  metricUpdateId : nat;
  isSqlCommand : bool;
  originalNumOfNodes : nat;
  submissionTimeEpoc : number
}.
Arguments id {number PlanBody IcebergCommit} _.
Arguments status {number PlanBody IcebergCommit} _.
Arguments duration {number PlanBody IcebergCommit} _.
Arguments submissionTime {number PlanBody IcebergCommit} _.
Arguments runningJobIds {number PlanBody IcebergCommit} _.
Arguments successJobIds {number PlanBody IcebergCommit} _.
Arguments failedJobIds {number PlanBody IcebergCommit} _.
Arguments edges {number PlanBody IcebergCommit} _.
Arguments nodes {number PlanBody IcebergCommit} _.
Arguments codegenNodes {number PlanBody IcebergCommit} _.
Arguments filters {number PlanBody IcebergCommit} _.
Arguments uniqueId {number PlanBody IcebergCommit} _.
Arguments metricUpdateId {number PlanBody IcebergCommit} _.
Arguments isSqlCommand {number PlanBody IcebergCommit} _.
Arguments originalNumOfNodes {number PlanBody IcebergCommit} _.
Arguments submissionTimeEpoc {number PlanBody IcebergCommit} _.
Abbreviation t := (record number PlanBody IcebergCommit).
End EnrichedSparkSQL.

Module SparkSQLStore.
Record record (number PlanBody IcebergCommit : Type) : Type :=
  { sqls : list (EnrichedSparkSQL.record number PlanBody IcebergCommit) }.
Arguments sqls {number PlanBody IcebergCommit} _.
Abbreviation t := (record number PlanBody IcebergCommit).
End SparkSQLStore.

(** Modelled from the spec: the enum [SqlStatus] of interfaces/SparkSQLs
    is not among the sources.  Section 3 gives its three members, Running,
    Completed and Failed; their values are the status strings of the Spark
    REST API. *)
Module SqlStatus.
Definition Running : string := "RUNNING".
Definition Completed : string := "COMPLETED".
Definition Failed : string := "FAILED".
End SqlStatus.

(** Both node shapes carry a [nodeId] and a [nodeName]; the graph builder
    and [parseNodePlan], which are handed raw nodes as well as enriched
    ones, read nothing else of a node. *)
Class SqlNodeLike (A : Type) : Type := {
  nodeIdOf : A -> Z;
  nodeNameOf : A -> string
}.

#[export] Instance SqlNode_SqlNodeLike : SqlNodeLike SqlNode.t :=
  {| nodeIdOf := SqlNode.nodeId; nodeNameOf := SqlNode.nodeName |}.
#[export] Instance EnrichedSqlNode_SqlNodeLike `{JsNumber} `{Payloads} :
  SqlNodeLike EnrichedSqlNode.t :=
  {| nodeIdOf := EnrichedSqlNode.nodeId; nodeNameOf := EnrichedSqlNode.nodeName |}.

(** The functions SqlReducer.ts imports from modules of the repository
    that are not part of the sources at hand (SqlReducerUtils, FormatUtils,
    PlanGraphUtils, PlanParsers).  They are assumed to return; a plan
    parser may throw, which [parseNodePlan] catches. *)
Class Imports `{JsNumber} `{Payloads} : Type := {
  (* SqlReducerUtils *)
  calcNodeType : string -> NodeType;
  calcNodeMetrics : NodeType -> list EnrichedSqlMetric -> list EnrichedSqlMetric;
  extractTotalFromStatisticsMetric : string -> string;
  nodeEnrichedNameBuilder : string -> option ParsedNodePlan.t -> string;
  (* FormatUtils *)
  calculatePercentage : number -> number -> number;
  timeStrToEpocTime : string -> number;
  timeStringToMilliseconds : string -> option number;
  (* PlanGraphUtils *)
  findLastNodeWithInputRows :
    EnrichedSqlNode.t -> Graphlib.Graph -> list EnrichedSqlNode.t ->
    option EnrichedSqlNode.t;
  getRowsFromMetrics : option (list EnrichedSqlMetric) -> option number;
  (* PlanParsers *)
  parseCoalesce : string -> JS.completion PlanBody;
  parseCollectLimit : string -> JS.completion PlanBody;
  parseExchange : string -> JS.completion PlanBody;
  parseFilter : string -> JS.completion PlanBody;
  parseJoin : string -> JS.completion PlanBody;
  parseProject : string -> JS.completion PlanBody;
  parseFileScan : string -> string -> JS.completion PlanBody;
  parseSort : string -> JS.completion PlanBody;
  parseTakeOrderedAndProject : string -> JS.completion PlanBody;
  parseWindow : string -> JS.completion PlanBody;
  parseWriteToHDFS : string -> JS.completion PlanBody;
  parseHashAggregate : string -> JS.completion PlanBody
}.

(* ================================================================== *)
(** ** Identity generation and exceptions

    [uuidv4()] draws a fresh token each time it is called; the generator
    is the state, a token is the number of draws made before it.  A
    computation either returns a value and the generator after it, or
    throws. *)
(* ================================================================== *)

Definition IdGen : Type := nat.

Definition M (A : Type) : Type := IdGen -> JS.completion (A * IdGen).

Definition ret {A : Type} (a : A) : M A := fun s => JS.Normal (a, s).

Definition bind {A B : Type} (m : M A) (f : A -> M B) : M B :=
  fun s =>
    match m s with
    | JS.Normal (a, s') => f a s'
    | JS.Throw e => JS.Throw e
    end.

Definition throw {A : Type} (e : JS.exn) : M A := fun _ => JS.Throw e.

Definition uuidv4 : M nat := fun s => JS.Normal (s, S s).

Declare Scope js_scope.
Delimit Scope js_scope with js.
Notation "x <- m ;; k" := (bind m (fun x => k))
  (at level 61, m at next level, right associativity) : js_scope.

(** [l.map(f)] for an [f] that draws identities or throws. *)
Fixpoint mapM {A B : Type} (f : A -> M B) (l : list A) : M (list B) :=
  match l with
  | [] => ret []
  | a :: l' => (b <- f a ;; bs <- mapM f l' ;; ret (b :: bs))%js
  end.

(** [for (const x of l) { acc = body(acc, x) }] *)
Fixpoint forOf {A B : Type} (body : B -> A -> M B) (l : list A) (acc : B) : M B :=
  match l with
  | [] => ret acc
  | a :: l' => (acc' <- body acc a ;; forOf body l' acc')%js
  end.

(* ================================================================== *)
(** ** SqlReducer.ts *)
(* ================================================================== *)

Section SqlReducer.

Context `{Num : JsNumber} `{Pay : Payloads} `{Imp : @Imports Num Pay}.

Import Graphlib.

(** [node.nodeId.toString()], the key of a node in the graph. *)
Definition nodeKey {A : Type} `{SqlNodeLike A} (node : A) : string :=
  JS.toString (JS.Int (nodeIdOf node)).

(** Modelled from the spec: [generateGraph] of PlanGraphUtils is not
    among the sources.  Section 4.3: the graph is built fresh from the
    node list and the edge list; every node becomes a graph node under
    the key [nodeId.toString()], then every edge is set between the keys
    of its end points. *)
Definition generateGraph {A : Type} `{SqlNodeLike A}
    (edges : list EnrichedSqlEdge) (allNodes : list A) : Graph :=
  let g := fold_left (fun g node => setNode g (nodeKey node)) allNodes empty in
  fold_left
    (fun g edge => setEdge g (JS.toString (fromId edge)) (JS.toString (toId edge)))
    edges g.

(** *** cleanUpDAG *)

(** [inEdges.forEach((inEdge) => g.setEdge(inEdge.v, target.w))] *)
Definition rewire (g : Graph) (inEdges : list Edge) (target : Edge) : Graph :=
  fold_left (fun g inEdge => setEdge g (v inEdge) (w target)) inEdges g.

(** The body of [notVisibleNodes.forEach]. *)
Definition contractNode (g : Graph) (node : EnrichedSqlNode.t) : Graph :=
  let nodeId := nodeKey node in
  match inEdges g nodeId with
  | None => g
  | Some inEdges =>
      match outEdges g nodeId with
      | None | Some [] => g
      | Some (target :: _) =>
          let g' := rewire g inEdges target in
          removeNode g' nodeId
      end
  end.

Definition visibleIds (visibleNodes : list EnrichedSqlNode.t) : list JS.jsint :=
  map (fun node => JS.Int (EnrichedSqlNode.nodeId node)) visibleNodes.

Definition notVisible (allNodes visibleNodes : list EnrichedSqlNode.t)
    : list EnrichedSqlNode.t :=
  filter
    (fun node =>
       negb (JS.Array_includes (visibleIds visibleNodes)
                               (JS.Int (EnrichedSqlNode.nodeId node))))
    allNodes.

(** The graph once the [forEach] is over. *)
Definition contractedGraph (edges : list EnrichedSqlEdge)
    (allNodes visibleNodes : list EnrichedSqlNode.t) : Graph :=
  fold_left contractNode (notVisible allNodes visibleNodes)
            (generateGraph edges allNodes).

Definition cleanUpDAG (edges : list EnrichedSqlEdge)
    (allNodes visibleNodes : list EnrichedSqlNode.t) : list EnrichedSqlEdge :=
  let g := contractedGraph edges allNodes visibleNodes in
  let visibleNodesIds := visibleIds visibleNodes in
  let filteredEdges :=
    map (fun edge => {| fromId := JS.parseInt (v edge); toId := JS.parseInt (w edge) |})
        (Graphlib.edges g) in
  let removeRedundentEdges :=
    filter
      (fun edge =>
         JS.Array_includes visibleNodesIds (toId edge) &&
         JS.Array_includes visibleNodesIds (fromId edge))
      filteredEdges in
  removeRedundentEdges.

(** *** parseNodePlan *)

(** The [case] labels of the [switch], in source order, each with the
    type of the clause it falls into.  ["CometFilter"] is listed twice,
    as in the source. *)
Definition switchCases : list (string * PlanType) :=
  [ ("PhotonGroupingAgg", HashAggregate);
    ("GpuHashAggregate", HashAggregate);
    ("!CometGpuHashAggregate", HashAggregate);
    ("HashAggregate", HashAggregate);
    ("TakeOrderedAndProject", TakeOrderedAndProject);
    ("CollectLimit", CollectLimit);
    ("Coalesce", Coalesce);
    ("Execute InsertIntoHadoopFsRelationCommand", WriteToHDFS);
    ("PhotonFilter", Filter);
    ("GpuFilter", Filter);
    ("CometFilter", Filter);
    ("Filter", Filter);
    ("Exchange", Exchange);
    ("CometExchange", Exchange);
    ("CometColumnarExchange", Exchange);
    ("GpuColumnarExchange", Exchange);
    ("PhotonProject", Project);
    ("GpuProject", Project);
    ("CometFilter", Project);
    ("Project", Project);
    ("GpuSort", Sort);
    ("CometSort", Sort);
    ("Sort", Sort);
    ("Window", Window) ].

(** The parser each clause calls. *)
Definition clauseParser {A : Type} `{SqlNodeLike A} (ty : PlanType) (node : A)
    (plan : SQLNodePlan.t) : JS.completion PlanBody :=
  let d := SQLNodePlan.planDescription plan in
  match ty with
  | HashAggregate => parseHashAggregate d
  | TakeOrderedAndProject => parseTakeOrderedAndProject d
  | CollectLimit => parseCollectLimit d
  | Coalesce => parseCoalesce d
  | WriteToHDFS => parseWriteToHDFS d
  | Filter => parseFilter d
  | Exchange => parseExchange d
  | Project => parseProject d
  | Sort => parseSort d
  | Window => parseWindow d
  | FileScan => parseFileScan d (nodeNameOf node)
  | Join => parseJoin d
  end.

(** [return { type: ty, plan: parser(...) }] *)
Definition clause {A : Type} `{SqlNodeLike A} (ty : PlanType) (node : A)
    (plan : SQLNodePlan.t) : JS.completion (option ParsedNodePlan.t) :=
  match clauseParser ty node plan with
  | JS.Normal p =>
      JS.Normal (Some {| ParsedNodePlan.type := ty; ParsedNodePlan.plan := p |})
  | JS.Throw e => JS.Throw e
  end.

(** The [try] block: the switch runs the clause of the first label
    equal to the node name; with none, the two [includes] tests. *)
Definition parseNodePlanTry {A : Type} `{SqlNodeLike A} (node : A)
    (plan : SQLNodePlan.t) : JS.completion (option ParsedNodePlan.t) :=
  match find (fun c => String.eqb (nodeNameOf node) (fst c)) switchCases with
  | Some (_, ty) => clause ty node plan
  | None =>
      if JS.includes (nodeNameOf node) "Scan" then
        clause FileScan node plan
      else if JS.includes (nodeNameOf node) "Join" then
        clause Join node plan
      else JS.Normal None
  end.

Definition parseNodePlan {A : Type} `{SqlNodeLike A} (node : A)
    (plan : SQLNodePlan.t) : option ParsedNodePlan.t :=
  match parseNodePlanTry node plan with
  | JS.Normal r => r
  | JS.Throw _ => None        (* catch: console.log, then undefined *)
  end.

(** *** Durations *)

Definition getMetricDuration (metricName : string)
    (metrics : list EnrichedSqlMetric) : option number :=
  match find (fun metric => String.eqb (name metric) metricName) metrics with
  | None => None
  | Some metric =>
      let durationStr := value metric in
      let totalDurationStr := extractTotalFromStatisticsMetric durationStr in
      timeStringToMilliseconds totalDurationStr
  end.

(** [x ?? d] *)
Definition orElse {A : Type} (x : option A) (d : A) : A :=
  match x with Some a => a | None => d end.

Definition calcCodegenDuration (metrics : list EnrichedSqlMetric) : option number :=
  getMetricDuration "duration" metrics.

Definition calcExchangeMetrics (nodeName : string)
    (metrics : list EnrichedSqlMetric) : option ExchangeMetrics.t :=
  if String.eqb nodeName "Exchange" then
    let writeDuration := orElse (getMetricDuration "shuffle write time" metrics) (ofZ 0) in
    let readDuration :=
      add (add (orElse (getMetricDuration "fetch wait time" metrics) (ofZ 0))
               (orElse (getMetricDuration "remote reqs duration" metrics) (ofZ 0)))
          (orElse (getMetricDuration "remote merged reqs duration" metrics) (ofZ 0)) in
    Some {| ExchangeMetrics.writeDuration := writeDuration;
            ExchangeMetrics.readDuration := readDuration;
            ExchangeMetrics.duration := add writeDuration readDuration |}
  else None.

(** The sum on the two lines after [const duration = ...] is a
    statement of its own; its value is dropped. *)
Definition calcBroadcastExchangeDuration (nodeName : string)
    (metrics : list EnrichedSqlMetric) : option number :=
  if String.eqb nodeName "BroadcastExchange" then
    let duration := orElse (getMetricDuration "time to broadcast" metrics) (ofZ 0) in
    Some duration
  else None.

(** *** Derived metrics *)

(** [l.filter(x => x !== null)] *)
Fixpoint notNull {A : Type} (l : list (option A)) : list A :=
  match l with
  | [] => []
  | Some a :: l' => a :: notNull l'
  | None :: l' => notNull l'
  end.

(** [allNodes.find(n => n.nodeId.toString() === key)] *)
Definition findByKey (allNodes : list EnrichedSqlNode.t) (key : string)
    : option EnrichedSqlNode.t :=
  find (fun n => String.eqb (nodeKey n) key) allNodes.

(** [let inputRows = 0; const inputNode = findLastNodeWithInputRows(...);
    if (inputNode) { ... inputRows = foundInputRows }]: the rows of the
    node found, 0 when none is found or it exposes no row count. *)
Definition filterInputRows (node : EnrichedSqlNode.t) (graph : Graph)
    (allNodes : list EnrichedSqlNode.t) : number :=
  match findLastNodeWithInputRows node graph allNodes with
  | Some inputNode =>
      match getRowsFromMetrics (Some (EnrichedSqlNode.metrics inputNode)) with
      | Some foundInputRows => foundInputRows
      | None => ofZ 0
      end
  | None => ofZ 0
  end.

Definition addFilterRatioMetric (node : EnrichedSqlNode.t)
    (updatedMetrics : list EnrichedSqlMetric) (graph : Graph)
    (allNodes : list EnrichedSqlNode.t) : option EnrichedSqlMetric :=
  if JS.includes (EnrichedSqlNode.nodeName node) "Filter"
     || String.eqb (EnrichedSqlNode.enrichedName node) "Distinct"
  then
    let inputRows := filterInputRows node graph allNodes in
    if numEq inputRows (ofZ 0) then None
    else
      match find (fun m => JS.includes (name m) "rows") updatedMetrics with
      | None => None
      | Some outputRowsMetric =>
          let outputRows := parseFloat (JS.removeCommas (value outputRowsMetric)) in
          if isNaN outputRows then None
          else
            let filteredRowsPercentage :=
              toFixed (calculatePercentage (sub inputRows outputRows) inputRows) 2 in
            Some {| name := "Rows Filtered";
                    value := filteredRowsPercentage ++ "%" |}
      end
  else None.

Definition addCrossJoinFilterRatioMetric (node : EnrichedSqlNode.t)
    (updatedMetrics : list EnrichedSqlMetric) (graph : Graph)
    (allNodes : list EnrichedSqlNode.t) : option (list EnrichedSqlMetric) :=
  if String.eqb (EnrichedSqlNode.nodeName node) "BroadcastNestedLoopJoin"
     || String.eqb (EnrichedSqlNode.nodeName node) "CartesianProduct"
  then
    match inEdges graph (nodeKey node) with
    | None => None
    | Some inputEdges =>
        if negb (Nat.eqb (List.length inputEdges) 2) then None
        else
          let inputNodes := map (fun edge => findByKey allNodes (v edge)) inputEdges in
          let inputNodesRows :=
            notNull
              (map (fun node =>
                      getRowsFromMetrics (option_map EnrichedSqlNode.metrics node))
                   inputNodes) in
          match inputNodesRows with
          | [rows0; rows1] =>
              match getRowsFromMetrics (Some updatedMetrics) with
              | None => None
              | Some crossJoinRows =>
                  let crossJoinScannedRows := mul rows0 rows1 in
                  let crossJoinFilteredRatio :=
                    toFixed
                      (sub (ofZ 100)
                           (calculatePercentage crossJoinRows crossJoinScannedRows))
                      2 in
                  Some [ {| name := "Cross Join Scanned Rows";
                            value := numToString crossJoinScannedRows |};
                         {| name := "Rows Filtered";
                            value := crossJoinFilteredRatio ++ "%" |} ]
              end
          | _ => None
          end
    end
  else None.

(** The row count one input edge of a join resolves to. *)
Definition joinInputRows (graph : Graph) (allNodes : list EnrichedSqlNode.t)
    (edge : Edge) : option number :=
  match findByKey allNodes (v edge) with
  | None => None
  | Some node =>
      match findLastNodeWithInputRows node graph allNodes with
      | None => None
      | Some nodeWithRows =>
          getRowsFromMetrics (Some (EnrichedSqlNode.metrics nodeWithRows))
      end
  end.

Definition addJoinMetrics (node : EnrichedSqlNode.t)
    (updatedMetrics : list EnrichedSqlMetric) (graph : Graph)
    (allNodes : list EnrichedSqlNode.t) : option (list EnrichedSqlMetric) :=
  if String.eqb (EnrichedSqlNode.nodeName node) "BroadcastHashJoin"
     || String.eqb (EnrichedSqlNode.nodeName node) "SortMergeJoin"
     || String.eqb (EnrichedSqlNode.nodeName node) "ShuffleHashJoin"
  then
    match inEdges graph (nodeKey node) with
    | None => None
    | Some inputEdges =>
        if negb (Nat.eqb (List.length inputEdges) 2) then None
        else
          let inputRows := notNull (map (joinInputRows graph allNodes) inputEdges) in
          match inputRows with
          | [rows0; rows1] =>
              match getRowsFromMetrics (Some updatedMetrics) with
              | None => None
              | Some joinOutputRows =>
                  let maxInputRows := Math_max rows0 rows1 in
                  let joinRatio :=
                    if negb (numEq maxInputRows (ofZ 0))
                    then div joinOutputRows maxInputRows
                    else ofZ 0 in
                  if gt joinRatio (ofZ 1) then
                    let joinRatioPercentage := toFixed joinRatio 1 in
                    Some [ {| name := "join rows increase ratio";
                              value := joinRatioPercentage ++ "X" |} ]
                  else
                    let joinRatioPercentage :=
                      toFixed (calculatePercentage joinOutputRows maxInputRows) 2 in
                    Some [ {| name := "join rows filtered";
                              value := joinRatioPercentage ++ "%" |} ]
              end
          | _ => None
          end
    end
  else None.

Definition updateNodeMetrics (node : EnrichedSqlNode.t)
    (metrics : list EnrichedSqlMetric) (graph : Graph)
    (allNodes : list EnrichedSqlNode.t) : list EnrichedSqlMetric :=
  let updatedOriginalMetrics := calcNodeMetrics (EnrichedSqlNode.type node) metrics in
  let filterRatio := addFilterRatioMetric node updatedOriginalMetrics graph allNodes in
  let crossJoinFilterRatio :=
    addCrossJoinFilterRatioMetric node updatedOriginalMetrics graph allNodes in
  let joinMetrics := addJoinMetrics node updatedOriginalMetrics graph allNodes in
  updatedOriginalMetrics
    ++ match filterRatio with Some m => [m] | None => [] end
    ++ match crossJoinFilterRatio with Some ms => ms | None => [] end
    ++ match joinMetrics with Some ms => ms | None => [] end.

(** *** calculateSql *)

(** [extractCodegenId]: [parseInt] of the node name less its first
    "WholeStageCodegen (" and then its first ")". *)
Definition extractCodegenId (node : SqlNode.t) : JS.jsint :=
  JS.parseInt
    (JS.replace
       (JS.replace (SqlNode.nodeName node) "WholeStageCodegen (" EmptyString)
       ")" EmptyString).

(** The callback of [enrichedSql.nodes.map]: one fresh object per node. *)
Definition typeEnrich (sql : SparkSQL.t) (plan : option SQLPlan.t)
    (icebergCommit : option IcebergCommitsInfo.t) (node : SqlNode.t)
    : EnrichedSqlNode.t :=
  let type := calcNodeType (SqlNode.nodeName node) in
  let nodePlan :=
    match plan with
    | Some plan =>
        find (fun planNode => Z.eqb (SQLNodePlan.id planNode) (SqlNode.nodeId node))
             (SQLPlan.nodesPlan plan)
    | None => None
    end in
  let parsedPlan :=
    match nodePlan with
    | Some nodePlan => parseNodePlan node nodePlan
    | None => None
    end in
  let isCodegenNode := JS.includes (SqlNode.nodeName node) "WholeStageCodegen" in
  {| EnrichedSqlNode.nodeId := SqlNode.nodeId node;
     EnrichedSqlNode.nodeName := SqlNode.nodeName node;
     EnrichedSqlNode.metrics := SqlNode.metrics node;
     EnrichedSqlNode.rddScopeId :=
       match nodePlan with
       | Some nodePlan => SQLNodePlan.rddScopeId nodePlan
       | None => None
       end;
     EnrichedSqlNode.type := type;
     EnrichedSqlNode.parsedPlan := parsedPlan;
     EnrichedSqlNode.enrichedName :=
       nodeEnrichedNameBuilder (SqlNode.nodeName node) parsedPlan;
     EnrichedSqlNode.isCodegenNode := isCodegenNode;
     EnrichedSqlNode.wholeStageCodegenId :=
       if isCodegenNode then Some (extractCodegenId node)
       else option_map JS.Int (SqlNode.wholeStageCodegenId node);
     EnrichedSqlNode.icebergCommit :=
       if String.eqb type "output" || Nat.eqb (List.length (SparkSQL.nodes sql)) 1
       then icebergCommit else None;
     EnrichedSqlNode.exchangeMetrics := None;
     EnrichedSqlNode.exchangeBroadcastDuration := None;
     EnrichedSqlNode.codegenDuration := None |}.

(** [{ ...node, type: t }] *)
Definition withType (node : EnrichedSqlNode.t) (t : NodeType) : EnrichedSqlNode.t :=
  {| EnrichedSqlNode.nodeId := EnrichedSqlNode.nodeId node;
     EnrichedSqlNode.nodeName := EnrichedSqlNode.nodeName node;
     EnrichedSqlNode.metrics := EnrichedSqlNode.metrics node;
     EnrichedSqlNode.wholeStageCodegenId := EnrichedSqlNode.wholeStageCodegenId node;
     EnrichedSqlNode.rddScopeId := EnrichedSqlNode.rddScopeId node;
     EnrichedSqlNode.type := t;
     EnrichedSqlNode.parsedPlan := EnrichedSqlNode.parsedPlan node;
     EnrichedSqlNode.enrichedName := EnrichedSqlNode.enrichedName node;
     EnrichedSqlNode.isCodegenNode := EnrichedSqlNode.isCodegenNode node;
     EnrichedSqlNode.icebergCommit := EnrichedSqlNode.icebergCommit node;
     EnrichedSqlNode.exchangeMetrics := EnrichedSqlNode.exchangeMetrics node;
     EnrichedSqlNode.exchangeBroadcastDuration :=
       EnrichedSqlNode.exchangeBroadcastDuration node;
     EnrichedSqlNode.codegenDuration := EnrichedSqlNode.codegenDuration node |}.

(** [{ ...node, codegenDuration: d }] *)
Definition withCodegenDuration (node : EnrichedSqlNode.t) (d : option number)
    : EnrichedSqlNode.t :=
  {| EnrichedSqlNode.nodeId := EnrichedSqlNode.nodeId node;
     EnrichedSqlNode.nodeName := EnrichedSqlNode.nodeName node;
     EnrichedSqlNode.metrics := EnrichedSqlNode.metrics node;
     EnrichedSqlNode.wholeStageCodegenId := EnrichedSqlNode.wholeStageCodegenId node;
     EnrichedSqlNode.rddScopeId := EnrichedSqlNode.rddScopeId node;
     EnrichedSqlNode.type := EnrichedSqlNode.type node;
     EnrichedSqlNode.parsedPlan := EnrichedSqlNode.parsedPlan node;
     EnrichedSqlNode.enrichedName := EnrichedSqlNode.enrichedName node;
     EnrichedSqlNode.isCodegenNode := EnrichedSqlNode.isCodegenNode node;
     EnrichedSqlNode.icebergCommit := EnrichedSqlNode.icebergCommit node;
     EnrichedSqlNode.exchangeMetrics := EnrichedSqlNode.exchangeMetrics node;
     EnrichedSqlNode.exchangeBroadcastDuration :=
       EnrichedSqlNode.exchangeBroadcastDuration node;
     EnrichedSqlNode.codegenDuration := d |}.

(** [{ ...node, metrics: m, exchangeMetrics: x, exchangeBroadcastDuration: b }] *)
Definition withMetrics (node : EnrichedSqlNode.t) (m : list EnrichedSqlMetric)
    (x : option ExchangeMetrics.t) (b : option number) : EnrichedSqlNode.t :=
  {| EnrichedSqlNode.nodeId := EnrichedSqlNode.nodeId node;
     EnrichedSqlNode.nodeName := EnrichedSqlNode.nodeName node;
     EnrichedSqlNode.metrics := m;
     EnrichedSqlNode.wholeStageCodegenId := EnrichedSqlNode.wholeStageCodegenId node;
     EnrichedSqlNode.rddScopeId := EnrichedSqlNode.rddScopeId node;
     EnrichedSqlNode.type := EnrichedSqlNode.type node;
     EnrichedSqlNode.parsedPlan := EnrichedSqlNode.parsedPlan node;
     EnrichedSqlNode.enrichedName := EnrichedSqlNode.enrichedName node;
     EnrichedSqlNode.isCodegenNode := EnrichedSqlNode.isCodegenNode node;
     EnrichedSqlNode.icebergCommit := EnrichedSqlNode.icebergCommit node;
     EnrichedSqlNode.exchangeMetrics := x;
     EnrichedSqlNode.exchangeBroadcastDuration := b;
     EnrichedSqlNode.codegenDuration := EnrichedSqlNode.codegenDuration node |}.

(** **** The node objects and their references

    [typeEnrichedNodes] holds one object per node.  [filter] builds new
    arrays of the same objects, and [lastNode.type = "output"] writes to
    the object itself: the assignment is seen through every array that
    holds it.  The objects live in a heap, addressed by their index in
    [typeEnrichedNodes]; the filtered arrays are lists of addresses. *)

Definition Ref : Type := nat.
Definition Heap : Type := list EnrichedSqlNode.t.

Definition deref (h : Heap) (r : Ref) : option EnrichedSqlNode.t := nth_error h r.

(** [refs.filter(p)], [p] reading the objects. *)
Definition filterRefs (h : Heap) (p : EnrichedSqlNode.t -> bool)
    (refs : list Ref) : list Ref :=
  filter (fun r => match deref h r with Some node => p node | None => false end) refs.

(** The objects an array of references holds. *)
Definition objects (h : Heap) (refs : list Ref) : list EnrichedSqlNode.t :=
  notNull (map (deref h) refs).

(** [r.type = t] *)
Fixpoint setType (h : Heap) (r : Ref) (t : NodeType) : Heap :=
  match h, r with
  | [], _ => []
  | node :: h', O => withType node t :: h'
  | node :: h', S r' => node :: setType h' r' t
  end.

(** [a[a.length - 1]]: [undefined] on the empty array. *)
Definition lastOf {A : Type} (a : list A) : option A :=
  match a with
  | [] => None
  | _ => nth_error a (List.length a - 1)
  end.

Definition isOutput (node : EnrichedSqlNode.t) : bool :=
  String.eqb (EnrichedSqlNode.type node) "output".

Definition notAqeWrapper (node : EnrichedSqlNode.t) : bool :=
  negb (String.eqb (EnrichedSqlNode.nodeName node) "AdaptiveSparkPlan") &&
  negb (String.eqb (EnrichedSqlNode.nodeName node) "ResultQueryStage").

(** The [if] that forces an output node: the heap after it. *)
Definition forceOutput (h : Heap) (onlyGraphNodes : list Ref) : JS.completion Heap :=
  if Nat.eqb (List.length (filterRefs h isOutput onlyGraphNodes)) 0 then
    let aqeFilteredNodes := filterRefs h notAqeWrapper onlyGraphNodes in
    match lastOf aqeFilteredNodes with
    | None => JS.Throw JS.TypeError          (* lastNode is undefined *)
    | Some lastNode => JS.Normal (setType h lastNode "output")
    end
  else JS.Normal h.

Definition typeEnrichedNodes (sql : SparkSQL.t) (plan : option SQLPlan.t)
    (icebergCommit : option IcebergCommitsInfo.t) : Heap :=
  map (typeEnrich sql plan icebergCommit) (SparkSQL.nodes sql).

Definition graphNodeRefs (h : Heap) : list Ref :=
  filterRefs h (fun node => negb (EnrichedSqlNode.isCodegenNode node))
             (seq 0 (List.length h)).

(** [onlyGraphNodes] as the code after the [if] reads it. *)
Definition classifiedGraphNodes (sql : SparkSQL.t) (plan : option SQLPlan.t)
    (icebergCommit : option IcebergCommitsInfo.t)
    : JS.completion (list EnrichedSqlNode.t) :=
  let h := typeEnrichedNodes sql plan icebergCommit in
  let onlyGraphNodes := graphNodeRefs h in
  match forceOutput h onlyGraphNodes with
  | JS.Normal h' => JS.Normal (objects h' onlyGraphNodes)
  | JS.Throw e => JS.Throw e
  end.

Definition liftC {A : Type} (c : JS.completion A) : M A :=
  fun s => match c with JS.Normal a => JS.Normal (a, s) | JS.Throw e => JS.Throw e end.

Definition hasType (ts : list string) (node : EnrichedSqlNode.t) : bool :=
  existsb (String.eqb (EnrichedSqlNode.type node)) ts.

Definition calculateSql (sql : SparkSQL.t) (plan : option SQLPlan.t)
    (icebergCommit : option IcebergCommitsInfo.t) (stages : SparkStagesStore)
    : M EnrichedSparkSQL.t :=
  let originalNumOfNodes := List.length (SparkSQL.nodes sql) in
  let h := typeEnrichedNodes sql plan icebergCommit in
  let onlyCodeGenNodes :=
    map (fun node =>
           let codegenDuration := calcCodegenDuration (EnrichedSqlNode.metrics node) in
           withCodegenDuration node codegenDuration)
        (filter EnrichedSqlNode.isCodegenNode h) in
  (onlyGraphNodes <- liftC (classifiedGraphNodes sql plan icebergCommit) ;;
   let metricEnrichedNodes :=
     map (fun node =>
            let exchangeMetrics :=
              calcExchangeMetrics (EnrichedSqlNode.nodeName node)
                                  (EnrichedSqlNode.metrics node) in
            let exchangeBroadcastDuration :=
              calcBroadcastExchangeDuration (EnrichedSqlNode.nodeName node)
                                            (EnrichedSqlNode.metrics node) in
            let graph := generateGraph (SparkSQL.edges sql) (SparkSQL.nodes sql) in
            withMetrics node
              (updateNodeMetrics node (EnrichedSqlNode.metrics node) graph onlyGraphNodes)
              exchangeMetrics exchangeBroadcastDuration)
         onlyGraphNodes in
   let ioNodes := filter (hasType ["input"; "output"; "join"]) onlyGraphNodes in
   let basicNodes :=
     filter (hasType ["input"; "output"; "join"; "transformation"]) onlyGraphNodes in
   let advancedNodes :=
     filter (fun node => negb (String.eqb (EnrichedSqlNode.type node) "other"))
            onlyGraphNodes in
   let ioNodesIds := map EnrichedSqlNode.nodeId ioNodes in
   let basicNodesIds := map EnrichedSqlNode.nodeId basicNodes in
   let advancedNodesIds := map EnrichedSqlNode.nodeId advancedNodes in
   let basicFilteredEdges := cleanUpDAG (SparkSQL.edges sql) onlyGraphNodes basicNodes in
   let advancedFilteredEdges :=
     cleanUpDAG (SparkSQL.edges sql) onlyGraphNodes advancedNodes in
   let ioFilteredEdges := cleanUpDAG (SparkSQL.edges sql) onlyGraphNodes ioNodes in
   let isSqlCommand :=
     Nat.eqb (List.length (SparkSQL.runningJobIds sql)) 0 &&
     Nat.eqb (List.length (SparkSQL.failedJobIds sql)) 0 &&
     Nat.eqb (List.length (SparkSQL.successJobIds sql)) 0 in
   uniqueId <- uuidv4 ;;
   metricUpdateId <- uuidv4 ;;
   ret {| EnrichedSparkSQL.id := SparkSQL.id sql;
          EnrichedSparkSQL.status := SparkSQL.status sql;
          EnrichedSparkSQL.duration := SparkSQL.duration sql;
          EnrichedSparkSQL.submissionTime := SparkSQL.submissionTime sql;
          EnrichedSparkSQL.runningJobIds := SparkSQL.runningJobIds sql;
          EnrichedSparkSQL.successJobIds := SparkSQL.successJobIds sql;
          EnrichedSparkSQL.failedJobIds := SparkSQL.failedJobIds sql;
          EnrichedSparkSQL.edges := SparkSQL.edges sql;
          EnrichedSparkSQL.nodes := metricEnrichedNodes;
          EnrichedSparkSQL.codegenNodes := onlyCodeGenNodes;
          EnrichedSparkSQL.filters :=
            {| Filters.io :=
                 {| Tier.nodesIds := ioNodesIds; Tier.edges := ioFilteredEdges |};
               Filters.basic :=
                 {| Tier.nodesIds := basicNodesIds; Tier.edges := basicFilteredEdges |};
               Filters.advanced :=
                 {| Tier.nodesIds := advancedNodesIds;
                    Tier.edges := advancedFilteredEdges |} |};
          EnrichedSparkSQL.uniqueId := uniqueId;
          EnrichedSparkSQL.metricUpdateId := metricUpdateId;
          EnrichedSparkSQL.isSqlCommand := isSqlCommand;
          EnrichedSparkSQL.originalNumOfNodes := originalNumOfNodes;
          EnrichedSparkSQL.submissionTimeEpoc :=
            timeStrToEpocTime (SparkSQL.submissionTime sql) |})%js.

(** *** calculateSqls and calculateSqlStore *)

Definition findPlan (plans : list SQLPlan.t) (id : JS.jsint) : option SQLPlan.t :=
  find (fun plan => JS.strictEq (JS.Int (SQLPlan.executionId plan)) id) plans.

Definition findCommit (icebergInfo : IcebergInfo.t) (id : JS.jsint)
    : option IcebergCommitsInfo.t :=
  find (fun plan => JS.strictEq (JS.Int (IcebergCommitsInfo.executionId plan)) id)
       (IcebergInfo.commitsInfo icebergInfo).

Definition calculateSqls (sqls : list SparkSQL.t) (plans : list SQLPlan.t)
    (icebergInfo : IcebergInfo.t) (stages : SparkStagesStore)
    : M (list EnrichedSparkSQL.t) :=
  mapM (fun sql =>
          let plan := findPlan plans (JS.parseInt (SparkSQL.id sql)) in
          let icebergCommit := findCommit icebergInfo (JS.parseInt (SparkSQL.id sql)) in
          calculateSql sql plan icebergCommit stages)
       sqls.

(** Case 4: [{ ...currentSql, duration, failedJobIds, runningJobIds,
    successJobIds }], the four taken from [newSql]. *)
Definition updateRunning (currentSql : EnrichedSparkSQL.t) (newSql : SparkSQL.t)
    : EnrichedSparkSQL.t :=
  {| EnrichedSparkSQL.id := EnrichedSparkSQL.id currentSql;
     EnrichedSparkSQL.status := EnrichedSparkSQL.status currentSql;
     EnrichedSparkSQL.duration := SparkSQL.duration newSql;
     EnrichedSparkSQL.submissionTime := EnrichedSparkSQL.submissionTime currentSql;
     EnrichedSparkSQL.runningJobIds := SparkSQL.runningJobIds newSql;
     EnrichedSparkSQL.successJobIds := SparkSQL.successJobIds newSql;
     EnrichedSparkSQL.failedJobIds := SparkSQL.failedJobIds newSql;
     EnrichedSparkSQL.edges := EnrichedSparkSQL.edges currentSql;
     EnrichedSparkSQL.nodes := EnrichedSparkSQL.nodes currentSql;
     EnrichedSparkSQL.codegenNodes := EnrichedSparkSQL.codegenNodes currentSql;
     EnrichedSparkSQL.filters := EnrichedSparkSQL.filters currentSql;
     EnrichedSparkSQL.uniqueId := EnrichedSparkSQL.uniqueId currentSql;
     EnrichedSparkSQL.metricUpdateId := EnrichedSparkSQL.metricUpdateId currentSql;
     EnrichedSparkSQL.isSqlCommand := EnrichedSparkSQL.isSqlCommand currentSql;
     EnrichedSparkSQL.originalNumOfNodes :=
       EnrichedSparkSQL.originalNumOfNodes currentSql;
     EnrichedSparkSQL.submissionTimeEpoc :=
       EnrichedSparkSQL.submissionTimeEpoc currentSql |}.

Definition findNewSql (sqls : list SparkSQL.t) (id : JS.jsint) : option SparkSQL.t :=
  find (fun existingSql => JS.strictEq (JS.parseInt (SparkSQL.id existingSql)) id) sqls.

Definition findCurrentSql (currentStore : SparkSQLStore.t) (id : JS.jsint)
    : option EnrichedSparkSQL.t :=
  find (fun existingSql => JS.strictEq (JS.parseInt (EnrichedSparkSQL.id existingSql)) id)
       (SparkSQLStore.sqls currentStore).

(** What one round of the [for] loop pushes.  [newSql] is [undefined]
    only for an id that is [NaN]; [currentSql] is [undefined] too then,
    and [calculateSql] throws reading [nodes] of [undefined]. *)
Definition mergedSql (currentStore : SparkSQLStore.t) (sqls : list SparkSQL.t)
    (plans : list SQLPlan.t) (icebergInfo : IcebergInfo.t)
    (stages : SparkStagesStore) (id : JS.jsint) : M EnrichedSparkSQL.t :=
  match findNewSql sqls id with
  | None => throw JS.TypeError
  | Some newSql =>
      let currentSql := findCurrentSql currentStore id in
      let plan := findPlan plans id in
      let icebergCommit := findCommit icebergInfo id in
      match currentSql with
      | None =>
          (* case 1 *)
          calculateSql newSql plan icebergCommit stages
      | Some currentSql =>
          if String.eqb (SparkSQL.status newSql) SqlStatus.Completed
             || String.eqb (SparkSQL.status newSql) SqlStatus.Failed
          then (* case 2 *)
            calculateSql newSql plan icebergCommit stages
          else if negb (Nat.eqb (EnrichedSparkSQL.originalNumOfNodes currentSql)
                                (List.length (SparkSQL.nodes newSql)))
          then (* case 3 *)
            calculateSql newSql plan icebergCommit stages
          else (* case 4 *)
            ret (updateRunning currentSql newSql)
      end
  end.

Definition calculateSqlStore (currentStore : option SparkSQLStore.t)
    (sqls : list SparkSQL.t) (plans : list SQLPlan.t)
    (icebergInfo : IcebergInfo.t) (stages : SparkStagesStore)
    : M SparkSQLStore.t :=
  match currentStore with
  | None =>
      (l <- calculateSqls sqls plans icebergInfo stages ;;
       ret {| SparkSQLStore.sqls := l |})%js
  | Some currentStore =>
      let sqlIds := map (fun sql => JS.parseInt (SparkSQL.id sql)) sqls in
      let minId := JS.Math_min sqlIds in
      let updatedSqls :=
        filter (fun sql => JS.lt (JS.parseInt (EnrichedSparkSQL.id sql)) minId)
               (SparkSQLStore.sqls currentStore) in
      (updatedSqls <-
         forOf (fun updatedSqls id =>
                  sql <- mergedSql currentStore sqls plans icebergInfo stages id ;;
                  ret (updatedSqls ++ [sql])%list)
               sqlIds updatedSqls ;;
       ret {| SparkSQLStore.sqls := updatedSqls |})%js
  end.

End SqlReducer.

(* ================================================================== *)
(** ** SqlReducer.ts: the metric update

    [updateSqlNodeMetrics] works on the executions of the store.  By
    then a node may carry the two optional fields of [EnrichedSqlNode]
    that [calculateSql] never sets: [stage], written by the stage
    reducer, and [storageInfo], written here.  A stored node is the node
    [calculateSql] builds together with these two fields; a stored
    execution is an [EnrichedSparkSQL] whose nodes are stored nodes. *)
(* ================================================================== *)

(** The cache description of one RDD (interfaces/CachedStorage); the
    code only passes it on. *)
Class CachedStorage : Type := { RddStorageInfo : Type }.

(** [SQLNodeStage] as far as the code reads it: the tag [type], and the
    [stageId] that the alternative tagged "onestage" has. *)
Module SQLNodeStage.
Record t : Type := { type : string; stageId : option Z }.
End SQLNodeStage.

(** A stage of [SparkStagesStore], with the two fields read here. *)
Module SparkStage.
Record record (RddStorageInfo : Type) : Type := {
  stageId : Z;
  cachedStorage : option (list RddStorageInfo)
}.
Arguments stageId {RddStorageInfo} _.
Arguments cachedStorage {RddStorageInfo} _.
Abbreviation t := (record RddStorageInfo).
End SparkStage.

(** An entry of [NodesMetrics]. *)
Module NodeMetrics.
Record t : Type := { id : Z; metrics : list EnrichedSqlMetric }.
End NodeMetrics.

Module NodeStorageInfo.
Record record (RddStorageInfo : Type) : Type := {
  nodeId : Z;
  storageInfo : option RddStorageInfo
}.
Arguments nodeId {RddStorageInfo} _.
Arguments storageInfo {RddStorageInfo} _.
Abbreviation t := (record RddStorageInfo).
End NodeStorageInfo.

Module StoredSqlNode.
Record record (number PlanBody IcebergCommit RddStorageInfo : Type) : Type := {
  node : EnrichedSqlNode.record number PlanBody IcebergCommit;
  stage : option SQLNodeStage.t;
  storageInfo : option RddStorageInfo
}.
Arguments node {number PlanBody IcebergCommit RddStorageInfo} _.
Arguments stage {number PlanBody IcebergCommit RddStorageInfo} _.
Arguments storageInfo {number PlanBody IcebergCommit RddStorageInfo} _.
Abbreviation t := (record number PlanBody IcebergCommit RddStorageInfo).
End StoredSqlNode.

Module StoredSparkSQL.
Record record (number PlanBody IcebergCommit RddStorageInfo : Type) : Type := {
  id : string;
  status : string;
  duration : number;
  submissionTime : string;
  runningJobIds : list Z;
  successJobIds : list Z;
  failedJobIds : list Z;
  edges : list EnrichedSqlEdge;
  nodes : list (StoredSqlNode.record number PlanBody IcebergCommit RddStorageInfo);
  codegenNodes : list (StoredSqlNode.record number PlanBody IcebergCommit RddStorageInfo);
  filters : Filters.t;
  uniqueId : nat;
  metricUpdateId : nat;
  isSqlCommand : bool;
  originalNumOfNodes : nat;
  submissionTimeEpoc : number
}.
Arguments id {number PlanBody IcebergCommit RddStorageInfo} _.
Arguments status {number PlanBody IcebergCommit RddStorageInfo} _.
Arguments duration {number PlanBody IcebergCommit RddStorageInfo} _.
Arguments submissionTime {number PlanBody IcebergCommit RddStorageInfo} _.
Arguments runningJobIds {number PlanBody IcebergCommit RddStorageInfo} _.
Arguments successJobIds {number PlanBody IcebergCommit RddStorageInfo} _.
Arguments failedJobIds {number PlanBody IcebergCommit RddStorageInfo} _.
Arguments edges {number PlanBody IcebergCommit RddStorageInfo} _.
Arguments nodes {number PlanBody IcebergCommit RddStorageInfo} _.
Arguments codegenNodes {number PlanBody IcebergCommit RddStorageInfo} _.
Arguments filters {number PlanBody IcebergCommit RddStorageInfo} _.
Arguments uniqueId {number PlanBody IcebergCommit RddStorageInfo} _.
Arguments metricUpdateId {number PlanBody IcebergCommit RddStorageInfo} _.
Arguments isSqlCommand {number PlanBody IcebergCommit RddStorageInfo} _.
Arguments originalNumOfNodes {number PlanBody IcebergCommit RddStorageInfo} _.
Arguments submissionTimeEpoc {number PlanBody IcebergCommit RddStorageInfo} _.
Abbreviation t := (record number PlanBody IcebergCommit RddStorageInfo).
End StoredSparkSQL.

Module StoredSQLStore.
Record record (number PlanBody IcebergCommit RddStorageInfo : Type) : Type :=
  { sqls : list (StoredSparkSQL.record number PlanBody IcebergCommit RddStorageInfo) }.
Arguments sqls {number PlanBody IcebergCommit RddStorageInfo} _.
Abbreviation t := (record number PlanBody IcebergCommit RddStorageInfo).
End StoredSQLStore.

Section MetricUpdate.

Context `{Num : JsNumber} `{Pay : Payloads} `{Imp : @Imports Num Pay}
        `{Sto : CachedStorage}.

Import Graphlib.

(** An execution as [calculateSql] returns it, taken as an execution of
    the store: no node has a [stage] or a [storageInfo] yet. *)
Definition storedNode (node : EnrichedSqlNode.t) : StoredSqlNode.t :=
  {| StoredSqlNode.node := node;
     StoredSqlNode.stage := None;
     StoredSqlNode.storageInfo := None |}.

Definition storedSql (sql : EnrichedSparkSQL.t) : StoredSparkSQL.t :=
  {| StoredSparkSQL.id := EnrichedSparkSQL.id sql;
     StoredSparkSQL.status := EnrichedSparkSQL.status sql;
     StoredSparkSQL.duration := EnrichedSparkSQL.duration sql;
     StoredSparkSQL.submissionTime := EnrichedSparkSQL.submissionTime sql;
     StoredSparkSQL.runningJobIds := EnrichedSparkSQL.runningJobIds sql;
     StoredSparkSQL.successJobIds := EnrichedSparkSQL.successJobIds sql;
     StoredSparkSQL.failedJobIds := EnrichedSparkSQL.failedJobIds sql;
     StoredSparkSQL.edges := EnrichedSparkSQL.edges sql;
     StoredSparkSQL.nodes := map storedNode (EnrichedSparkSQL.nodes sql);
     StoredSparkSQL.codegenNodes := map storedNode (EnrichedSparkSQL.codegenNodes sql);
     StoredSparkSQL.filters := EnrichedSparkSQL.filters sql;
     StoredSparkSQL.uniqueId := EnrichedSparkSQL.uniqueId sql;
     StoredSparkSQL.metricUpdateId := EnrichedSparkSQL.metricUpdateId sql;
     StoredSparkSQL.isSqlCommand := EnrichedSparkSQL.isSqlCommand sql;
     StoredSparkSQL.originalNumOfNodes := EnrichedSparkSQL.originalNumOfNodes sql;
     StoredSparkSQL.submissionTimeEpoc := EnrichedSparkSQL.submissionTimeEpoc sql |}.

Definition storedStore (store : SparkSQLStore.t) : StoredSQLStore.t :=
  {| StoredSQLStore.sqls := map storedSql (SparkSQLStore.sqls store) |}.

(** *** calculateNodeToStorageInfo *)

(** [l.map((x, index) => f(x, index))] *)
Definition mapi {A B : Type} (f : A -> nat -> B) (l : list A) : list B :=
  map (fun ix => f (snd ix) (fst ix)) (combine (seq 0 (List.length l)) l).

(** The predicate of [nodes.filter] for one stage. *)
Definition isCacheNode (stage : SparkStage.t) (node : StoredSqlNode.t) : bool :=
  String.eqb (EnrichedSqlNode.nodeName (StoredSqlNode.node node)) "InMemoryTableScan" &&
  match StoredSqlNode.stage node with
  | None => false
  | Some nodeStage =>
      String.eqb (SQLNodeStage.type nodeStage) "onestage" &&
      match SQLNodeStage.stageId nodeStage with
      | Some stageId => Z.eqb stageId (SparkStage.stageId stage)
      | None => false
      end
  end.

Definition calculateNodeToStorageInfo (stages : list SparkStage.t)
    (nodes : list StoredSqlNode.t) : list NodeStorageInfo.t :=
  let stagesWithCachesStorage :=
    filter (fun stage =>
              match SparkStage.cachedStorage stage with
              | Some _ => true
              | None => false
              end)
           stages in
  let nodesWithStorageInfo :=
    flat_map
      (fun stage =>
         let cacheNodes := filter (isCacheNode stage) nodes in
         match SparkStage.cachedStorage stage with
         | Some cachedStorage =>
             if Nat.ltb 0 (List.length cacheNodes) then
               mapi (fun node index =>
                       {| NodeStorageInfo.nodeId :=
                            EnrichedSqlNode.nodeId (StoredSqlNode.node node);
                          NodeStorageInfo.storageInfo :=
                            if Nat.ltb index (List.length cachedStorage)
                            then nth_error cachedStorage index
                            else None |})
                    cacheNodes
             else []
         | None => []
         end)
      stagesWithCachesStorage in
  nodesWithStorageInfo.

(** *** updateSqlNodeMetrics *)

(** [{ ...node, metrics: m, exchangeMetrics: x }] *)
Definition withNodeMetrics (node : StoredSqlNode.t) (m : list EnrichedSqlMetric)
    (x : option ExchangeMetrics.t) : StoredSqlNode.t :=
  {| StoredSqlNode.node :=
       withMetrics (StoredSqlNode.node node) m x
         (EnrichedSqlNode.exchangeBroadcastDuration (StoredSqlNode.node node));
     StoredSqlNode.stage := StoredSqlNode.stage node;
     StoredSqlNode.storageInfo := StoredSqlNode.storageInfo node |}.

(** [{ ...node, codegenDuration: d }] *)
Definition withStoredCodegenDuration (node : StoredSqlNode.t) (d : option number)
    : StoredSqlNode.t :=
  {| StoredSqlNode.node := withCodegenDuration (StoredSqlNode.node node) d;
     StoredSqlNode.stage := StoredSqlNode.stage node;
     StoredSqlNode.storageInfo := StoredSqlNode.storageInfo node |}.

(** [{ ...node, storageInfo: s }] *)
Definition withStorageInfo (node : StoredSqlNode.t) (s : RddStorageInfo)
    : StoredSqlNode.t :=
  {| StoredSqlNode.node := StoredSqlNode.node node;
     StoredSqlNode.stage := StoredSqlNode.stage node;
     StoredSqlNode.storageInfo := Some s |}.

Definition matchedMetrics (sqlMetrics : list NodeMetrics.t) (node : StoredSqlNode.t)
    : list NodeMetrics.t :=
  filter (fun nodeMetrics =>
            Z.eqb (NodeMetrics.id nodeMetrics)
                  (EnrichedSqlNode.nodeId (StoredSqlNode.node node)))
         sqlMetrics.

(** The callback of [runningSql.nodes.map].  The graph and the node list
    the derived metrics read are those of the stored execution. *)
Definition updateNode (runningSql : StoredSparkSQL.t)
    (sqlMetrics : list NodeMetrics.t) (node : StoredSqlNode.t) : StoredSqlNode.t :=
  match matchedMetrics sqlMetrics node with
  | [] => node
  | matched :: _ =>
      let allNodes := map StoredSqlNode.node (StoredSparkSQL.nodes runningSql) in
      let graph := generateGraph (StoredSparkSQL.edges runningSql) allNodes in
      let metrics :=
        updateNodeMetrics (StoredSqlNode.node node) (NodeMetrics.metrics matched)
                          graph allNodes in
      let exchangeMetrics :=
        calcExchangeMetrics (EnrichedSqlNode.nodeName (StoredSqlNode.node node))
                            metrics in
      withNodeMetrics node metrics exchangeMetrics
  end.

(** The callback of [runningSql.codegenNodes.map]. *)
Definition updateCodegenNode (sqlMetrics : list NodeMetrics.t)
    (node : StoredSqlNode.t) : StoredSqlNode.t :=
  match matchedMetrics sqlMetrics node with
  | [] => node
  | matched :: _ =>
      let metrics :=
        calcNodeMetrics (EnrichedSqlNode.type (StoredSqlNode.node node))
                        (NodeMetrics.metrics matched) in
      let codegenDuration := calcCodegenDuration metrics in
      withStoredCodegenDuration node codegenDuration
  end.

(** The callback of the second [nodes.map]:
    [find(...)?.storageInfo], then the node with it when it is defined. *)
Definition attachStorageInfo (nodesWithStorageInfo : list NodeStorageInfo.t)
    (node : StoredSqlNode.t) : StoredSqlNode.t :=
  let storageInfo :=
    match find (fun nodeWithStorage =>
                  Z.eqb (NodeStorageInfo.nodeId nodeWithStorage)
                        (EnrichedSqlNode.nodeId (StoredSqlNode.node node)))
               nodesWithStorageInfo with
    | Some nodeWithStorage => NodeStorageInfo.storageInfo nodeWithStorage
    | None => None
    end in
  match storageInfo with
  | None => node
  | Some storageInfo => withStorageInfo node storageInfo
  end.

(** [{ ...runningSql, nodes, codegenNodes, metricUpdateId }] *)
Definition withUpdate (runningSql : StoredSparkSQL.t)
    (nodes codegenNodes : list StoredSqlNode.t) (metricUpdateId : nat)
    : StoredSparkSQL.t :=
  {| StoredSparkSQL.id := StoredSparkSQL.id runningSql;
     StoredSparkSQL.status := StoredSparkSQL.status runningSql;
     StoredSparkSQL.duration := StoredSparkSQL.duration runningSql;
     StoredSparkSQL.submissionTime := StoredSparkSQL.submissionTime runningSql;
     StoredSparkSQL.runningJobIds := StoredSparkSQL.runningJobIds runningSql;
     StoredSparkSQL.successJobIds := StoredSparkSQL.successJobIds runningSql;
     StoredSparkSQL.failedJobIds := StoredSparkSQL.failedJobIds runningSql;
     StoredSparkSQL.edges := StoredSparkSQL.edges runningSql;
     StoredSparkSQL.nodes := nodes;
     StoredSparkSQL.codegenNodes := codegenNodes;
     StoredSparkSQL.filters := StoredSparkSQL.filters runningSql;
     StoredSparkSQL.uniqueId := StoredSparkSQL.uniqueId runningSql;
     StoredSparkSQL.metricUpdateId := metricUpdateId;
     StoredSparkSQL.isSqlCommand := StoredSparkSQL.isSqlCommand runningSql;
     StoredSparkSQL.originalNumOfNodes := StoredSparkSQL.originalNumOfNodes runningSql;
     StoredSparkSQL.submissionTimeEpoc := StoredSparkSQL.submissionTimeEpoc runningSql |}.

(** Execution ids are strings here: [===] is string equality and [<],
    [>] compare them as strings, code unit by code unit. *)
Definition updateSqlNodeMetrics (currentStore : StoredSQLStore.t) (sqlId : string)
    (sqlMetrics : list NodeMetrics.t) (stages : list SparkStage.t)
    : M StoredSQLStore.t :=
  let runningSqls :=
    filter (fun sql => String.eqb (StoredSparkSQL.id sql) sqlId)
           (StoredSQLStore.sqls currentStore) in
  match runningSqls with
  | [] => ret currentStore
  | runningSql :: _ =>
      let nodes := map (updateNode runningSql sqlMetrics) (StoredSparkSQL.nodes runningSql) in
      let codegenNodes :=
        map (updateCodegenNode sqlMetrics) (StoredSparkSQL.codegenNodes runningSql) in
      let nodesWithStorageInfo := calculateNodeToStorageInfo stages nodes in
      let nodesEnrichedWithStorageInfo :=
        map (attachStorageInfo nodesWithStorageInfo) nodes in
      (metricUpdateId <- uuidv4 ;;
       let updatedSql :=
         withUpdate runningSql nodesEnrichedWithStorageInfo codegenNodes metricUpdateId in
       let notEffectedSqlsBefore :=
         filter (fun sql => String.ltb (StoredSparkSQL.id sql) sqlId)
                (StoredSQLStore.sqls currentStore) in
       let notEffectedSqlsAfter :=
         filter (fun sql => String.ltb sqlId (StoredSparkSQL.id sql))
                (StoredSQLStore.sqls currentStore) in
       ret {| StoredSQLStore.sqls :=
                (notEffectedSqlsBefore ++ [updatedSql] ++ notEffectedSqlsAfter)%list |})%js
  end.

End MetricUpdate.

(* ================================================================== *)
(** ** Notions the properties are stated with *)
(* ================================================================== *)

(** The key of an edge of the edge list, as [generateGraph] sets it. *)
Definition keyEdge (e : EnrichedSqlEdge) : Graphlib.Edge :=
  Graphlib.mkEdge (JS.toString (fromId e)) (JS.toString (toId e)).

Section Retyping.

Context `{Num : JsNumber} `{Pay : Payloads}.

(** What [lastNode.type = "output"] may have done to a node object:
    nothing, or set its type. *)
Definition retyped (a b : EnrichedSqlNode.t) : Prop :=
  b = a \/ b = withType a "output".

End Retyping.

(* ================================================================== *)
(** ** Running the model: exact numbers

    An implementation of [JsNumber] on the rationals, with [NaN] and the
    two infinities.  Arithmetic is exact: it agrees with the doubles as
    long as the results are representable (row counts, their sums, and the
    examples below), and does not round otherwise. *)
(* ================================================================== *)

Module QNum.

Inductive t : Type :=
| Fin (q : Q)
| NaN
| PosInf
| NegInf.

Definition ofZ (z : Z) : t := Fin (inject_Z z).

Definition isZero (q : Q) : bool := Qeq_bool q 0.
Definition isNeg (q : Q) : bool := negb (Qle_bool 0 q).

Definition neg (a : t) : t :=
  match a with
  | Fin q => Fin (Qred (- q))
  | NaN => NaN
  | PosInf => NegInf
  | NegInf => PosInf
  end.

Definition add (a b : t) : t :=
  match a, b with
  | NaN, _ | _, NaN => NaN
  | PosInf, NegInf | NegInf, PosInf => NaN
  | PosInf, _ | _, PosInf => PosInf
  | NegInf, _ | _, NegInf => NegInf
  | Fin x, Fin y => Fin (Qred (x + y))
  end.

Definition sub (a b : t) : t := add a (neg b).

(** The sign of a product or quotient with an infinite factor. *)
Definition signed (negative : bool) : t := if negative then NegInf else PosInf.

Definition mul (a b : t) : t :=
  match a, b with
  | NaN, _ | _, NaN => NaN
  | Fin x, Fin y => Fin (Qred (x * y))
  | Fin x, PosInf | PosInf, Fin x => if isZero x then NaN else signed (isNeg x)
  | Fin x, NegInf | NegInf, Fin x => if isZero x then NaN else signed (negb (isNeg x))
  | PosInf, PosInf | NegInf, NegInf => PosInf
  | PosInf, NegInf | NegInf, PosInf => NegInf
  end.

Definition div (a b : t) : t :=
  match a, b with
  | NaN, _ | _, NaN => NaN
  | Fin x, Fin y =>
      if isZero y then (if isZero x then NaN else signed (isNeg x))
      else Fin (Qred (x / y))
  | Fin _, _ => Fin 0
  | PosInf, Fin y => signed (isNeg y)
  | NegInf, Fin y => signed (negb (isNeg y))
  | _, _ => NaN
  end.

Definition gt (a b : t) : bool :=
  match a, b with
  | NaN, _ | _, NaN => false
  | Fin x, Fin y => negb (Qle_bool x y)
  | PosInf, PosInf => false
  | PosInf, _ => true
  | Fin _, NegInf => true
  | _, _ => false
  end.

Definition numEq (a b : t) : bool :=
  match a, b with
  | Fin x, Fin y => Qeq_bool x y
  | PosInf, PosInf | NegInf, NegInf => true
  | _, _ => false
  end.

Definition isNaN (a : t) : bool :=
  match a with NaN => true | _ => false end.

Definition Math_max (a b : t) : t :=
  match a, b with
  | NaN, _ | _, NaN => NaN
  | _, _ => if gt b a then b else a
  end.

Definition natString (n : Z) : string := NilZero.string_of_uint (N.to_uint (Z.to_N n)).

Fixpoint zeros (k : nat) : string :=
  match k with
  | O => EmptyString
  | S k' => String "0"%char (zeros k')
  end.

(** [x.toFixed(d)]: the integer [n] nearest to [x * 10^d], the larger one
    on a tie, printed with [d] decimals; the sign goes first.  (The
    exponent notation of magnitudes from 1e21 on is not modelled.) *)
Definition toFixed (a : t) (d : nat) : string :=
  match a with
  | NaN => "NaN"
  | PosInf => "Infinity"
  | NegInf => "-Infinity"
  | Fin q =>
      let negative := isNeg q in
      let x := Qabs q in
      let n := Qfloor (x * inject_Z (10 ^ Z.of_nat d) + (1 # 2)) in
      let m := natString n in
      let m := if Nat.leb (String.length m) d
               then zeros (d + 1 - String.length m) ++ m else m in
      let k := (String.length m - d)%nat in
      let body :=
        if Nat.eqb d 0 then m
        else String.substring 0 k m ++ "." ++ String.substring k d m in
      if negative then "-" ++ body else body
  end.

(** [x.toString()]: integers print in decimal.  The shortest decimal
    that reads back as the same double has no counterpart on the
    rationals: other values print as a fraction, which no JavaScript
    number does. *)
Definition numToString (a : t) : string :=
  match a with
  | NaN => "NaN"
  | PosInf => "Infinity"
  | NegInf => "-Infinity"
  | Fin q =>
      let r := Qred q in
      let sign := if isNeg r then "-" else EmptyString in
      if Pos.eqb (Qden r) 1 then sign ++ natString (Z.abs (Qnum r))
      else sign ++ natString (Z.abs (Qnum r)) ++ "/" ++ natString (Zpos (Qden r))
  end.

(** The digits after a decimal point: their value and their count. *)
Definition fraction (s : string) : Q :=
  match s with
  | String "."%char s' =>
      let d := JS.digits s' in
      Z.of_uint d # Pos.of_nat (Nat.pow 10 (String.length (NilEmpty.string_of_uint d)))
  | _ => 0
  end.

(** [parseFloat(s)]: leading white space, an optional sign, then
    [Infinity] or a decimal literal, digits with an optional fraction;
    [NaN] when there is no digit.  (Exponents are not modelled.) *)
Definition parseUnsigned (s : string) : t :=
  if String.prefix "Infinity" s then PosInf
  else
    let d := JS.digits s in
    let intLen := String.length (NilEmpty.string_of_uint d) in
    let rest := JS.drop intLen s in
    let hasFraction :=
      match rest with
      | String "."%char s' =>
          match JS.digits s' with Nil => false | _ => true end
      | _ => false
      end in
    match d, hasFraction with
    | Nil, false => NaN
    | _, _ => Fin (Qred (inject_Z (Z.of_uint d) + fraction rest))
    end.

Definition parseFloat (s : string) : t :=
  match JS.trimStart s with
  | String "-"%char s' => neg (parseUnsigned s')
  | String "+"%char s' => parseUnsigned s'
  | s' => parseUnsigned s'
  end.

End QNum.

#[export] Instance QNumber : JsNumber := {|
  number := QNum.t;
  ofZ := QNum.ofZ;
  add := QNum.add;
  sub := QNum.sub;
  mul := QNum.mul;
  div := QNum.div;
  gt := QNum.gt;
  numEq := QNum.numEq;
  isNaN := QNum.isNaN;
  Math_max := QNum.Math_max;
  toFixed := QNum.toFixed;
  numToString := QNum.numToString;
  parseFloat := QNum.parseFloat;
  zero_eq_zero := eq_refl;
  zero_gt_one := eq_refl
|}.

(* ================================================================== *)
(** ** Running the model: the imported functions

    An instance of [Imports] over [QNumber], to evaluate the functions on
    concrete executions.  The properties are proved for every instance. *)
(* ================================================================== *)

Module Model.

#[export] Instance payloads : Payloads := {|
  PlanBody := string;
  IcebergCommit := string;
  SparkStagesStore := unit
|}.

(** Modelled from the spec: [calcNodeType] of SqlReducerUtils is not among
    the sources.  Section 4.1: a name containing "Scan" is an [input], a
    name containing "Join" a [join]; section 8 has Filter and Exchange as
    [transformation] and HashAggregate not an [output] of its own. *)
Definition calcNodeType (nodeName : string) : NodeType :=
  if JS.includes nodeName "Scan" then "input"
  else if JS.includes nodeName "Join" then "join"
  else if existsb (String.eqb nodeName) ["Filter"; "Exchange"; "HashAggregate"]
       then "transformation"
  else "other".

(** Modelled from the spec: [calcNodeMetrics] of SqlReducerUtils is not
    among the sources.  Section 4.5 has the enriched metrics be the raw
    metrics plus the derived ones: the raw metrics are kept as they are. *)
Definition calcNodeMetrics (type : NodeType) (metrics : list EnrichedSqlMetric)
    : list EnrichedSqlMetric := metrics.

(** Modelled from the spec: [extractTotalFromStatisticsMetric] of
    SqlReducerUtils is not among the sources, and the spec does not give
    the layout of a statistics metric: the value is taken to be the total. *)
Definition extractTotalFromStatisticsMetric (s : string) : string := s.

(** Modelled from the spec: [nodeEnrichedNameBuilder] of SqlReducerUtils is
    not among the sources.  Section 2 has it give the display name of an
    operator; the names of the examples are their own display names. *)
Definition nodeEnrichedNameBuilder (nodeName : string)
    (parsedPlan : option ParsedNodePlan.t) : string := nodeName.

(** Modelled from the spec: [calculatePercentage] of FormatUtils is not
    among the sources.  Section 4.5 uses it as the percentage a value is of
    a total. *)
Definition calculatePercentage (value total : QNum.t) : QNum.t :=
  QNum.mul (QNum.div value total) (QNum.ofZ 100).

(** Modelled from the spec: [timeStrToEpocTime] and
    [timeStringToMilliseconds] of FormatUtils are not among the sources,
    and the spec does not give the time formats: a time is read as a bare
    number of milliseconds. *)
Definition timeStrToEpocTime (s : string) : QNum.t := QNum.parseFloat s.

Definition timeStringToMilliseconds (s : string) : option QNum.t :=
  match QNum.parseFloat s with
  | QNum.NaN => None
  | x => Some x
  end.

(** Modelled from the spec: [getRowsFromMetrics] of PlanGraphUtils is not
    among the sources.  The glossary: the row-count metric is the counter
    of rows of a node; it is looked up and read the way
    [addFilterRatioMetric] reads the output rows, and malformed text counts
    as missing (section 7). *)
Definition getRowsFromMetrics (metrics : option (list EnrichedSqlMetric))
    : option QNum.t :=
  match metrics with
  | None => None
  | Some metrics =>
      match find (fun m => JS.includes (name m) "rows") metrics with
      | None => None
      | Some m =>
          match QNum.parseFloat (JS.removeCommas (value m)) with
          | QNum.NaN => None
          | rows => Some rows
          end
      end
  end.

(** Modelled from the spec: [findLastNodeWithInputRows] of PlanGraphUtils
    is not among the sources.  Section 4.5: from the predecessors of the
    node, single-predecessor chains are followed until a node exposing a
    row-count metric is found; [null] at the boundary of the graph; the
    walk is bounded by the number of nodes. *)
Fixpoint walkUpstream (fuel : nat) (node : EnrichedSqlNode.t)
    (graph : Graphlib.Graph) (allNodes : list EnrichedSqlNode.t)
    : option EnrichedSqlNode.t :=
  match fuel with
  | O => None
  | S fuel' =>
      match Graphlib.inEdges graph (nodeKey node) with
      | Some [edge] =>
          match findByKey allNodes (Graphlib.v edge) with
          | None => None
          | Some inputNode =>
              match getRowsFromMetrics (Some (EnrichedSqlNode.metrics inputNode)) with
              | Some _ => Some inputNode
              | None => walkUpstream fuel' inputNode graph allNodes
              end
          end
      | _ => None
      end
  end.

Definition findLastNodeWithInputRows (node : EnrichedSqlNode.t)
    (graph : Graphlib.Graph) (allNodes : list EnrichedSqlNode.t)
    : option EnrichedSqlNode.t :=
  walkUpstream (List.length allNodes) node graph allNodes.

(** Modelled from the spec: the parsers of PlanParsers/ are not among the
    sources.  Section 4.2 gives their contract, a field set or a failure,
    and not the text layouts: the field set is the description itself. *)
Definition parsePlan (planDescription : string) : JS.completion string :=
  JS.Normal planDescription.

#[export] Instance imports : @Imports QNumber payloads :=
  @Build_Imports QNumber payloads
    calcNodeType calcNodeMetrics extractTotalFromStatisticsMetric
    nodeEnrichedNameBuilder
    calculatePercentage timeStrToEpocTime timeStringToMilliseconds
    findLastNodeWithInputRows getRowsFromMetrics
    (* parseCoalesce *) parsePlan
    (* parseCollectLimit *) parsePlan
    (* parseExchange *) parsePlan
    (* parseFilter *) parsePlan
    (* parseJoin *) parsePlan
    (* parseProject *) parsePlan
    (* parseFileScan *) (fun planDescription _ => parsePlan planDescription)
    (* parseSort *) parsePlan
    (* parseTakeOrderedAndProject *) parsePlan
    (* parseWindow *) parsePlan
    (* parseWriteToHDFS *) parsePlan
    (* parseHashAggregate *) parsePlan.

End Model.

(* ================================================================== *)
(** ** Executions to run the model on *)
(* ================================================================== *)

Module Example.

Import Model.

Definition rows (count : string) : list EnrichedSqlMetric :=
  [ {| name := "number of output rows"; value := count |} ].

Definition rawNode (nodeId : Z) (nodeName : string)
    (metrics : list EnrichedSqlMetric) : SqlNode.t :=
  {| SqlNode.nodeId := nodeId;
     SqlNode.nodeName := nodeName;
     SqlNode.metrics := metrics;
     SqlNode.wholeStageCodegenId := None |}.

(** A graph node as [calculateSql] has it before the metrics are
    enriched. *)
Definition node (nodeId : Z) (nodeName : string) (type : NodeType)
    (metrics : list EnrichedSqlMetric) : EnrichedSqlNode.t :=
  {| EnrichedSqlNode.nodeId := nodeId;
     EnrichedSqlNode.nodeName := nodeName;
     EnrichedSqlNode.metrics := metrics;
     EnrichedSqlNode.wholeStageCodegenId := None;
     EnrichedSqlNode.rddScopeId := None;
     EnrichedSqlNode.type := type;
     EnrichedSqlNode.parsedPlan := None;
     EnrichedSqlNode.enrichedName := nodeName;
     EnrichedSqlNode.isCodegenNode := false;
     EnrichedSqlNode.icebergCommit := None;
     EnrichedSqlNode.exchangeMetrics := None;
     EnrichedSqlNode.exchangeBroadcastDuration := None;
     EnrichedSqlNode.codegenDuration := None |}.

Definition edge (a b : Z) : EnrichedSqlEdge :=
  {| fromId := JS.Int a; toId := JS.Int b |}.

(** The plan of section 8 of the spec: Scan(0) -> Filter(1) ->
    Exchange(2) -> HashAggregate(3). *)
Definition scan : EnrichedSqlNode.t := node 0 "Scan parquet" "input" (rows "1,000").
Definition filterNode : EnrichedSqlNode.t := node 1 "Filter" "transformation" (rows "1,000").
Definition exchange : EnrichedSqlNode.t := node 2 "Exchange" "transformation" (rows "1,000").
Definition aggregate : EnrichedSqlNode.t := node 3 "HashAggregate" "output" (rows "10").

Definition planNodes : list EnrichedSqlNode.t := [scan; filterNode; exchange; aggregate].
Definition planEdges : list EnrichedSqlEdge := [edge 0 1; edge 1 2; edge 2 3].
Definition ioNodes : list EnrichedSqlNode.t := [scan; aggregate].
Definition planGraph : Graphlib.Graph := generateGraph planEdges planNodes.

(** The same filter before any of its metrics has arrived. *)
Definition bareFilter : EnrichedSqlNode.t := node 1 "Filter" "transformation" [].
Definition bareNodes : list EnrichedSqlNode.t := [scan; bareFilter; exchange; aggregate].
Definition bareGraph : Graphlib.Graph := generateGraph planEdges bareNodes.

(** A join of two scans, each behind a projection that exposes no row
    count: Scan(0) -> Project(1) -> Join(4) <- Project(3) <- Scan(2). *)
Definition joinNode (outputRows : string) : EnrichedSqlNode.t :=
  node 4 "SortMergeJoin" "join" (rows outputRows).
Definition joinNodes (outputRows : string) : list EnrichedSqlNode.t :=
  [ node 0 "Scan parquet" "input" (rows "100");
    node 1 "Project" "other" [];
    node 2 "Scan parquet" "input" (rows "200");
    node 3 "Project" "other" [];
    joinNode outputRows ].
Definition joinEdges : list EnrichedSqlEdge := [edge 0 1; edge 1 4; edge 2 3; edge 3 4].
Definition joinGraph (outputRows : string) : Graphlib.Graph :=
  generateGraph joinEdges (joinNodes outputRows).

(** Snapshots of execution 1, as the REST API sends them. *)
Definition snapshot (status : string) (duration : Z) (nodes : list SqlNode.t)
    (edges : list EnrichedSqlEdge) : SparkSQL.t :=
  {| SparkSQL.id := "1";
     SparkSQL.status := status;
     SparkSQL.duration := QNum.ofZ duration;
     SparkSQL.submissionTime := "0";
     SparkSQL.runningJobIds := [7];
     SparkSQL.successJobIds := [];
     SparkSQL.failedJobIds := [];
     SparkSQL.nodes := nodes;
     SparkSQL.edges := edges |}.

Definition twoNodes : list SqlNode.t :=
  [rawNode 0 "Scan parquet" (rows "1,000"); rawNode 1 "HashAggregate" (rows "10")].
Definition threeNodes : list SqlNode.t :=
  [rawNode 0 "Scan parquet" (rows "1,000"); rawNode 1 "Filter" (rows "500");
   rawNode 2 "HashAggregate" (rows "10")].

Definition completed : SparkSQL.t := snapshot SqlStatus.Completed 40 twoNodes [edge 0 1].
Definition running : SparkSQL.t := snapshot SqlStatus.Running 10 twoNodes [edge 0 1].
Definition runningLater : SparkSQL.t := snapshot SqlStatus.Running 25 twoNodes [edge 0 1].
Definition replanned : SparkSQL.t :=
  snapshot SqlStatus.Running 25 threeNodes [edge 0 1; edge 1 2].

(** Executions with nothing to force the output on. *)
Definition noNodes : SparkSQL.t := snapshot SqlStatus.Running 0 [] [].
Definition wrapperOnly : SparkSQL.t :=
  snapshot SqlStatus.Running 0 [rawNode 0 "AdaptiveSparkPlan" []] [].

Definition noIceberg : IcebergInfo.t := {| IcebergInfo.commitsInfo := [] |}.

(** The store after a first batch, the generator starting at 0. *)
Definition firstStore (sql : SparkSQL.t) : SparkSQLStore.t :=
  match calculateSqlStore None [sql] [] noIceberg tt 0%nat with
  | JS.Normal (store, _) => store
  | JS.Throw _ => {| SparkSQLStore.sqls := [] |}
  end.

End Example.

(* ================================================================== *)
(** ** More executions, and a store to update *)
(* ================================================================== *)

Module Scenario.

Import Model.

#[export] Instance storage : CachedStorage := {| RddStorageInfo := string |}.

(** The plan of section 8 with the Exchange hidden. *)
Definition withoutExchange : list EnrichedSqlNode.t :=
  [Example.scan; Example.filterNode; Example.aggregate].

(** A cross join of two scans: Scan(0) -> CartesianProduct(2) <- Scan(1). *)
Definition crossJoin : EnrichedSqlNode.t :=
  Example.node 2 "CartesianProduct" "join" (Example.rows "5,000").
Definition crossNodes : list EnrichedSqlNode.t :=
  [ Example.node 0 "Scan parquet" "input" (Example.rows "100");
    Example.node 1 "Scan parquet" "input" (Example.rows "200");
    crossJoin ].
Definition crossEdges : list EnrichedSqlEdge := [Example.edge 0 2; Example.edge 1 2].
Definition crossGraph : Graphlib.Graph := generateGraph crossEdges crossNodes.

(** A scan and a join under names the switch does not list, and their
    plan. *)
Definition orcScan : SqlNode.t := Example.rawNode 0 "BatchScan orc" [].
Definition hashJoin : SqlNode.t := Example.rawNode 1 "PhotonBroadcastHashJoin" [].
Definition nodePlan : SQLNodePlan.t :=
  {| SQLNodePlan.id := 0;
     SQLNodePlan.planDescription := "(1) operator";
     SQLNodePlan.rddScopeId := None |}.

(** A snapshot with a codegen node. *)
Definition codegenNode : SqlNode.t := Example.rawNode 0 "WholeStageCodegen (1)" [].
Definition withCodegen : SparkSQL.t :=
  Example.snapshot SqlStatus.Running 10
    [ codegenNode;
      Example.rawNode 1 "Scan parquet" (Example.rows "1,000");
      Example.rawNode 2 "HashAggregate" (Example.rows "10") ]
    [Example.edge 1 2].

Definition commit : IcebergCommitsInfo.t :=
  {| IcebergCommitsInfo.executionId := 1; IcebergCommitsInfo.commit := "snapshot 1" |}.

(** Snapshots of several executions. *)
Definition execution (id : string) (status : string) : SparkSQL.t :=
  {| SparkSQL.id := id;
     SparkSQL.status := status;
     SparkSQL.duration := QNum.ofZ 10;
     SparkSQL.submissionTime := "0";
     SparkSQL.runningJobIds := [7];
     SparkSQL.successJobIds := [];
     SparkSQL.failedJobIds := [];
     SparkSQL.nodes := Example.twoNodes;
     SparkSQL.edges := [Example.edge 0 1] |}.

Definition threeSnapshots : list SparkSQL.t :=
  [ execution "1" SqlStatus.Completed;
    execution "2" SqlStatus.Running;
    execution "3" SqlStatus.Running ].

(** The store after a first batch of three, the generator starting at 0. *)
Definition threeStore : SparkSQLStore.t :=
  match calculateSqlStore None threeSnapshots [] Example.noIceberg tt 0%nat with
  | JS.Normal (store, _) => store
  | JS.Throw _ => {| SparkSQLStore.sqls := [] |}
  end.

Definition stored : StoredSQLStore.t := storedStore threeStore.

(** Metrics delivered for node 1 of an execution, and for a node it
    does not have. *)
Definition delivered : list NodeMetrics.t :=
  [ {| NodeMetrics.id := 1; NodeMetrics.metrics := Example.rows "20" |} ].
Definition misdelivered : list NodeMetrics.t :=
  [ {| NodeMetrics.id := 9; NodeMetrics.metrics := Example.rows "20" |} ].

(** Two cached scans of stage 5, which has one cached RDD, and a scan of
    stage 6, which has no cached storage. *)
Definition inStage (stageId : Z) : option SQLNodeStage.t :=
  Some {| SQLNodeStage.type := "onestage"; SQLNodeStage.stageId := Some stageId |}.
Definition cacheScan (nodeId stageId : Z) : StoredSqlNode.t :=
  {| StoredSqlNode.node := Example.node nodeId "InMemoryTableScan" "input" [];
     StoredSqlNode.stage := inStage stageId;
     StoredSqlNode.storageInfo := None |}.
Definition cacheNodes : list StoredSqlNode.t :=
  [cacheScan 0 5; cacheScan 1 6; cacheScan 2 5].
Definition stages : list SparkStage.t :=
  [ {| SparkStage.stageId := 5; SparkStage.cachedStorage := Some ["rdd 12"] |};
    {| SparkStage.stageId := 6; SparkStage.cachedStorage := None |} ].

(** A join of two scans like that of [Example.joinNodes], before any
    metric of the join itself has arrived. *)
Definition bareJoin : EnrichedSqlNode.t := Example.node 4 "SortMergeJoin" "join" [].
Definition bareJoinNodes : list EnrichedSqlNode.t :=
  [ Example.node 0 "Scan parquet" "input" (Example.rows "100");
    Example.node 1 "Project" "other" [];
    Example.node 2 "Scan parquet" "input" (Example.rows "200");
    Example.node 3 "Project" "other" [];
    bareJoin ].
Definition bareJoinGraph : Graphlib.Graph := generateGraph Example.joinEdges bareJoinNodes.



End Scenario.

(* ================================================================== *)
(** ** Properties *)
(* ================================================================== *)

(** *** The runtime *)

Lemma sameValueZero_Int_l (z : Z) (x : JS.jsint) :
  JS.sameValueZero (JS.Int z) x = true -> x = JS.Int z.
Proof.
  destruct x as [ | z' | ]; simpl; try discriminate.
  intros H. apply Z.eqb_eq in H. now subst.
Qed.

Lemma sameValueZero_refl (x : JS.jsint) : JS.sameValueZero x x = true.
Proof. destruct x; simpl; auto using Z.eqb_refl. Qed.

Lemma Array_includes_In (l : list JS.jsint) (x : JS.jsint) :
  In x l -> JS.Array_includes l x = true.
Proof.
  intros H. unfold JS.Array_includes. apply existsb_exists.
  exists x. split; [assumption | apply sameValueZero_refl].
Qed.

Lemma Array_includes_Ints (ids : list Z) (x : JS.jsint) :
  JS.Array_includes (map JS.Int ids) x = true -> In x (map JS.Int ids).
Proof.
  unfold JS.Array_includes. rewrite existsb_exists.
  intros [y [Hy Hs]]. apply in_map_iff in Hy. destruct Hy as [z [<- Hz]].
  apply sameValueZero_Int_l in Hs. subst x. now apply in_map.
Qed.

(** Reading back the key of a node gives its id. *)
Lemma digits_print (d : uint) : JS.digits (NilEmpty.string_of_uint d) = d.
Proof. induction d; simpl; congruence. Qed.

Lemma parseUnsignedInt_print (d : uint) :
  d <> Nil ->
  JS.parseUnsignedInt (NilEmpty.string_of_uint d) = Some (Z.of_uint d).
Proof.
  intros Hd.
  assert (H : JS.parseDigits (NilEmpty.string_of_uint d) = Some (Z.of_uint d)).
  { unfold JS.parseDigits. rewrite digits_print. destruct d; congruence. }
  rewrite <- H.
  destruct d as [ | d | d | d | d | d | d | d | d | d | d]; try reflexivity.
  destruct d; reflexivity.
Qed.

Lemma parseInt_print (d : uint) :
  d <> Nil -> JS.parseInt (NilEmpty.string_of_uint d) = JS.Int (Z.of_uint d).
Proof.
  intros Hd. pose proof (parseUnsignedInt_print d Hd) as H.
  destruct d as [ | d | d | d | d | d | d | d | d | d | d]; [contradiction | ..];
    simpl NilEmpty.string_of_uint in *;
    revert H; generalize (NilEmpty.string_of_uint d); intros r H;
    unfold JS.parseInt;
    match goal with
    | |- context [JS.trimStart (String ?c r)] =>
        change (JS.trimStart (String c r)) with (String c r)
    end;
    cbv beta iota; rewrite H; reflexivity.
Qed.

Lemma print_nonnil (d : uint) :
  d <> Nil -> NilZero.string_of_uint d = NilEmpty.string_of_uint d.
Proof. destruct d; [contradiction | reflexivity ..]. Qed.

Lemma parseInt_toString (z : Z) : JS.parseInt (JS.toString (JS.Int z)) = JS.Int z.
Proof.
  unfold JS.toString. pose proof (DecimalZ.of_to z) as E.
  destruct z as [ | p | p]; [reflexivity | | ]; simpl Z.to_int in *;
    simpl Z.of_int in E;
    pose proof (DecimalPos.Unsigned.to_uint_nonnil p) as Hn;
    unfold NilZero.string_of_int; rewrite print_nonnil by assumption.
  - rewrite parseInt_print by assumption. now rewrite E.
  - unfold JS.parseInt.
    change (JS.trimStart (String "-" (NilEmpty.string_of_uint (Pos.to_uint p))))
      with (String "-"%char (NilEmpty.string_of_uint (Pos.to_uint p))).
    cbv beta iota. rewrite parseUnsignedInt_print by assumption. now rewrite <- E.
Qed.

(** Distinct integers print differently. *)
Lemma toString_Int_inj (a b : Z) :
  JS.toString (JS.Int a) = JS.toString (JS.Int b) -> a = b.
Proof.
  intros H. apply (f_equal JS.parseInt) in H.
  rewrite !parseInt_toString in H. now injection H.
Qed.

(** *** The graph *)

Section GraphFacts.

Import Graphlib.

Lemma edge_eqb_eq (e1 e2 : Edge) : edge_eqb e1 e2 = true <-> e1 = e2.
Proof.
  destruct e1 as [v1 w1], e2 as [v2 w2]. unfold edge_eqb. simpl.
  rewrite andb_true_iff, !String.eqb_eq. split.
  - intros [-> ->]. reflexivity.
  - intros [= -> ->]. auto.
Qed.

Lemma hasNode_In (g : Graph) (x : string) : hasNode g x = true <-> In x (nodes g).
Proof.
  unfold hasNode. rewrite existsb_exists. split.
  - intros [y [Hy E]]. apply String.eqb_eq in E. now subst.
  - intros H. exists x. split; [assumption | apply String.eqb_refl].
Qed.

Lemma hasEdge_In (g : Graph) (x y : string) :
  hasEdge g x y = true <-> In (mkEdge x y) (edges g).
Proof.
  unfold hasEdge. rewrite existsb_exists. split.
  - intros [e [He E]]. apply edge_eqb_eq in E. now subst.
  - intros H. exists (mkEdge x y). split; [assumption | now apply edge_eqb_eq].
Qed.

Lemma edges_setNode (g : Graph) (x : string) : edges (setNode g x) = edges g.
Proof. unfold setNode. now destruct (hasNode g x). Qed.

Lemma nodes_setNode (g : Graph) (x y : string) :
  In y (nodes (setNode g x)) <-> In y (nodes g) \/ y = x.
Proof.
  unfold setNode. destruct (hasNode g x) eqn:E; simpl.
  - apply hasNode_In in E. split; [auto | intros [H | ->]; assumption].
  - rewrite in_app_iff. simpl. intuition.
Qed.

Lemma nodes_setEdge (g : Graph) (x y z : string) :
  In z (nodes g) -> In z (nodes (setEdge g x y)).
Proof.
  intros H. unfold setEdge. destruct (hasEdge g x y); simpl; [assumption | ].
  apply nodes_setNode. left. apply nodes_setNode. now left.
Qed.

Lemma edges_setEdge (g : Graph) (x y : string) (e : Edge) :
  In e (edges (setEdge g x y)) <-> In e (edges g) \/ e = mkEdge x y.
Proof.
  unfold setEdge. destruct (hasEdge g x y) eqn:E; simpl.
  - apply hasEdge_In in E. split; [auto | intros [H | ->]; assumption].
  - rewrite in_app_iff, !edges_setNode. simpl. intuition.
Qed.

Lemma nodes_rewire (t : Edge) (ins : list Edge) (g : Graph) (z : string) :
  In z (nodes g) -> In z (nodes (rewire g ins t)).
Proof.
  unfold rewire. revert g. induction ins as [ | i ins IH]; intros g H; simpl.
  - assumption.
  - apply IH. now apply nodes_setEdge.
Qed.

Lemma edges_rewire (t : Edge) (ins : list Edge) (g : Graph) (e : Edge) :
  In e (edges (rewire g ins t)) <->
  In e (edges g) \/ exists i, In i ins /\ e = mkEdge (v i) (w t).
Proof.
  unfold rewire. revert g. induction ins as [ | i ins IH]; intros g; simpl.
  - split; [auto | intros [H | [i [[] _]]]; assumption].
  - rewrite IH, edges_setEdge. split.
    + intros [[H | H] | [j [Hj H]]]; eauto.
    + intros [H | [j [[<- | Hj] H]]]; eauto.
Qed.

Lemma nodes_removeNode (g : Graph) (x z : string) :
  In z (nodes g) -> z <> x -> In z (nodes (removeNode g x)).
Proof.
  intros H Hne. unfold removeNode. destruct (hasNode g x); simpl; [ | assumption].
  apply filter_In. split; [assumption | ].
  apply negb_true_iff. now apply String.eqb_neq.
Qed.

Lemma edges_removeNode (g : Graph) (x : string) (e : Edge) :
  hasNode g x = true ->
  (In e (edges (removeNode g x)) <-> In e (edges g) /\ incident x e = false).
Proof.
  intros H. unfold removeNode. rewrite H. simpl.
  rewrite filter_In, negb_true_iff. reflexivity.
Qed.

Lemma inEdges_hasNode (g : Graph) (x : string) (l : list Edge) :
  inEdges g x = Some l -> hasNode g x = true.
Proof. unfold inEdges. now destruct (hasNode g x). Qed.

Lemma inEdges_In (g : Graph) (x : string) (l : list Edge) (e : Edge) :
  inEdges g x = Some l -> (In e l <-> In e (edges g) /\ w e = x).
Proof.
  unfold inEdges. destruct (hasNode g x); [ | discriminate].
  intros [= <-]. rewrite filter_In, String.eqb_eq. reflexivity.
Qed.

Lemma outEdges_In (g : Graph) (x : string) (l : list Edge) (e : Edge) :
  outEdges g x = Some l -> (In e l <-> In e (edges g) /\ v e = x).
Proof.
  unfold outEdges. destruct (hasNode g x); [ | discriminate].
  intros [= <-]. rewrite filter_In, String.eqb_eq. reflexivity.
Qed.

End GraphFacts.

(** *** The DAG contractor *)

Section Contraction.

Context `{Num : JsNumber} `{Pay : Payloads}.

Import Graphlib.

Lemma visibleIds_Ints (visibleNodes : list EnrichedSqlNode.t) :
  visibleIds visibleNodes = map JS.Int (map EnrichedSqlNode.nodeId visibleNodes).
Proof. unfold visibleIds. now rewrite map_map. Qed.

Lemma nodes_generateGraph {A : Type} `{SqlNodeLike A}
    (es : list EnrichedSqlEdge) (allNodes : list A) (node : A) :
  In node allNodes -> In (nodeKey node) (nodes (generateGraph es allNodes)).
Proof.
  intros Hin. unfold generateGraph.
  assert (Hn : In (nodeKey node)
                  (nodes (fold_left (fun g n => setNode g (nodeKey n)) allNodes empty))).
  { generalize empty as g. revert Hin.
    induction allNodes as [ | a l IH]; intros Hin g; simpl in *.
    - contradiction.
    - destruct Hin as [-> | Hin].
      + assert (Hg : In (nodeKey node) (nodes (setNode g (nodeKey node))))
          by (apply nodes_setNode; now right).
        revert Hg. generalize (setNode g (nodeKey node)) as g'.
        clear IH. induction l as [ | b l IHl]; intros g' Hg; simpl.
        * assumption.
        * apply IHl. apply nodes_setNode. now left.
      + now apply IH. }
  revert Hn.
  generalize (fold_left (fun g n => setNode g (nodeKey n)) allNodes empty) as g.
  induction es as [ | e es IH]; intros g Hg; simpl.
  - assumption.
  - apply IH. now apply nodes_setEdge.
Qed.

Lemma nodes_contractNode (g : Graph) (node : EnrichedSqlNode.t) (z : string) :
  In z (nodes g) -> z <> nodeKey node -> In z (nodes (contractNode g node)).
Proof.
  intros Hz Hne. unfold contractNode.
  destruct (inEdges g (nodeKey node)) as [ins | ]; [ | assumption].
  destruct (outEdges g (nodeKey node)) as [[ | target outs] | ]; try assumption.
  apply nodes_removeNode; [ | assumption].
  now apply nodes_rewire.
Qed.

Lemma nodes_contract_all (l : list EnrichedSqlNode.t) (g : Graph) (z : string) :
  In z (nodes g) -> (forall node, In node l -> z <> nodeKey node) ->
  In z (nodes (fold_left contractNode l g)).
Proof.
  revert g. induction l as [ | n l IH]; intros g Hz Hne; simpl.
  - assumption.
  - apply IH.
    + apply nodes_contractNode; [assumption | apply Hne; now left].
    + intros node Hn. apply Hne. now right.
Qed.

(** A node that is not visible has a key of its own. *)
Lemma notVisible_key (allNodes visibleNodes : list EnrichedSqlNode.t)
    (hidden shown : EnrichedSqlNode.t) :
  In hidden (notVisible allNodes visibleNodes) -> In shown visibleNodes ->
  nodeKey shown <> nodeKey hidden.
Proof.
  unfold notVisible. rewrite filter_In, negb_true_iff.
  intros [_ Hh] Hs E. apply toString_Int_inj in E.
  cbn in E. rewrite <- E in Hh.
  rewrite Array_includes_In in Hh; [discriminate | ].
  unfold visibleIds. apply in_map_iff. now exists shown.
Qed.

(** An edge of the output touches no node outside the visible ones. *)
Lemma cleanUpDAG_visible (es : list EnrichedSqlEdge)
    (allNodes visibleNodes : list EnrichedSqlNode.t) (e : EnrichedSqlEdge) :
  In e (cleanUpDAG es allNodes visibleNodes) ->
  JS.Array_includes (visibleIds visibleNodes) (fromId e) = true /\
  JS.Array_includes (visibleIds visibleNodes) (toId e) = true.
Proof.
  unfold cleanUpDAG. rewrite filter_In, andb_true_iff. tauto.
Qed.

(** C1. Every edge [cleanUpDAG] returns has its [fromId] and its [toId]
    among the ids of the visible nodes, and, the visible nodes being nodes
    of the graph, none of them is removed by the contraction: each is
    still a node of the graph the edges are read from. *)
Theorem cleanUpDAG_endpoints_visible (es : list EnrichedSqlEdge)
    (allNodes visibleNodes : list EnrichedSqlNode.t) :
  incl visibleNodes allNodes ->
  (forall e, In e (cleanUpDAG es allNodes visibleNodes) ->
     In (fromId e) (visibleIds visibleNodes) /\
     In (toId e) (visibleIds visibleNodes)) /\
  (forall node, In node visibleNodes ->
     hasNode (contractedGraph es allNodes visibleNodes) (nodeKey node) = true).
Proof.
  intros Hsub. split.
  - intros e He. apply cleanUpDAG_visible in He. destruct He as [Hf Ht].
    rewrite visibleIds_Ints in *.
    split; now apply Array_includes_Ints.
  - intros node Hn. apply hasNode_In. unfold contractedGraph.
    apply nodes_contract_all.
    + apply nodes_generateGraph. now apply Hsub.
    + intros hidden Hh. now apply notVisible_key with allNodes visibleNodes.
Qed.

End Contraction.

(** *** The plan dispatcher *)

Section PlanDispatch.

Context `{Num : JsNumber} `{Pay : Payloads} `{Imp : @Imports Num Pay}.

Lemma clause_type {A : Type} `{SqlNodeLike A} (ty : PlanType) (node : A)
    (plan : SQLNodePlan.t) (r : ParsedNodePlan.t) :
  clause ty node plan = JS.Normal (Some r) -> ParsedNodePlan.type r = ty.
Proof.
  unfold clause. destruct (clauseParser ty node plan); [ | discriminate].
  now intros [= <-].
Qed.

(** The first label equal to ["CometFilter"] belongs to the Filter clause. *)
Lemma switch_CometFilter :
  find (fun c => String.eqb "CometFilter" (fst c)) switchCases
  = Some ("CometFilter", Filter).
Proof. reflexivity. Qed.

(** The Project clause is entered through its three other labels only. *)
Lemma switch_Project (nodeName : string) (label : string) :
  find (fun c => String.eqb nodeName (fst c)) switchCases = Some (label, Project) ->
  In nodeName ["PhotonProject"; "GpuProject"; "Project"].
Proof.
  unfold switchCases. cbn [find fst].
  repeat match goal with
         | |- context [String.eqb nodeName ?l] =>
             destruct (String.eqb_spec nodeName l) as [-> | _];
             [ try discriminate; intros _; simpl; tauto | ]
         end.
  discriminate.
Qed.

(** C10. On a node named "CometFilter", [parseNodePlan] gives what
    [parseFilter] makes of the plan description, as a plan of type Filter
    (and [undefined] should [parseFilter] throw); the plan it returns is
    never of type Project.  No node name reaches the Project clause
    through the second "CometFilter" label. *)
Theorem parseNodePlan_CometFilter {A : Type} `{SqlNodeLike A} (node : A)
    (plan : SQLNodePlan.t) :
  nodeNameOf node = "CometFilter" ->
  parseNodePlan node plan =
    match parseFilter (SQLNodePlan.planDescription plan) with
    | JS.Normal p =>
        Some {| ParsedNodePlan.type := Filter; ParsedNodePlan.plan := p |}
    | JS.Throw _ => None
    end /\
  (forall r, parseNodePlan node plan = Some r -> ParsedNodePlan.type r <> Project) /\
  (forall (other : A) (r : ParsedNodePlan.t),
     parseNodePlan other plan = Some r -> ParsedNodePlan.type r = Project ->
     In (nodeNameOf other) ["PhotonProject"; "GpuProject"; "Project"]).
Proof.
  intros Hname.
  assert (E : parseNodePlan node plan =
              match parseFilter (SQLNodePlan.planDescription plan) with
              | JS.Normal p =>
                  Some {| ParsedNodePlan.type := Filter; ParsedNodePlan.plan := p |}
              | JS.Throw _ => None
              end).
  { unfold parseNodePlan, parseNodePlanTry. rewrite Hname, switch_CometFilter.
    unfold clause, clauseParser.
    now destruct (parseFilter (SQLNodePlan.planDescription plan)). }
  split; [exact E | split].
  - intros r. rewrite E.
    destruct (parseFilter (SQLNodePlan.planDescription plan)); [ | discriminate].
    intros [= <-]. discriminate.
  - intros other r. unfold parseNodePlan, parseNodePlanTry.
    destruct (find _ switchCases) as [[label ty] | ] eqn:Hfind.
    + destruct (clause ty other plan) as [o | ] eqn:Hc; [ | discriminate].
      intros ->. apply clause_type in Hc. intros Hty.
      rewrite Hc in Hty. subst ty. apply switch_Project with label.
      now rewrite <- Hty.
    + destruct (JS.includes (nodeNameOf other) "Scan").
      * destruct (clause FileScan other plan) as [o | ] eqn:Hc; [ | discriminate].
        intros ->. apply clause_type in Hc. congruence.
      * destruct (JS.includes (nodeNameOf other) "Join").
        -- destruct (clause Join other plan) as [o | ] eqn:Hc; [ | discriminate].
           intros ->. apply clause_type in Hc. congruence.
        -- discriminate.
Qed.

End PlanDispatch.

(** *** Derived metrics *)

Section Metrics.

Context `{Num : JsNumber} `{Pay : Payloads} `{Imp : @Imports Num Pay}.

Import Graphlib.

(** C8. [calcExchangeMetrics] gives a split exactly for the node name
    "Exchange": [writeDuration] is the shuffle write time, [readDuration]
    the sum of the fetch wait time and the two remote request durations,
    each 0 when the metric is missing, and [duration] their sum.  The
    other names, the aliases "CometExchange" and "GpuColumnarExchange"
    among them, get none. *)
Theorem calcExchangeMetrics_split (nodeName : string)
    (metrics : list EnrichedSqlMetric) :
  let ms (metricName : string) : number :=
    match getMetricDuration metricName metrics with
    | Some d => d
    | None => ofZ 0
    end in
  (nodeName = "Exchange" ->
   exists x,
     calcExchangeMetrics nodeName metrics = Some x /\
     ExchangeMetrics.writeDuration x = ms "shuffle write time" /\
     ExchangeMetrics.readDuration x =
       add (add (ms "fetch wait time") (ms "remote reqs duration"))
           (ms "remote merged reqs duration") /\
     ExchangeMetrics.duration x =
       add (ExchangeMetrics.writeDuration x) (ExchangeMetrics.readDuration x)) /\
  (nodeName <> "Exchange" -> calcExchangeMetrics nodeName metrics = None) /\
  calcExchangeMetrics "CometExchange" metrics = None /\
  calcExchangeMetrics "GpuColumnarExchange" metrics = None.
Proof.
  intros ms. repeat split.
  - intros ->. unfold calcExchangeMetrics. simpl String.eqb. cbv iota.
    eexists. split; [reflexivity | ]. simpl. auto.
  - intros Hne. unfold calcExchangeMetrics.
    apply String.eqb_neq in Hne. now rewrite Hne.
Qed.

Lemma joinName_eqb (nodeName : string) :
  In nodeName ["BroadcastHashJoin"; "SortMergeJoin"; "ShuffleHashJoin"] ->
  String.eqb nodeName "BroadcastHashJoin" || String.eqb nodeName "SortMergeJoin"
  || String.eqb nodeName "ShuffleHashJoin" = true.
Proof.
  simpl. intros [<- | [<- | [<- | []]]]; reflexivity.
Qed.

(** C6. A join named BroadcastHashJoin, SortMergeJoin or ShuffleHashJoin,
    with two incoming edges whose row counts both resolve.  When the
    join has no output row count of its own, nothing is returned.  When it
    has one: with [maxIn] the larger input row count, one metric is
    returned.  It is "join rows increase ratio", the ratio
    [outputRows / maxIn] at one decimal before "X", when [maxIn] is not 0
    and the ratio exceeds 1; it is "join rows filtered",
    [calculatePercentage outputRows maxIn] at two decimals before "%",
    when the ratio does not exceed 1, and also when [maxIn] is 0, the
    ratio being 0 then. *)
Theorem addJoinMetrics_branches (node : EnrichedSqlNode.t)
    (updatedMetrics : list EnrichedSqlMetric) (graph : Graph)
    (allNodes : list EnrichedSqlNode.t) (e1 e2 : Edge)
    (rows1 rows2 : number) :
  In (EnrichedSqlNode.nodeName node)
     ["BroadcastHashJoin"; "SortMergeJoin"; "ShuffleHashJoin"] ->
  inEdges graph (nodeKey node) = Some [e1; e2] ->
  joinInputRows graph allNodes e1 = Some rows1 ->
  joinInputRows graph allNodes e2 = Some rows2 ->
  match getRowsFromMetrics (Some updatedMetrics) with
  | None => addJoinMetrics node updatedMetrics graph allNodes = None
  | Some outputRows =>
      let maxIn := Math_max rows1 rows2 in
      let increase :=
        {| name := "join rows increase ratio";
           value := toFixed (div outputRows maxIn) 1 ++ "X" |} in
      let filtered :=
        {| name := "join rows filtered";
           value := toFixed (calculatePercentage outputRows maxIn) 2 ++ "%" |} in
      addJoinMetrics node updatedMetrics graph allNodes =
        Some [ if numEq maxIn (ofZ 0) then filtered
               else if gt (div outputRows maxIn) (ofZ 1) then increase
               else filtered ]
  end.
Proof.
  intros Hname Hin H1 H2. unfold addJoinMetrics.
  rewrite (joinName_eqb _ Hname), Hin. simpl. rewrite H1, H2. simpl.
  destruct (getRowsFromMetrics (Some updatedMetrics)) as [outputRows | ];
    [ | reflexivity].
  cbv zeta. destruct (numEq (Math_max rows1 rows2) (ofZ 0)); simpl.
  - now rewrite zero_gt_one.
  - now destruct (gt (div outputRows (Math_max rows1 rows2)) (ofZ 1)).
Qed.

End Metrics.

Section FilterRatio.

Context `{Num : JsNumber} `{Pay : Payloads} `{Imp : @Imports Num Pay}.

Import Graphlib.

(** A name that contains "Filter" is none of the join names the two other
    derived metrics are for. *)
Lemma filter_name_no_join (node : EnrichedSqlNode.t)
    (updatedMetrics : list EnrichedSqlMetric) (graph : Graph)
    (allNodes : list EnrichedSqlNode.t) :
  JS.includes (EnrichedSqlNode.nodeName node) "Filter" = true ->
  addCrossJoinFilterRatioMetric node updatedMetrics graph allNodes = None /\
  addJoinMetrics node updatedMetrics graph allNodes = None.
Proof.
  intros H. unfold addCrossJoinFilterRatioMetric, addJoinMetrics.
  repeat match goal with
         | |- context [String.eqb (EnrichedSqlNode.nodeName node) ?l] =>
             destruct (String.eqb_spec (EnrichedSqlNode.nodeName node) l) as [E | _];
             [ rewrite E in H; vm_compute in H; discriminate | ]
         end.
  now split.
Qed.

(** C7, as the code has it.  On a node whose name contains "Filter" or
    whose enriched name is "Distinct": no metric is emitted when the input
    rows are 0, which they are when no upstream node with a row count is
    found, nor when the node has no metric of its own whose name contains
    "rows", nor when the value of that metric is not a number.  Otherwise
    the one metric "Rows Filtered",
    [calculatePercentage (inputRows - outputRows) inputRows] at two
    decimals before "%", comes right after the metrics [calcNodeMetrics]
    returns, and it ends the list when the name contains "Filter". *)
Theorem addFilterRatioMetric_guards (node : EnrichedSqlNode.t)
    (metrics : list EnrichedSqlMetric) (graph : Graph)
    (allNodes : list EnrichedSqlNode.t) :
  JS.includes (EnrichedSqlNode.nodeName node) "Filter" = true \/
  EnrichedSqlNode.enrichedName node = "Distinct" ->
  let updated := calcNodeMetrics (EnrichedSqlNode.type node) metrics in
  let inputRows := filterInputRows node graph allNodes in
  let own := find (fun m => JS.includes (name m) "rows") updated in
  (findLastNodeWithInputRows node graph allNodes = None ->
   numEq inputRows (ofZ 0) = true) /\
  (numEq inputRows (ofZ 0) = true ->
   addFilterRatioMetric node updated graph allNodes = None) /\
  (own = None -> addFilterRatioMetric node updated graph allNodes = None) /\
  (forall m, own = Some m ->
     isNaN (parseFloat (JS.removeCommas (value m))) = true ->
     addFilterRatioMetric node updated graph allNodes = None) /\
  (forall m, own = Some m ->
     numEq inputRows (ofZ 0) = false ->
     isNaN (parseFloat (JS.removeCommas (value m))) = false ->
     let outputRows := parseFloat (JS.removeCommas (value m)) in
     let rowsFiltered :=
       {| name := "Rows Filtered";
          value :=
            toFixed (calculatePercentage (sub inputRows outputRows) inputRows) 2
            ++ "%" |} in
     addFilterRatioMetric node updated graph allNodes = Some rowsFiltered /\
     (exists rest,
        updateNodeMetrics node metrics graph allNodes
        = (updated ++ rowsFiltered :: rest)%list) /\
     (JS.includes (EnrichedSqlNode.nodeName node) "Filter" = true ->
      updateNodeMetrics node metrics graph allNodes
      = (updated ++ [rowsFiltered])%list)).
Proof.
  intros Hnode updated inputRows own.
  assert (Hguard :
            JS.includes (EnrichedSqlNode.nodeName node) "Filter"
            || String.eqb (EnrichedSqlNode.enrichedName node) "Distinct" = true).
  { apply orb_true_iff. destruct Hnode as [H | H]; [now left | right].
    now apply String.eqb_eq. }
  assert (Hun : addFilterRatioMetric node updated graph allNodes =
                if numEq inputRows (ofZ 0) then None
                else match own with
                     | None => None
                     | Some m =>
                         if isNaN (parseFloat (JS.removeCommas (value m))) then None
                         else Some
                                {| name := "Rows Filtered";
                                   value :=
                                     toFixed
                                       (calculatePercentage
                                          (sub inputRows
                                               (parseFloat (JS.removeCommas (value m))))
                                          inputRows) 2 ++ "%" |}
                     end).
  { unfold addFilterRatioMetric. rewrite Hguard. reflexivity. }
  repeat split.
  - intros Hnone. unfold inputRows, filterInputRows. rewrite Hnone.
    apply zero_eq_zero.
  - intros H0. now rewrite Hun, H0.
  - intros Hown. rewrite Hun, Hown. now destruct (numEq inputRows (ofZ 0)).
  - intros m Hown Hnan. rewrite Hun, Hown, Hnan.
    now destruct (numEq inputRows (ofZ 0)).
  - rewrite Hun, H, H0, H1. reflexivity.
  - unfold updateNodeMetrics. fold updated. rewrite Hun, H, H0, H1.
    eexists. simpl. reflexivity.
  - intros Hf. unfold updateNodeMetrics. fold updated. rewrite Hun, H, H0, H1.
    destruct (filter_name_no_join node updated graph allNodes Hf) as [-> ->].
    reflexivity.
Qed.

End FilterRatio.

(** *** The forced output node *)

Section ForcedOutput.

Context `{Num : JsNumber} `{Pay : Payloads} `{Imp : @Imports Num Pay}.

Local Open Scope list_scope.

Lemma lastOf_cons {A : Type} (a : A) (l : list A) :
  lastOf (a :: l) = match lastOf l with Some r => Some r | None => Some a end.
Proof.
  destruct l as [ | b l]; [reflexivity | ].
  unfold lastOf. simpl List.length.
  replace (S (S (List.length l)) - 1)%nat with (S (List.length l)) by lia.
  replace (S (List.length l) - 1)%nat with (List.length l) by lia.
  simpl nth_error at 1.
  destruct (nth_error (b :: l) (List.length l)) eqn:E; [reflexivity | ].
  apply nth_error_None in E. simpl in E. lia.
Qed.

Lemma filterRefs_filterRefs (h : Heap) (p q : EnrichedSqlNode.t -> bool)
    (refs : list Ref) :
  filterRefs h q (filterRefs h p refs) = filterRefs h (fun n => p n && q n) refs.
Proof.
  unfold filterRefs. induction refs as [ | r refs IH]; simpl; [reflexivity | ].
  destruct (deref h r) as [n | ] eqn:E; simpl.
  - destruct (p n); simpl; [ | assumption].
    rewrite E. destruct (q n); now rewrite IH.
  - assumption.
Qed.

Lemma filterRefs_none (h : Heap) (p : EnrichedSqlNode.t -> bool) (refs : list Ref) :
  (forall n, In n h -> p n = false) -> filterRefs h p refs = [].
Proof.
  intros H. unfold filterRefs. induction refs as [ | r refs IH]; simpl; [reflexivity | ].
  destruct (deref h r) as [n | ] eqn:E; [ | assumption].
  rewrite (H n); [assumption | ]. now apply nth_error_In with r.
Qed.

Lemma deref_pad (pad h : Heap) (x : EnrichedSqlNode.t) :
  deref (pad ++ x :: h) (List.length pad) = Some x.
Proof.
  unfold deref. rewrite nth_error_app2 by lia. now rewrite Nat.sub_diag.
Qed.

Lemma pad_snoc (pad h : Heap) (x : EnrichedSqlNode.t) :
  (pad ++ x :: h = (pad ++ [x]) ++ h)%list /\
  S (List.length pad) = List.length (pad ++ [x])%list.
Proof.
  rewrite <- app_assoc, length_app. simpl. split; [reflexivity | lia].
Qed.

(** The last reference [filterRefs] keeps points at the last object that
    passes the test. *)
Lemma lastOf_filterRefs (p : EnrichedSqlNode.t -> bool) (h pad : Heap) :
  match lastOf (filterRefs (pad ++ h) p (seq (List.length pad) (List.length h))) with
  | None => forall n, In n h -> p n = false
  | Some r =>
      exists h1 x h2,
        h = (h1 ++ x :: h2)%list /\ r = (List.length pad + List.length h1)%nat /\
        p x = true /\ forall n, In n h2 -> p n = false
  end.
Proof.
  revert pad. induction h as [ | x h IH]; intros pad.
  - simpl. intros n [].
  - simpl List.length. simpl seq. unfold filterRefs at 1. simpl filter.
    rewrite deref_pad. fold (filterRefs (pad ++ x :: h) p).
    destruct (pad_snoc pad h x) as [E1 E2]. rewrite E1, E2.
    specialize (IH (pad ++ [x])%list).
    destruct (p x) eqn:Hx.
    + rewrite lastOf_cons.
      destruct (lastOf _) as [r | ].
      * destruct IH as [h1 [y [h2 [-> [-> [Hy Hrest]]]]]].
        exists (x :: h1), y, h2. repeat split; auto.
        all: rewrite length_app; simpl; lia.
      * exists [], x, h. repeat split; auto.
    + destruct (lastOf _) as [r | ].
      * destruct IH as [h1 [y [h2 [-> [-> [Hy Hrest]]]]]].
        exists (x :: h1), y, h2. repeat split; auto.
        all: rewrite length_app; simpl; lia.
      * intros n [<- | Hn]; auto.
Qed.

(** Reading, in a heap [h'], the references [filterRefs] kept on [h]. *)
Lemma objects_filterRefs (p : EnrichedSqlNode.t -> bool) (h h' pad pad' : Heap) :
  List.length pad = List.length pad' -> List.length h = List.length h' ->
  objects (pad' ++ h')
          (filterRefs (pad ++ h) p (seq (List.length pad) (List.length h)))
  = map snd (filter (fun xy => p (fst xy)) (combine h h')).
Proof.
  revert h' pad pad'. induction h as [ | x h IH]; intros [ | x' h'] pad pad' Hp Hl;
    simpl in Hl; try discriminate; [reflexivity | ].
  simpl List.length. simpl seq. unfold filterRefs at 1. simpl filter.
  rewrite deref_pad. fold (filterRefs (pad ++ x :: h) p).
  assert (Hrest :
            objects (pad' ++ x' :: h')
                    (filterRefs (pad ++ x :: h) p (seq (S (List.length pad)) (List.length h)))
            = map snd (filter (fun xy => p (fst xy)) (combine h h'))).
  { destruct (pad_snoc pad h x) as [E1 E2]. rewrite E1, E2.
    destruct (pad_snoc pad' h' x') as [E1' _]. rewrite E1'.
    apply IH; [rewrite !length_app; simpl; lia | lia]. }
  simpl combine. simpl filter. simpl fst.
  destruct (p x).
  - unfold objects. simpl map. rewrite Hp, deref_pad. simpl notNull.
    f_equal. rewrite <- Hp. exact Hrest.
  - exact Hrest.
Qed.

Lemma filter_combine_same (p : EnrichedSqlNode.t -> bool) (l : Heap) :
  map snd (filter (fun xy => p (fst xy)) (combine l l)) = filter p l.
Proof.
  induction l as [ | x l IH]; simpl; [reflexivity | ].
  destruct (p x); simpl; now rewrite IH.
Qed.

Lemma combine_prefix {A : Type} (l a b : list A) :
  combine (l ++ a) (l ++ b) = combine l l ++ combine a b.
Proof. induction l as [ | x l IH]; simpl; [reflexivity | now rewrite IH]. Qed.

Lemma setType_at (h1 h2 : Heap) (x : EnrichedSqlNode.t) (t : NodeType) :
  setType (h1 ++ x :: h2) (List.length h1) t = (h1 ++ withType x t :: h2)%list.
Proof. induction h1 as [ | y h1 IH]; simpl; [reflexivity | now rewrite IH]. Qed.

Lemma filter_none {A : Type} (f : A -> bool) (l : list A) :
  (forall a, In a l -> f a = false) -> filter f l = [].
Proof.
  induction l as [ | a l IH]; intros H; simpl; [reflexivity | ].
  rewrite (H a) by now left. apply IH. intros b Hb. apply H. now right.
Qed.

(** C9, as the code has it.  When no graph node (a node that is not a
    codegen node) is classified as output and one of them at least is not
    named "AdaptiveSparkPlan" or "ResultQueryStage", the last such node is
    reassigned the type "output", the other nodes are left as they are,
    and exactly one graph node carries the type "output" afterwards. *)
Theorem forced_output_unique (sql : SparkSQL.t) (plan : option SQLPlan.t)
    (icebergCommit : option IcebergCommitsInfo.t) :
  let graphNodes :=
    filter (fun node => negb (EnrichedSqlNode.isCodegenNode node))
           (typeEnrichedNodes sql plan icebergCommit) in
  (forall node, In node graphNodes -> isOutput node = false) ->
  (exists node, In node graphNodes /\ notAqeWrapper node = true) ->
  exists before lastNode after,
    graphNodes = (before ++ lastNode :: after)%list /\
    notAqeWrapper lastNode = true /\
    (forall node, In node after -> notAqeWrapper node = false) /\
    classifiedGraphNodes sql plan icebergCommit
    = JS.Normal (before ++ withType lastNode "output" :: after)%list /\
    filter isOutput (before ++ withType lastNode "output" :: after)
    = [withType lastNode "output"].
Proof.
  intros graphNodes Hnone Hsome.
  set (h := typeEnrichedNodes sql plan icebergCommit) in *.
  set (p := fun node : EnrichedSqlNode.t => negb (EnrichedSqlNode.isCodegenNode node)) in *.
  unfold classifiedGraphNodes, forceOutput, graphNodeRefs. fold h. fold p.
  rewrite !filterRefs_filterRefs.
  rewrite (filterRefs_none h (fun n => p n && isOutput n)).
  2:{ intros n Hn. destruct (p n) eqn:Hp; [ | reflexivity].
      simpl. apply Hnone. apply filter_In. now split. }
  simpl Nat.eqb. cbv iota.
  pose proof (lastOf_filterRefs (fun n => p n && notAqeWrapper n) h []) as Hlast.
  simpl app in Hlast. simpl List.length in Hlast.
  destruct (lastOf _) as [r | ].
  - destruct Hlast as [h1 [x [h2 [Hh [Hr [Hx Hrest]]]]]].
    apply andb_true_iff in Hx. destruct Hx as [Hpx Hqx].
    simpl in Hr. subst r.
    assert (Hgn : graphNodes = (filter p h1 ++ x :: filter p h2)%list).
    { unfold graphNodes. rewrite Hh, filter_app. simpl. now rewrite Hpx. }
    exists (filter p h1), x, (filter p h2). repeat split.
    + exact Hgn.
    + exact Hqx.
    + intros n Hn. apply filter_In in Hn. destruct Hn as [Hn Hpn].
      specialize (Hrest n Hn). now rewrite Hpn in Hrest.
    + f_equal.
      assert (Hlen : List.length h = List.length (setType h (List.length h1) "output"))
        by (rewrite Hh, setType_at, !length_app; reflexivity).
      transitivity
        (map snd (filter (fun xy => p (fst xy))
                         (combine h (setType h (List.length h1) "output")))).
      * exact (objects_filterRefs p h _ [] [] eq_refl Hlen).
      * rewrite Hh at 2. rewrite setType_at. rewrite Hh.
        rewrite combine_prefix.
        simpl combine. rewrite filter_app, map_app. simpl. rewrite Hpx. simpl.
        now rewrite !filter_combine_same.
    + rewrite filter_app. cbn [filter].
      change (isOutput (withType x "output")) with true. cbv iota.
      rewrite !filter_none; [reflexivity | | ];
        intros n Hn; apply Hnone; rewrite Hgn; apply in_or_app; simpl; auto.
  - exfalso. destruct Hsome as [n [Hn Hq]].
    apply filter_In in Hn. destruct Hn as [Hn Hp].
    specialize (Hlast n Hn). fold (p n) in Hp. now rewrite Hp, Hq in Hlast.
Qed.

End ForcedOutput.

(** *** The store merge *)

Section StoreMerge.

Context `{Num : JsNumber} `{Pay : Payloads} `{Imp : @Imports Num Pay}.

Local Open Scope list_scope.

Lemma strictEq_eq (a b : JS.jsint) : JS.strictEq a b = true -> a = b.
Proof.
  destruct a, b; simpl; try discriminate; [ | reflexivity].
  intros H. apply Z.eqb_eq in H. now subst.
Qed.

(** The loop of [calculateSqlStore] pushes what [mergedSql] gives for each
    id, in order. *)
Lemma forOf_push {A B : Type} (f : A -> M B) (l : list A) (acc : list B) (g : IdGen) :
  forOf (fun acc a => (b <- f a ;; ret (acc ++ [b]))%js) l acc g =
  match mapM f l g with
  | JS.Normal (bs, g') => JS.Normal (acc ++ bs, g')
  | JS.Throw e => JS.Throw e
  end.
Proof.
  revert acc g. induction l as [ | a l IH]; intros acc g; simpl.
  - unfold ret. now rewrite app_nil_r.
  - unfold bind, ret in *. destruct (f a g) as [[b g1] | e]; [ | reflexivity].
    rewrite IH.
    destruct (mapM f l g1) as [[bs g2] | e]; [ | reflexivity].
    now rewrite <- app_assoc.
Qed.

Lemma calculateSqlStore_pushes (currentStore : SparkSQLStore.t)
    (sqls : list SparkSQL.t) (plans : list SQLPlan.t) (icebergInfo : IcebergInfo.t)
    (stages : SparkStagesStore) (g : IdGen) :
  let sqlIds := map (fun sql => JS.parseInt (SparkSQL.id sql)) sqls in
  let kept :=
    filter (fun sql => JS.lt (JS.parseInt (EnrichedSparkSQL.id sql)) (JS.Math_min sqlIds))
           (SparkSQLStore.sqls currentStore) in
  calculateSqlStore (Some currentStore) sqls plans icebergInfo stages g =
  match mapM (mergedSql currentStore sqls plans icebergInfo stages) sqlIds g with
  | JS.Normal (pushed, g') => JS.Normal ({| SparkSQLStore.sqls := kept ++ pushed |}, g')
  | JS.Throw e => JS.Throw e
  end.
Proof.
  intros sqlIds kept. unfold calculateSqlStore. fold sqlIds. fold kept.
  unfold bind at 1. rewrite forOf_push.
  now destruct (mapM _ sqlIds g) as [[pushed g'] | e].
Qed.

(** Each element of a list has its image in the result of [mapM]. *)
Lemma mapM_In {A B : Type} (f : A -> M B) (l : list A) (g : IdGen)
    (bs : list B) (g' : IdGen) (a : A) :
  mapM f l g = JS.Normal (bs, g') -> In a l ->
  exists b gi gi', f a gi = JS.Normal (b, gi') /\ In b bs.
Proof.
  revert g bs. induction l as [ | x l IH]; intros g bs Hm Hin; [contradiction | ].
  simpl in Hm. unfold bind in Hm.
  destruct (f x g) as [[b g1] | e] eqn:Hf; [ | discriminate].
  destruct (mapM f l g1) as [[bs' g2] | e] eqn:Hl; [ | discriminate].
  unfold ret in Hm. injection Hm as <- <-.
  destruct Hin as [-> | Hin].
  - exists b, g, g1. split; [assumption | now left].
  - destruct (IH g1 bs' Hl Hin) as [b' [gi [gi' [H1 H2]]]].
    exists b', gi, gi'. split; [assumption | now right].
Qed.

(** [calculateSql] returns unless forcing the output node throws, and
    what it returns carries the next two tokens of the generator. *)
Lemma calculateSql_returns (sql : SparkSQL.t) (plan : option SQLPlan.t)
    (icebergCommit : option IcebergCommitsInfo.t) (stages : SparkStagesStore)
    (g : IdGen) :
  match classifiedGraphNodes sql plan icebergCommit with
  | JS.Throw e => calculateSql sql plan icebergCommit stages g = JS.Throw e
  | JS.Normal _ =>
      exists r,
        calculateSql sql plan icebergCommit stages g = JS.Normal (r, S (S g)) /\
        EnrichedSparkSQL.uniqueId r = g /\
        EnrichedSparkSQL.metricUpdateId r = S g /\
        EnrichedSparkSQL.id r = SparkSQL.id sql /\
        EnrichedSparkSQL.status r = SparkSQL.status sql /\
        EnrichedSparkSQL.originalNumOfNodes r = List.length (SparkSQL.nodes sql)
  end.
Proof.
  unfold calculateSql.
  destruct (classifiedGraphNodes sql plan icebergCommit) as [l | e]; simpl.
  - eexists. split; [reflexivity | ]. simpl. auto.
  - reflexivity.
Qed.

Lemma calculateSql_identity (sql : SparkSQL.t) (plan : option SQLPlan.t)
    (icebergCommit : option IcebergCommitsInfo.t) (stages : SparkStagesStore)
    (g g' : IdGen) (r : EnrichedSparkSQL.t) :
  calculateSql sql plan icebergCommit stages g = JS.Normal (r, g') ->
  g' = S (S g) /\
  EnrichedSparkSQL.uniqueId r = g /\
  EnrichedSparkSQL.id r = SparkSQL.id sql /\
  EnrichedSparkSQL.status r = SparkSQL.status sql /\
  EnrichedSparkSQL.originalNumOfNodes r = List.length (SparkSQL.nodes sql).
Proof.
  intros H. pose proof (calculateSql_returns sql plan icebergCommit stages g) as R.
  destruct (classifiedGraphNodes sql plan icebergCommit).
  - destruct R as [r' [E [H1 [H2 [H3 [H4 H5]]]]]]. rewrite E in H.
    injection H as <- <-. auto.
  - rewrite R in H. discriminate.
Qed.

Lemma findNewSql_In (sqls : list SparkSQL.t) (id : JS.jsint) (newSql : SparkSQL.t) :
  findNewSql sqls id = Some newSql ->
  In id (map (fun sql => JS.parseInt (SparkSQL.id sql)) sqls).
Proof.
  unfold findNewSql. intros H. apply find_some in H. destruct H as [Hin E].
  apply strictEq_eq in E. subst id. apply in_map_iff. now exists newSql.
Qed.

(** C3. A snapshot whose status is neither Completed nor Failed, that is
    Running, with as many nodes as the stored execution had when it was
    computed: what the loop pushes for its id is the stored execution with
    the duration and the three job id lists of the snapshot, every other
    field as stored, the nodes with their parsed plans and types, the
    codegen nodes, the filter tiers and the two identities.  No identity is
    drawn, and the store returned holds that execution. *)
Theorem running_update_frame (currentStore : SparkSQLStore.t)
    (sqls : list SparkSQL.t) (plans : list SQLPlan.t) (icebergInfo : IcebergInfo.t)
    (stages : SparkStagesStore) (id : JS.jsint)
    (newSql : SparkSQL.t) (currentSql : EnrichedSparkSQL.t) :
  findNewSql sqls id = Some newSql ->
  findCurrentSql currentStore id = Some currentSql ->
  SparkSQL.status newSql <> SqlStatus.Completed ->
  SparkSQL.status newSql <> SqlStatus.Failed ->
  EnrichedSparkSQL.originalNumOfNodes currentSql = List.length (SparkSQL.nodes newSql) ->
  exists r,
    (forall g, mergedSql currentStore sqls plans icebergInfo stages id g
               = JS.Normal (r, g)) /\
    (forall g store' g',
       calculateSqlStore (Some currentStore) sqls plans icebergInfo stages g
       = JS.Normal (store', g') ->
       In r (SparkSQLStore.sqls store')) /\
    (* from the snapshot *)
    EnrichedSparkSQL.duration r = SparkSQL.duration newSql /\
    EnrichedSparkSQL.failedJobIds r = SparkSQL.failedJobIds newSql /\
    EnrichedSparkSQL.runningJobIds r = SparkSQL.runningJobIds newSql /\
    EnrichedSparkSQL.successJobIds r = SparkSQL.successJobIds newSql /\
    (* as stored *)
    EnrichedSparkSQL.nodes r = EnrichedSparkSQL.nodes currentSql /\
    EnrichedSparkSQL.codegenNodes r = EnrichedSparkSQL.codegenNodes currentSql /\
    EnrichedSparkSQL.filters r = EnrichedSparkSQL.filters currentSql /\
    EnrichedSparkSQL.uniqueId r = EnrichedSparkSQL.uniqueId currentSql /\
    EnrichedSparkSQL.metricUpdateId r = EnrichedSparkSQL.metricUpdateId currentSql /\
    EnrichedSparkSQL.id r = EnrichedSparkSQL.id currentSql /\
    EnrichedSparkSQL.status r = EnrichedSparkSQL.status currentSql /\
    EnrichedSparkSQL.submissionTime r = EnrichedSparkSQL.submissionTime currentSql /\
    EnrichedSparkSQL.edges r = EnrichedSparkSQL.edges currentSql /\
    EnrichedSparkSQL.isSqlCommand r = EnrichedSparkSQL.isSqlCommand currentSql /\
    EnrichedSparkSQL.originalNumOfNodes r
    = EnrichedSparkSQL.originalNumOfNodes currentSql /\
    EnrichedSparkSQL.submissionTimeEpoc r
    = EnrichedSparkSQL.submissionTimeEpoc currentSql.
Proof.
  intros Hnew Hcur Hc Hf Hn.
  assert (Hm : forall g, mergedSql currentStore sqls plans icebergInfo stages id g
                         = JS.Normal (updateRunning currentSql newSql, g)).
  { intros g. unfold mergedSql. rewrite Hnew, Hcur.
    apply String.eqb_neq in Hc, Hf. rewrite Hc, Hf. simpl.
    rewrite Hn, Nat.eqb_refl. reflexivity. }
  exists (updateRunning currentSql newSql). split; [exact Hm | split].
  - intros g store' g' Hs. rewrite calculateSqlStore_pushes in Hs.
    destruct (mapM _ _ g) as [[pushed g1] | e] eqn:Hp; [ | discriminate].
    injection Hs as <- <-. simpl. apply in_or_app. right.
    destruct (mapM_In _ _ _ _ _ id Hp (findNewSql_In _ _ _ Hnew))
      as [b [gi [gi' [Hb Hin]]]].
    rewrite Hm in Hb. now injection Hb as <- <-.
  - simpl. repeat split; reflexivity.
Qed.

(** What the loop pushes for an id whose snapshot is recomputed. *)
Lemma mergedSql_recomputed (currentStore : SparkSQLStore.t)
    (sqls : list SparkSQL.t) (plans : list SQLPlan.t) (icebergInfo : IcebergInfo.t)
    (stages : SparkStagesStore) (id : JS.jsint) (newSql : SparkSQL.t)
    (currentSql : EnrichedSparkSQL.t) (g : IdGen) :
  mergedSql currentStore sqls plans icebergInfo stages id g
  = calculateSql newSql (findPlan plans id) (findCommit icebergInfo id) stages g ->
  (EnrichedSparkSQL.uniqueId currentSql < g)%nat ->
  match classifiedGraphNodes newSql (findPlan plans id) (findCommit icebergInfo id) with
  | JS.Throw e =>
      mergedSql currentStore sqls plans icebergInfo stages id g = JS.Throw e
  | JS.Normal _ =>
      exists r,
        mergedSql currentStore sqls plans icebergInfo stages id g
        = JS.Normal (r, S (S g)) /\
        EnrichedSparkSQL.uniqueId r = g /\
        EnrichedSparkSQL.uniqueId r <> EnrichedSparkSQL.uniqueId currentSql /\
        r <> currentSql /\
        EnrichedSparkSQL.status r = SparkSQL.status newSql /\
        EnrichedSparkSQL.originalNumOfNodes r = List.length (SparkSQL.nodes newSql)
  end.
Proof.
  intros E Hlt. rewrite E.
  pose proof (calculateSql_returns newSql (findPlan plans id)
                (findCommit icebergInfo id) stages g) as R.
  destruct (classifiedGraphNodes _ _ _); [ | exact R].
  destruct R as [r [Hr [H1 [H2 [H3 [H4 H5]]]]]].
  exists r. repeat split; auto.
  - rewrite H1. lia.
  - intros ->. lia.
Qed.

(** The identities of a store were all drawn before the generator state
    it is returned with: the assumption the theorems on recomputed
    executions make on the stored [uniqueId] holds of every store the
    reducer builds. *)
Lemma mergedSql_drawn (currentStore : SparkSQLStore.t)
    (sqls : list SparkSQL.t) (plans : list SQLPlan.t) (icebergInfo : IcebergInfo.t)
    (stages : SparkStagesStore) (id : JS.jsint) (g g' : IdGen)
    (r : EnrichedSparkSQL.t) :
  (forall e, In e (SparkSQLStore.sqls currentStore) ->
             (EnrichedSparkSQL.uniqueId e < g)%nat) ->
  mergedSql currentStore sqls plans icebergInfo stages id g = JS.Normal (r, g') ->
  (g <= g')%nat /\ (EnrichedSparkSQL.uniqueId r < g')%nat.
Proof.
  intros Hinv. unfold mergedSql.
  destruct (findNewSql sqls id) as [newSql | ]; [ | discriminate].
  assert (Hcalc : forall plan commit,
             calculateSql newSql plan commit stages g = JS.Normal (r, g') ->
             (g <= g')%nat /\ (EnrichedSparkSQL.uniqueId r < g')%nat).
  { intros plan commit H. apply calculateSql_identity in H.
    destruct H as [-> [-> _]]. lia. }
  destruct (findCurrentSql currentStore id) as [currentSql | ] eqn:Hcur;
    [ | apply Hcalc].
  destruct (_ || _); [apply Hcalc | ].
  destruct (negb _); [apply Hcalc | ].
  unfold ret. intros [= <- <-]. split; [lia | ]. simpl.
  apply Hinv. unfold findCurrentSql in Hcur. now apply find_some in Hcur.
Qed.

Lemma calculateSqls_drawn (sqls : list SparkSQL.t) (plans : list SQLPlan.t)
    (icebergInfo : IcebergInfo.t) (stages : SparkStagesStore) (g g' : IdGen)
    (store' : SparkSQLStore.t) :
  calculateSqlStore None sqls plans icebergInfo stages g = JS.Normal (store', g') ->
  forall e, In e (SparkSQLStore.sqls store') -> (EnrichedSparkSQL.uniqueId e < g')%nat.
Proof.
  unfold calculateSqlStore, calculateSqls, bind. intros Hs.
  destruct (mapM _ sqls g) as [[l g1] | e0] eqn:Hl; [ | discriminate].
  unfold ret in Hs. injection Hs as <- <-. simpl.
  assert (H : (g <= g1)%nat /\
              forall e, In e l -> (EnrichedSparkSQL.uniqueId e < g1)%nat).
  { revert g l Hl. induction sqls as [ | sql sqls IH]; intros g l Hl; simpl in Hl.
    - unfold ret in Hl. injection Hl as <- <-. split; [lia | intros e []].
    - unfold bind in Hl.
      destruct (calculateSql sql _ _ stages g) as [[b g2] | e0] eqn:Hb; [ | discriminate].
      destruct (mapM _ sqls g2) as [[bs g3] | e0] eqn:Hbs; [ | discriminate].
      unfold ret in Hl. injection Hl as <- <-.
      apply calculateSql_identity in Hb. destruct Hb as [-> [Hu _]].
      destruct (IH _ _ Hbs) as [Hle Hall].
      split; [lia | ]. intros e [<- | He]; [lia | now apply Hall]. }
  apply H.
Qed.

Lemma calculateSqlStore_drawn (currentStore : SparkSQLStore.t)
    (sqls : list SparkSQL.t) (plans : list SQLPlan.t) (icebergInfo : IcebergInfo.t)
    (stages : SparkStagesStore) (g g' : IdGen) (store' : SparkSQLStore.t) :
  (forall e, In e (SparkSQLStore.sqls currentStore) ->
             (EnrichedSparkSQL.uniqueId e < g)%nat) ->
  calculateSqlStore (Some currentStore) sqls plans icebergInfo stages g
  = JS.Normal (store', g') ->
  forall e, In e (SparkSQLStore.sqls store') -> (EnrichedSparkSQL.uniqueId e < g')%nat.
Proof.
  intros Hinv Hs. rewrite calculateSqlStore_pushes in Hs.
  destruct (mapM _ _ g) as [[pushed g1] | e0] eqn:Hp; [ | discriminate].
  injection Hs as <- <-. simpl.
  assert (Hpushed : (g <= g1)%nat /\
                    forall e, In e pushed -> (EnrichedSparkSQL.uniqueId e < g1)%nat).
  { revert Hp Hinv. generalize (map (fun sql => JS.parseInt (SparkSQL.id sql)) sqls).
    intros ids. revert g pushed.
    induction ids as [ | i ids IH]; intros g pushed Hp Hinv; simpl in Hp.
    - unfold ret in Hp. injection Hp as <- <-. split; [lia | intros e []].
    - unfold bind in Hp.
      destruct (mergedSql _ _ _ _ _ i g) as [[b g2] | e0] eqn:Hb; [ | discriminate].
      destruct (mapM _ ids g2) as [[bs g3] | e0] eqn:Hbs; [ | discriminate].
      unfold ret in Hp. injection Hp as <- <-.
      destruct (mergedSql_drawn _ _ _ _ _ _ _ _ _ Hinv Hb) as [Hle Hlt].
      destruct (IH g2 bs Hbs) as [Hle' Hall].
      { intros e He. specialize (Hinv e He). lia. }
      split; [lia | ]. intros e [<- | He]; [lia | now apply Hall]. }
  destruct Hpushed as [Hle Hall].
  intros e He. apply in_app_or in He. destruct He as [He | He].
  - apply filter_In in He. destruct He as [He _]. specialize (Hinv e He). lia.
  - now apply Hall.
Qed.

End StoreMerge.


(** *** Contraction: what the output edges stand for *)

Section ContractionPaths.

Context `{Num : JsNumber} `{Pay : Payloads}.

Import Graphlib.

(** Printing is one-to-one on all the values an id can take. *)
Lemma parseInt_toString_Int (a : JS.jsint) (z : Z) :
  JS.parseInt (JS.toString a) = JS.Int z -> a = JS.Int z.
Proof.
  destruct a as [ | x | ]; [vm_compute; discriminate | | vm_compute; discriminate].
  rewrite parseInt_toString. now intros [= ->].
Qed.

Lemma toString_inj (a b : JS.jsint) : JS.toString a = JS.toString b -> a = b.
Proof.
  intros H. destruct a as [ | x | ], b as [ | y | ]; try reflexivity;
    try (vm_compute in H; discriminate H);
    try (apply (f_equal JS.parseInt) in H; rewrite parseInt_toString in H;
         vm_compute in H; discriminate H).
  f_equal. now apply toString_Int_inj.
Qed.

Lemma edges_setNodes {A : Type} `{SqlNodeLike A} (l : list A) (g : Graph) :
  edges (fold_left (fun g node => setNode g (nodeKey node)) l g) = edges g.
Proof.
  revert g. induction l as [ | a l IH]; intros g; simpl; [reflexivity | ].
  now rewrite IH, edges_setNode.
Qed.

Lemma edges_setEdges (es : list EnrichedSqlEdge) (g : Graph) (e : Edge) :
  In e (edges (fold_left
                 (fun g edge => setEdge g (JS.toString (fromId edge))
                                        (JS.toString (toId edge))) es g)) <->
  In e (edges g) \/ In e (map keyEdge es).
Proof.
  revert g. induction es as [ | x es IH]; intros g; simpl.
  - tauto.
  - rewrite IH, edges_setEdge. unfold keyEdge at 2. intuition.
Qed.

Lemma edges_generateGraph {A : Type} `{SqlNodeLike A}
    (es : list EnrichedSqlEdge) (allNodes : list A) (e : Edge) :
  In e (edges (generateGraph es allNodes)) <-> In e (map keyEdge es).
Proof.
  unfold generateGraph. rewrite edges_setEdges, edges_setNodes. simpl. tauto.
Qed.

(** The loop body only adds an edge where the graph had a path of two. *)
Lemma contractNode_paths (R : string -> string -> Prop) (g : Graph)
    (node : EnrichedSqlNode.t) :
  (forall e, In e (edges g) -> clos_trans _ R (v e) (w e)) ->
  forall e, In e (edges (contractNode g node)) -> clos_trans _ R (v e) (w e).
Proof.
  intros Hg e. unfold contractNode.
  destruct (inEdges g (nodeKey node)) as [ins | ] eqn:Hin; [ | apply Hg].
  destruct (outEdges g (nodeKey node)) as [[ | target outs] | ] eqn:Hout;
    try apply Hg.
  intros He.
  assert (Hn : hasNode (rewire g ins target) (nodeKey node) = true).
  { apply hasNode_In, nodes_rewire, hasNode_In. eapply inEdges_hasNode; eauto. }
  apply (edges_removeNode _ _ _ Hn) in He. destruct He as [He _].
  apply edges_rewire in He. destruct He as [He | [i [Hi ->]]]; [now apply Hg | ].
  simpl.
  apply (inEdges_In _ _ _ i Hin) in Hi. destruct Hi as [Hi Hw].
  assert (Ht : In target (edges g) /\ v target = nodeKey node).
  { apply (outEdges_In _ _ _ target Hout). now left. }
  destruct Ht as [Ht Hv].
  apply t_trans with (nodeKey node).
  - rewrite <- Hw. now apply Hg.
  - rewrite <- Hv. now apply Hg.
Qed.

Lemma contractedGraph_paths (es : list EnrichedSqlEdge)
    (allNodes visibleNodes : list EnrichedSqlNode.t) (e : Edge) :
  In e (edges (contractedGraph es allNodes visibleNodes)) ->
  clos_trans _ (fun x y => In (mkEdge x y) (map keyEdge es)) (v e) (w e).
Proof.
  unfold contractedGraph.
  assert (H0 : forall e, In e (edges (generateGraph es allNodes)) ->
                 clos_trans _ (fun x y => In (mkEdge x y) (map keyEdge es)) (v e) (w e)).
  { intros [x y] He. apply edges_generateGraph in He. now apply t_step. }
  revert H0. generalize (generateGraph es allNodes) as g.
  induction (notVisible allNodes visibleNodes) as [ | n l IH]; intros g Hg; simpl.
  - apply Hg.
  - apply IH. now apply contractNode_paths.
Qed.

(** A path between keys is a path between the ids they print. *)
Lemma key_path (es : list EnrichedSqlEdge) (x y : string) :
  clos_trans _ (fun x y => In (mkEdge x y) (map keyEdge es)) x y ->
  exists a b, x = JS.toString a /\ y = JS.toString b /\
    clos_trans _ (fun a b => In {| fromId := a; toId := b |} es) a b.
Proof.
  induction 1 as [x y H | x y z _ [a [b [Hx [Hy Hab]]]] _ [b' [c [Hy' [Hz Hbc]]]]].
  - apply in_map_iff in H. destruct H as [[a b] [E Hin]].
    injection E as <- <-. exists a, b. repeat split. now apply t_step.
  - rewrite Hy in Hy'. apply toString_inj in Hy'. subst b'.
    exists a, c. repeat split; try assumption. now apply t_trans with b.
Qed.

(** X1. Contraction invents no connection: the end points of every edge
    [cleanUpDAG] returns are joined by a path of edges of the edge list
    it was given. *)
Theorem cleanUpDAG_sound (es : list EnrichedSqlEdge)
    (allNodes visibleNodes : list EnrichedSqlNode.t) (e : EnrichedSqlEdge) :
  In e (cleanUpDAG es allNodes visibleNodes) ->
  clos_trans _ (fun a b => In {| fromId := a; toId := b |} es) (fromId e) (toId e).
Proof.
  intros He. pose proof (cleanUpDAG_visible _ _ _ _ He) as [Hf Ht].
  rewrite visibleIds_Ints in Hf, Ht.
  apply Array_includes_Ints, in_map_iff in Hf. destruct Hf as [zf [Ef _]].
  apply Array_includes_Ints, in_map_iff in Ht. destruct Ht as [zt [Et _]].
  unfold cleanUpDAG in He. apply filter_In in He. destruct He as [He _].
  apply in_map_iff in He. destruct He as [k [Ek Hk]].
  apply contractedGraph_paths, key_path in Hk.
  destruct Hk as [a [b [Ha [Hb Hab]]]].
  subst e. simpl in *. rewrite Ha in Ef. rewrite Hb in Et.
  symmetry in Ef, Et. apply parseInt_toString_Int in Ef, Et.
  rewrite Ha, Hb. rewrite Ef, Et in *. now rewrite !parseInt_toString.
Qed.


(** The edge list of a graph holds no edge twice. *)
Lemma NoDup_snoc {A : Type} (l : list A) (a : A) :
  NoDup l -> ~ In a l -> NoDup (l ++ [a]).
Proof.
  intros Hl Ha. apply NoDup_app; [exact Hl | repeat constructor; intros [] | ].
  intros x Hx [<- | []]. now apply Ha.
Qed.

Lemma NoDup_setEdge (g : Graph) (x y : string) :
  NoDup (edges g) -> NoDup (edges (setEdge g x y)).
Proof.
  intros Hg. unfold setEdge. destruct (hasEdge g x y) eqn:E; [exact Hg | ].
  simpl. rewrite !edges_setNode. apply NoDup_snoc; [exact Hg | ].
  intros Hin. apply hasEdge_In in Hin. congruence.
Qed.

Lemma NoDup_rewire (t : Edge) (ins : list Edge) (g : Graph) :
  NoDup (edges g) -> NoDup (edges (rewire g ins t)).
Proof.
  unfold rewire. revert g. induction ins as [ | i ins IH]; intros g Hg; simpl.
  - exact Hg.
  - apply IH. now apply NoDup_setEdge.
Qed.

Lemma NoDup_removeNode (g : Graph) (x : string) :
  NoDup (edges g) -> NoDup (edges (removeNode g x)).
Proof.
  intros Hg. unfold removeNode. destruct (hasNode g x); [ | exact Hg].
  simpl. now apply NoDup_filter.
Qed.

Lemma NoDup_contractNode (g : Graph) (node : EnrichedSqlNode.t) :
  NoDup (edges g) -> NoDup (edges (contractNode g node)).
Proof.
  intros Hg. unfold contractNode.
  destruct (inEdges g (nodeKey node)) as [ins | ]; [ | exact Hg].
  destruct (outEdges g (nodeKey node)) as [[ | target outs] | ]; try exact Hg.
  now apply NoDup_removeNode, NoDup_rewire.
Qed.

Lemma NoDup_generateGraph {A : Type} `{SqlNodeLike A}
    (es : list EnrichedSqlEdge) (allNodes : list A) :
  NoDup (edges (generateGraph es allNodes)).
Proof.
  unfold generateGraph.
  assert (H0 : NoDup (edges (fold_left (fun g node => setNode g (nodeKey node))
                                       allNodes empty))).
  { rewrite edges_setNodes. constructor. }
  revert H0. generalize (fold_left (fun g node => setNode g (nodeKey node)) allNodes empty).
  induction es as [ | e es IH]; intros g Hg; simpl; [exact Hg | ].
  apply IH. now apply NoDup_setEdge.
Qed.

Lemma NoDup_contractedGraph (es : list EnrichedSqlEdge)
    (allNodes visibleNodes : list EnrichedSqlNode.t) :
  NoDup (edges (contractedGraph es allNodes visibleNodes)).
Proof.
  unfold contractedGraph.
  pose proof (NoDup_generateGraph es allNodes) as H0. revert H0.
  generalize (generateGraph es allNodes) as g.
  induction (notVisible allNodes visibleNodes) as [ | n l IH]; intros g Hg; simpl.
  - exact Hg.
  - apply IH. now apply NoDup_contractNode.
Qed.

Lemma NoDup_filter_map {A B : Type} (h : A -> B) (f : B -> bool) (l : list A) :
  NoDup l ->
  (forall x y, In x l -> In y l -> f (h x) = true -> h x = h y -> x = y) ->
  NoDup (filter f (map h l)).
Proof.
  induction 1 as [ | a l Ha Hl IH]; intros Hinj; simpl; [constructor | ].
  assert (IH' : NoDup (filter f (map h l))).
  { apply IH. intros x y Hx Hy. apply Hinj; now right. }
  destruct (f (h a)) eqn:Hf; [ | exact IH'].
  constructor; [ | exact IH'].
  intros Hin. apply filter_In in Hin. destruct Hin as [Hin _].
  apply in_map_iff in Hin. destruct Hin as [y [Hy Hyl]].
  apply Ha. rewrite (Hinj a y); auto. now left. now right.
Qed.

(** Every key of an edge of the contracted graph prints an id. *)
Lemma contractedGraph_keys (es : list EnrichedSqlEdge)
    (allNodes visibleNodes : list EnrichedSqlNode.t) (e : Edge) :
  In e (edges (contractedGraph es allNodes visibleNodes)) ->
  exists a b, e = mkEdge (JS.toString a) (JS.toString b).
Proof.
  intros He. apply contractedGraph_paths, key_path in He.
  destruct He as [a [b [Ha [Hb _]]]]. exists a, b. destruct e. simpl in *. congruence.
Qed.

(** X2. [cleanUpDAG] returns no edge twice, whatever the edge list
    holds (the graph is not a multigraph, and reading the keys back
    merges no two edges between visible nodes). *)
Theorem cleanUpDAG_NoDup (es : list EnrichedSqlEdge)
    (allNodes visibleNodes : list EnrichedSqlNode.t) :
  NoDup (cleanUpDAG es allNodes visibleNodes).
Proof.
  unfold cleanUpDAG. apply NoDup_filter_map; [apply NoDup_contractedGraph | ].
  intros x y Hx Hy Hf Exy.
  apply andb_prop in Hf. destruct Hf as [Ht Hf]. simpl in Ht, Hf.
  rewrite visibleIds_Ints in Hf, Ht.
  apply Array_includes_Ints, in_map_iff in Hf. destruct Hf as [zf [Ef _]].
  apply Array_includes_Ints, in_map_iff in Ht. destruct Ht as [zt [Et _]].
  apply contractedGraph_keys in Hx, Hy.
  destruct Hx as [a [b ->]], Hy as [c [d ->]]. simpl in *.
  injection Exy as E1 E2. rewrite <- Ef in E1. rewrite <- Et in E2.
  symmetry in Ef, Et, E1, E2.
  apply parseInt_toString_Int in Ef, Et, E1, E2. congruence.
Qed.

(** An edge of the plan between two visible nodes is never lost. *)
Lemma direct_contractNode (g : Graph) (node : EnrichedSqlNode.t) (e : Edge) :
  In e (edges g) -> incident (nodeKey node) e = false ->
  In e (edges (contractNode g node)).
Proof.
  intros He Hinc. unfold contractNode.
  destruct (inEdges g (nodeKey node)) as [ins | ] eqn:Hin; [ | exact He].
  destruct (outEdges g (nodeKey node)) as [[ | target outs] | ]; try exact He.
  apply edges_removeNode.
  - apply hasNode_In, nodes_rewire, hasNode_In. eapply inEdges_hasNode; eauto.
  - split; [ | exact Hinc]. apply edges_rewire. now left.
Qed.

Lemma direct_contract_all (l : list EnrichedSqlNode.t) (g : Graph) (e : Edge) :
  In e (edges g) -> (forall node, In node l -> incident (nodeKey node) e = false) ->
  In e (edges (fold_left contractNode l g)).
Proof.
  revert g. induction l as [ | n l IH]; intros g He Hl; simpl; [exact He | ].
  apply IH.
  - apply direct_contractNode; [exact He | apply Hl; now left].
  - intros node Hn. apply Hl. now right.
Qed.

(** X3. An edge of the edge list between two visible nodes is an edge
    of the output: contracting the other nodes never removes it. *)
Theorem cleanUpDAG_keeps_visible_edges (es : list EnrichedSqlEdge)
    (allNodes visibleNodes : list EnrichedSqlNode.t) (a b : EnrichedSqlNode.t) :
  In a visibleNodes -> In b visibleNodes ->
  In {| fromId := JS.Int (EnrichedSqlNode.nodeId a);
        toId := JS.Int (EnrichedSqlNode.nodeId b) |} es ->
  In {| fromId := JS.Int (EnrichedSqlNode.nodeId a);
        toId := JS.Int (EnrichedSqlNode.nodeId b) |}
     (cleanUpDAG es allNodes visibleNodes).
Proof.
  intros Ha Hb He. unfold cleanUpDAG. apply filter_In. split.
  - apply in_map_iff. exists (mkEdge (nodeKey a) (nodeKey b)). split.
    + cbn [v w]. unfold nodeKey. rewrite !parseInt_toString. reflexivity.
    + apply direct_contract_all.
      * apply edges_generateGraph, in_map_iff.
        eexists. split; [ | exact He]. reflexivity.
      * intros node Hn. unfold incident. simpl.
        apply orb_false_intro; apply String.eqb_neq;
          eapply notVisible_key; eauto.
  - simpl. apply andb_true_intro. split; apply Array_includes_In;
      unfold visibleIds; apply in_map_iff; eauto.
Qed.


(** With no edge listed twice the graph holds the edges in the order
    of the list. *)
Lemma keyEdge_inj (e1 e2 : EnrichedSqlEdge) : keyEdge e1 = keyEdge e2 -> e1 = e2.
Proof.
  destruct e1 as [a b], e2 as [c d]. unfold keyEdge. simpl.
  intros [= E1 E2]. apply toString_inj in E1, E2. congruence.
Qed.

Lemma edges_setEdges_NoDup (es : list EnrichedSqlEdge) (g : Graph) :
  NoDup (edges g ++ map keyEdge es) ->
  edges (fold_left
           (fun g edge => setEdge g (JS.toString (fromId edge))
                                  (JS.toString (toId edge))) es g)
  = (edges g ++ map keyEdge es)%list.
Proof.
  revert g. induction es as [ | x es IH]; intros g Hnd; simpl.
  - now rewrite app_nil_r.
  - assert (E : edges (setEdge g (JS.toString (fromId x)) (JS.toString (toId x)))
                = (edges g ++ [keyEdge x])%list).
    { unfold setEdge.
      destruct (hasEdge g _ _) eqn:Hh.
      - apply hasEdge_In in Hh. apply NoDup_remove_2 in Hnd.
        exfalso. apply Hnd. apply in_or_app. now left.
      - simpl. now rewrite !edges_setNode. }
    rewrite IH; rewrite E, <- app_assoc; [reflexivity | exact Hnd].
Qed.

Lemma filter_map_fix {A : Type} (h : A -> A) (f : A -> bool) (l : list A) :
  (forall x, f (h x) = true -> h x = x) -> (forall x, f x = true -> h x = x) ->
  filter f (map h l) = filter f l.
Proof.
  intros H1 H2. induction l as [ | a l IH]; simpl; [reflexivity | ].
  destruct (f (h a)) eqn:E1.
  - pose proof (H1 a E1) as Ha. rewrite Ha in E1 |- *. now rewrite E1, IH.
  - destruct (f a) eqn:E2; [ | exact IH].
    rewrite (H2 a E2) in E1. congruence.
Qed.

(** X5. With no node to contract and no edge listed twice,
    [cleanUpDAG] returns the edges of the list between visible ids, in
    the order of the list. *)
Theorem cleanUpDAG_nothing_hidden (es : list EnrichedSqlEdge)
    (allNodes visibleNodes : list EnrichedSqlNode.t) :
  notVisible allNodes visibleNodes = [] -> NoDup es ->
  cleanUpDAG es allNodes visibleNodes =
  filter (fun edge =>
            JS.Array_includes (visibleIds visibleNodes) (toId edge) &&
            JS.Array_includes (visibleIds visibleNodes) (fromId edge)) es.
Proof.
  intros Hnv Hnd. unfold cleanUpDAG, contractedGraph. rewrite Hnv. simpl.
  unfold generateGraph. rewrite edges_setEdges_NoDup.
  - rewrite edges_setNodes. simpl. rewrite map_map.
    assert (Hfix : forall a z, JS.parseInt (JS.toString a) = JS.Int z \/ a = JS.Int z ->
                     JS.parseInt (JS.toString a) = a).
    { intros a z [H | ->]; [ | apply parseInt_toString].
      rewrite H. symmetry. now apply parseInt_toString_Int. }
    assert (Hint : forall x, JS.Array_includes (visibleIds visibleNodes) x = true ->
                     exists z, x = JS.Int z).
    { intros x Hx. rewrite visibleIds_Ints in Hx.
      apply Array_includes_Ints, in_map_iff in Hx. destruct Hx as [z [<- _]]. eauto. }
    apply filter_map_fix; intros [a b]; simpl; intros Hf;
      apply andb_prop in Hf; destruct Hf as [Ht Hf];
      apply Hint in Ht, Hf; destruct Ht as [zt Ht], Hf as [zf Hf].
    + f_equal; eapply Hfix; left; eauto.
    + f_equal; eapply Hfix; right; eauto.
  - rewrite edges_setNodes. simpl.
    clear Hnv. induction Hnd as [ | x l Hx Hl IH]; simpl; constructor; [ | exact IH].
    intros Hin. apply in_map_iff in Hin. destruct Hin as [y [Ey Hy]].
    apply keyEdge_inj in Ey. now subst y.
Qed.


(** The first edge out of a key is the first one the edge list gives it. *)
Lemma hd_filter_app {A : Type} (q : A -> bool) (l : list A) (k : A) :
  hd_error (filter q (l ++ [k])) =
  match hd_error (filter q l) with
  | Some x => Some x
  | None => if q k then Some k else None
  end.
Proof.
  induction l as [ | a l IH]; simpl.
  - now destruct (q k).
  - destruct (q a); [reflexivity | exact IH].
Qed.

Lemma hd_filter_In {A : Type} (q : A -> bool) (l : list A) (k : A) :
  In k l -> q k = true -> exists x, hd_error (filter q l) = Some x.
Proof.
  intros Hk Hq. destruct (filter q l) as [ | x r] eqn:E; [ | simpl; eauto].
  assert (Hin : In k (filter q l)) by (apply filter_In; now split).
  rewrite E in Hin. destruct Hin.
Qed.

Lemma hd_setEdges (q : Edge -> bool) (es : list EnrichedSqlEdge) (g : Graph) :
  hd_error (filter q (edges (fold_left
     (fun g edge => setEdge g (JS.toString (fromId edge)) (JS.toString (toId edge)))
     es g))) =
  match hd_error (filter q (edges g)) with
  | Some x => Some x
  | None => option_map keyEdge (find (fun e => q (keyEdge e)) es)
  end.
Proof.
  revert g. induction es as [ | x es IH]; intros g; simpl.
  - now destruct (hd_error _).
  - rewrite IH. clear IH. fold (keyEdge x). unfold setEdge.
    change (mkEdge (JS.toString (fromId x)) (JS.toString (toId x))) with (keyEdge x).
    destruct (hasEdge g _ _) eqn:Hh.
    + destruct (hd_error (filter q (edges g))) eqn:Hd; [reflexivity | ].
      destruct (q (keyEdge x)) eqn:Hq; [ | reflexivity].
      apply hasEdge_In in Hh.
      destruct (hd_filter_In q _ _ Hh Hq) as [y Hy]. congruence.
    + simpl. rewrite !edges_setNode, hd_filter_app.
      destruct (hd_error (filter q (edges g))); [reflexivity | ].
      now destruct (q (keyEdge x)).
Qed.

Lemma hd_generateGraph {A : Type} `{SqlNodeLike A} (q : Edge -> bool)
    (es : list EnrichedSqlEdge) (allNodes : list A) :
  hd_error (filter q (edges (generateGraph es allNodes)))
  = option_map keyEdge (find (fun e => q (keyEdge e)) es).
Proof.
  unfold generateGraph. rewrite hd_setEdges, edges_setNodes. reflexivity.
Qed.

Lemma find_pointwise {A : Type} (f f' : A -> bool) (l : list A) :
  (forall x, f x = f' x) -> find f l = find f' l.
Proof.
  intros E. induction l as [ | a l IH]; simpl; [reflexivity | ].
  now rewrite E, IH.
Qed.

Lemma strictEq_Int (a : JS.jsint) (z : Z) :
  JS.strictEq a (JS.Int z) = String.eqb (JS.toString a) (JS.toString (JS.Int z)).
Proof.
  destruct (String.eqb_spec (JS.toString a) (JS.toString (JS.Int z))) as [E | E].
  - apply toString_inj in E. subst a. unfold JS.strictEq. now rewrite Z.eqb_refl.
  - destruct (JS.strictEq a (JS.Int z)) eqn:S; [ | reflexivity].
    apply strictEq_eq in S. now subst a.
Qed.

(** X4. One node hidden between two visible ones: when [hidden] is the
    only node contracted, an edge from [a] into it and the first edge
    the list has out of it, leading to [b], give the edge from [a] to
    [b] in the output. *)
Theorem cleanUpDAG_bypass (es : list EnrichedSqlEdge)
    (allNodes visibleNodes : list EnrichedSqlNode.t)
    (a hidden b : EnrichedSqlNode.t) (first : EnrichedSqlEdge) :
  notVisible allNodes visibleNodes = [hidden] ->
  In a visibleNodes -> In b visibleNodes ->
  In {| fromId := JS.Int (EnrichedSqlNode.nodeId a);
        toId := JS.Int (EnrichedSqlNode.nodeId hidden) |} es ->
  find (fun e => JS.strictEq (fromId e) (JS.Int (EnrichedSqlNode.nodeId hidden))) es
  = Some first ->
  toId first = JS.Int (EnrichedSqlNode.nodeId b) ->
  In {| fromId := JS.Int (EnrichedSqlNode.nodeId a);
        toId := JS.Int (EnrichedSqlNode.nodeId b) |}
     (cleanUpDAG es allNodes visibleNodes).
Proof.
  intros Hnv Ha Hb Hax Hfirst Hto.
  assert (Hh : In hidden (notVisible allNodes visibleNodes)) by (rewrite Hnv; now left).
  assert (Hall : In hidden allNodes) by (unfold notVisible in Hh; now apply filter_In in Hh).
  pose proof (notVisible_key _ _ _ _ Hh Ha) as Ka.
  pose proof (notVisible_key _ _ _ _ Hh Hb) as Kb.
  set (g := generateGraph es allNodes).
  assert (Hnode : hasNode g (nodeKey hidden) = true).
  { apply hasNode_In. now apply nodes_generateGraph. }
  assert (Hin : In (mkEdge (nodeKey a) (nodeKey hidden)) (edges g)).
  { apply edges_generateGraph, in_map_iff. eexists. split; [ | exact Hax]. reflexivity. }
  assert (Hout : exists rest,
             outEdges g (nodeKey hidden)
             = Some (mkEdge (nodeKey hidden) (nodeKey b) :: rest)).
  { unfold outEdges. rewrite Hnode.
    pose proof (hd_generateGraph (fun e => String.eqb (v e) (nodeKey hidden)) es
                  allNodes) as Hd.
    rewrite (find_pointwise _ (fun e => JS.strictEq (fromId e)
                                    (JS.Int (EnrichedSqlNode.nodeId hidden)))) in Hd.
    2: { intros e. cbn [keyEdge v]. symmetry. apply strictEq_Int. }
    rewrite Hfirst in Hd. simpl in Hd. fold g in Hd.
    apply find_some in Hfirst. destruct Hfirst as [_ Hf].
    apply strictEq_eq in Hf.
    destruct (filter _ (edges g)) as [ | k rest]; [discriminate | ].
    simpl in Hd. injection Hd as ->. exists rest. unfold keyEdge. rewrite Hf, Hto. reflexivity. }
  destruct Hout as [rest Hout].
  unfold cleanUpDAG. apply filter_In. split.
  - apply in_map_iff. exists (mkEdge (nodeKey a) (nodeKey b)). split.
    + cbn [v w]. unfold nodeKey. rewrite !parseInt_toString. reflexivity.
    + unfold contractedGraph. rewrite Hnv. simpl. fold g. unfold contractNode.
      unfold inEdges in *. rewrite Hnode. rewrite Hout.
      apply edges_removeNode.
      * apply hasNode_In, nodes_rewire, hasNode_In. exact Hnode.
      * split.
        -- apply edges_rewire. right. exists (mkEdge (nodeKey a) (nodeKey hidden)).
           split; [ | reflexivity]. apply filter_In. split; [exact Hin | ].
           simpl. apply String.eqb_refl.
        -- unfold incident. simpl.
           apply orb_false_intro; now apply String.eqb_neq.
  - simpl. apply andb_true_intro. split; apply Array_includes_In;
      unfold visibleIds; apply in_map_iff; eauto.
Qed.









End ContractionPaths.

(** *** The plan dispatcher and the derived metrics, continued *)

Section DerivedMetrics.

Context `{Num : JsNumber} `{Pay : Payloads} `{Imp : @Imports Num Pay}.

Import Graphlib.

Lemma find_filter {A : Type} (p : A -> bool) (l : list A) :
  find p (filter p l) = find p l.
Proof.
  induction l as [ | a l IH]; simpl; [reflexivity | ].
  destruct (p a) eqn:E; simpl; [now rewrite E | exact IH].
Qed.

(** X7. The duration of a BroadcastExchange is its "time to broadcast"
    metric alone, 0 when it has none: the metrics of any other name
    ("time to build" and "time to collect" among them) never enter it.
    Every other node has no broadcast duration. *)
Theorem calcBroadcastExchangeDuration_broadcast_only (nodeName : string)
    (metrics : list EnrichedSqlMetric) :
  calcBroadcastExchangeDuration nodeName metrics =
    (if String.eqb nodeName "BroadcastExchange"
     then Some (orElse (getMetricDuration "time to broadcast" metrics) (ofZ 0))
     else None) /\
  calcBroadcastExchangeDuration nodeName metrics =
  calcBroadcastExchangeDuration nodeName
    (filter (fun m => String.eqb (name m) "time to broadcast") metrics).
Proof.
  split; [reflexivity | ].
  unfold calcBroadcastExchangeDuration, getMetricDuration.
  now rewrite find_filter.
Qed.

Lemma crossName_eqb (nodeName : string) :
  In nodeName ["BroadcastNestedLoopJoin"; "CartesianProduct"] ->
  String.eqb nodeName "BroadcastNestedLoopJoin" || String.eqb nodeName "CartesianProduct"
  = true.
Proof.
  intros [<- | [<- | []]]; reflexivity.
Qed.

(** X8. [addCrossJoinFilterRatioMetric]: nothing for a node that is not
    a BroadcastNestedLoopJoin or a CartesianProduct, nothing unless the
    node has exactly two incoming edges; with two inputs whose own
    metrics give [rows1] and [rows2] and an output row count, the two
    metrics "Cross Join Scanned Rows" = [rows1 * rows2] and "Rows
    Filtered" = 100 - percentage(output, scanned), two decimals. *)
Theorem addCrossJoinFilterRatioMetric_branches (node : EnrichedSqlNode.t)
    (updatedMetrics : list EnrichedSqlMetric) (graph : Graph)
    (allNodes : list EnrichedSqlNode.t) :
  (~ In (EnrichedSqlNode.nodeName node) ["BroadcastNestedLoopJoin"; "CartesianProduct"] ->
   addCrossJoinFilterRatioMetric node updatedMetrics graph allNodes = None) /\
  (forall inputEdges, inEdges graph (nodeKey node) = Some inputEdges ->
     List.length inputEdges <> 2%nat ->
     addCrossJoinFilterRatioMetric node updatedMetrics graph allNodes = None) /\
  (forall e1 e2 rows1 rows2 outputRows,
     In (EnrichedSqlNode.nodeName node) ["BroadcastNestedLoopJoin"; "CartesianProduct"] ->
     inEdges graph (nodeKey node) = Some [e1; e2] ->
     getRowsFromMetrics (option_map EnrichedSqlNode.metrics (findByKey allNodes (v e1)))
     = Some rows1 ->
     getRowsFromMetrics (option_map EnrichedSqlNode.metrics (findByKey allNodes (v e2)))
     = Some rows2 ->
     getRowsFromMetrics (Some updatedMetrics) = Some outputRows ->
     addCrossJoinFilterRatioMetric node updatedMetrics graph allNodes =
     Some [ {| name := "Cross Join Scanned Rows";
               value := numToString (mul rows1 rows2) |};
            {| name := "Rows Filtered";
               value :=
                 toFixed (sub (ofZ 100)
                              (calculatePercentage outputRows (mul rows1 rows2))) 2
                 ++ "%" |} ]).
Proof.
  unfold addCrossJoinFilterRatioMetric. repeat split.
  - intros Hn.
    destruct (String.eqb_spec (EnrichedSqlNode.nodeName node) "BroadcastNestedLoopJoin")
      as [E | _]; [exfalso; apply Hn; rewrite E; simpl; tauto | ].
    destruct (String.eqb_spec (EnrichedSqlNode.nodeName node) "CartesianProduct")
      as [E | _]; [exfalso; apply Hn; rewrite E; simpl; tauto | ].
    reflexivity.
  - intros inputEdges Hin Hlen. destruct (_ || _); [ | reflexivity].
    rewrite Hin. apply Nat.eqb_neq in Hlen. now rewrite Hlen.
  - intros e1 e2 rows1 rows2 outputRows Hn Hin H1 H2 Hout.
    rewrite (crossName_eqb _ Hn), Hin. simpl. rewrite H1, H2. simpl.
    now rewrite Hout.
Qed.

Lemma addFilterRatioMetric_name (node : EnrichedSqlNode.t)
    (updatedMetrics : list EnrichedSqlMetric) (graph : Graph)
    (allNodes : list EnrichedSqlNode.t) (m : EnrichedSqlMetric) :
  addFilterRatioMetric node updatedMetrics graph allNodes = Some m ->
  name m = "Rows Filtered" /\
  (JS.includes (EnrichedSqlNode.nodeName node) "Filter" = true \/
   EnrichedSqlNode.enrichedName node = "Distinct").
Proof.
  unfold addFilterRatioMetric.
  destruct (JS.includes _ "Filter") eqn:E1; simpl.
  - destruct (numEq _ _); [discriminate | ]. destruct (find _ _); [ | discriminate].
    destruct (isNaN _); [discriminate | ]. intros [= <-]. auto.
  - destruct (String.eqb_spec (EnrichedSqlNode.enrichedName node) "Distinct");
      [ | discriminate].
    destruct (numEq _ _); [discriminate | ]. destruct (find _ _); [ | discriminate].
    destruct (isNaN _); [discriminate | ]. intros [= <-]. auto.
Qed.

Lemma addCrossJoinFilterRatioMetric_names (node : EnrichedSqlNode.t)
    (updatedMetrics : list EnrichedSqlMetric) (graph : Graph)
    (allNodes : list EnrichedSqlNode.t) (ms : list EnrichedSqlMetric) :
  addCrossJoinFilterRatioMetric node updatedMetrics graph allNodes = Some ms ->
  map name ms = ["Cross Join Scanned Rows"; "Rows Filtered"] /\
  In (EnrichedSqlNode.nodeName node) ["BroadcastNestedLoopJoin"; "CartesianProduct"].
Proof.
  unfold addCrossJoinFilterRatioMetric.
  destruct (String.eqb_spec (EnrichedSqlNode.nodeName node) "BroadcastNestedLoopJoin")
    as [E1 | E1]; simpl;
    [ | destruct (String.eqb_spec (EnrichedSqlNode.nodeName node) "CartesianProduct")
          as [E2 | E2]; [ | discriminate] ].
  all: destruct (inEdges _ _); [ | discriminate].
  all: destruct (negb _); [discriminate | ].
  all: destruct (notNull _) as [ | r0 [ | r1 [ | r2 rs]]]; try discriminate.
  all: destruct (getRowsFromMetrics _); [ | discriminate].
  all: intros [= <-]; split; [reflexivity | rewrite ?E1, ?E2; simpl; tauto].
Qed.

Lemma addJoinMetrics_names (node : EnrichedSqlNode.t)
    (updatedMetrics : list EnrichedSqlMetric) (graph : Graph)
    (allNodes : list EnrichedSqlNode.t) (ms : list EnrichedSqlMetric) :
  addJoinMetrics node updatedMetrics graph allNodes = Some ms ->
  (map name ms = ["join rows increase ratio"] \/ map name ms = ["join rows filtered"]) /\
  In (EnrichedSqlNode.nodeName node)
     ["BroadcastHashJoin"; "SortMergeJoin"; "ShuffleHashJoin"].
Proof.
  unfold addJoinMetrics.
  destruct (String.eqb_spec (EnrichedSqlNode.nodeName node) "BroadcastHashJoin")
    as [E1 | E1]; simpl;
    [ | destruct (String.eqb_spec (EnrichedSqlNode.nodeName node) "SortMergeJoin")
          as [E2 | E2]; simpl;
        [ | destruct (String.eqb_spec (EnrichedSqlNode.nodeName node) "ShuffleHashJoin")
              as [E3 | E3]; [ | discriminate] ] ].
  all: destruct (inEdges _ _); [ | discriminate].
  all: destruct (negb (Nat.eqb _ _)); [discriminate | ].
  all: destruct (notNull _) as [ | r0 [ | r1 [ | r2 rs]]]; try discriminate.
  all: destruct (getRowsFromMetrics _); [ | discriminate].
  all: destruct (gt _ _); intros [= <-];
    (split; [simpl; tauto | rewrite ?E1, ?E2, ?E3; simpl; tauto]).
Qed.

Lemma derived_names (ms : list EnrichedSqlMetric) (ns all : list string) :
  map name ms = ns -> incl ns all -> forall m, In m ms -> In (name m) all.
Proof.
  intros <- Hincl m Hm. apply Hincl. now apply in_map.
Qed.

(** X9. [updateNodeMetrics] only appends: the result is what
    [calcNodeMetrics] returns, in its order, followed by at most three
    derived metrics, each under one of four names; a node that is no
    filter, no Distinct and none of the five joins gets none. *)
Theorem updateNodeMetrics_extends (node : EnrichedSqlNode.t)
    (metrics : list EnrichedSqlMetric) (graph : Graph)
    (allNodes : list EnrichedSqlNode.t) :
  exists derived,
    updateNodeMetrics node metrics graph allNodes
    = (calcNodeMetrics (EnrichedSqlNode.type node) metrics ++ derived)%list /\
    (List.length derived <= 3)%nat /\
    (forall m, In m derived ->
       In (name m) ["Rows Filtered"; "Cross Join Scanned Rows";
                    "join rows increase ratio"; "join rows filtered"]) /\
    (JS.includes (EnrichedSqlNode.nodeName node) "Filter" = false ->
     EnrichedSqlNode.enrichedName node <> "Distinct" ->
     ~ In (EnrichedSqlNode.nodeName node)
          ["BroadcastNestedLoopJoin"; "CartesianProduct";
           "BroadcastHashJoin"; "SortMergeJoin"; "ShuffleHashJoin"] ->
     derived = []).
Proof.
  unfold updateNodeMetrics.
  set (updated := calcNodeMetrics (EnrichedSqlNode.type node) metrics).
  eexists. split; [reflexivity | ].
  assert (Hf : match addFilterRatioMetric node updated graph allNodes with
               | Some m => name m = "Rows Filtered" /\
                   (JS.includes (EnrichedSqlNode.nodeName node) "Filter" = true \/
                    EnrichedSqlNode.enrichedName node = "Distinct")
               | None => True
               end).
  { destruct (addFilterRatioMetric _ _ _ _) eqn:E; [ | exact I].
    eapply addFilterRatioMetric_name; eauto. }
  assert (Hc : match addCrossJoinFilterRatioMetric node updated graph allNodes with
               | Some ms => map name ms = ["Cross Join Scanned Rows"; "Rows Filtered"] /\
                   In (EnrichedSqlNode.nodeName node)
                      ["BroadcastNestedLoopJoin"; "CartesianProduct"]
               | None => True
               end).
  { destruct (addCrossJoinFilterRatioMetric _ _ _ _) eqn:E; [ | exact I].
    eapply addCrossJoinFilterRatioMetric_names; eauto. }
  assert (Hj : match addJoinMetrics node updated graph allNodes with
               | Some ms =>
                   (map name ms = ["join rows increase ratio"] \/
                    map name ms = ["join rows filtered"]) /\
                   In (EnrichedSqlNode.nodeName node)
                      ["BroadcastHashJoin"; "SortMergeJoin"; "ShuffleHashJoin"]
               | None => True
               end).
  { destruct (addJoinMetrics _ _ _ _) eqn:E; [ | exact I].
    eapply addJoinMetrics_names; eauto. }
  destruct (addFilterRatioMetric node updated graph allNodes) as [f | ];
    destruct (addCrossJoinFilterRatioMetric node updated graph allNodes) as [c | ];
    destruct (addJoinMetrics node updated graph allNodes) as [j | ].
  all: match type of Hf with True => clear Hf | _ => destruct Hf as [Nf Gf] end.
  all: match type of Hc with True => clear Hc | _ => destruct Hc as [Nc Gc] end.
  all: match type of Hj with True => clear Hj | _ => destruct Hj as [Nj Gj] end.
  all: try (exfalso; simpl in Gc, Gj;
            destruct Gc as [Gc | [Gc | []]]; rewrite <- Gc in Gj;
            destruct Gj as [Gj | [Gj | [Gj | []]]]; discriminate Gj).
  all: try (pose proof (f_equal (@List.length _) Nc) as Lc;
            rewrite length_map in Lc; simpl in Lc).
  all: try (assert (Lj : List.length j = 1%nat)
              by (destruct Nj as [Nj | Nj]; apply (f_equal (@List.length _)) in Nj;
                  now rewrite length_map in Nj)).
  all: split; [simpl; rewrite ?length_app; simpl; lia | split].
  all: try (intros H1 H2 H3; first [reflexivity | exfalso]).
  all: try (destruct Gf; congruence).
  all: try (apply H3; simpl in Gc |- *; tauto).
  all: try (apply H3; simpl in Gj |- *; tauto).
  all: intros m Hm; simpl in Hm;
    repeat match type of Hm with
    | _ \/ _ => destruct Hm as [Hm | Hm]
    | In _ (_ ++ _) => apply in_app_or in Hm; destruct Hm as [Hm | Hm]
    | False => destruct Hm
    | In _ [] => destruct Hm
    end.
  all: try (subst m; rewrite Nf; simpl; tauto).
  all: try (apply (derived_names c _ _ Nc); [ | exact Hm];
            intros x Hx; simpl in Hx |- *; tauto).
  all: try (destruct Nj as [Nj | Nj];
            (apply (derived_names j _ _ Nj); [ | exact Hm]);
            intros x Hx; simpl in Hx |- *; tauto).
Qed.


(** No label of the switch contains "Scan" or "Join": a name that does
    is left to the two [includes] tests. *)
Lemma switch_no_fallback (nodeName : string) :
  JS.includes nodeName "Scan" = true \/ JS.includes nodeName "Join" = true ->
  find (fun c => String.eqb nodeName (fst c)) switchCases = None.
Proof.
  intros Hinc.
  destruct (find _ switchCases) as [[label ty] | ] eqn:E; [exfalso | reflexivity].
  apply find_some in E. destruct E as [Hin Heq]. simpl in Heq.
  apply String.eqb_eq in Heq. subst label.
  assert (Hall : forallb (fun c => negb (JS.includes (fst c) "Scan")
                                   && negb (JS.includes (fst c) "Join")) switchCases
                 = true) by (vm_compute; reflexivity).
  rewrite forallb_forall in Hall. specialize (Hall _ Hin). simpl in Hall.
  apply andb_prop in Hall. destruct Hall as [H1 H2].
  destruct Hinc as [H | H]; rewrite H in *; discriminate.
Qed.

(** X6. The fall-back of [parseNodePlan]: a name containing "Scan" is
    parsed as a FileScan, a name containing "Join" and not "Scan" as a
    Join (no label of the switch contains either), a parser that throws
    gives [undefined], and a name that is no label and contains neither
    has no parsed plan. *)
Theorem parseNodePlan_fallback {A : Type} `{SqlNodeLike A} (node : A)
    (plan : SQLNodePlan.t) :
  let d := SQLNodePlan.planDescription plan in
  (JS.includes (nodeNameOf node) "Scan" = true ->
   parseNodePlan node plan =
     match parseFileScan d (nodeNameOf node) with
     | JS.Normal p => Some {| ParsedNodePlan.type := FileScan; ParsedNodePlan.plan := p |}
     | JS.Throw _ => None
     end) /\
  (JS.includes (nodeNameOf node) "Scan" = false ->
   JS.includes (nodeNameOf node) "Join" = true ->
   parseNodePlan node plan =
     match parseJoin d with
     | JS.Normal p => Some {| ParsedNodePlan.type := Join; ParsedNodePlan.plan := p |}
     | JS.Throw _ => None
     end) /\
  (JS.includes (nodeNameOf node) "Scan" = false ->
   JS.includes (nodeNameOf node) "Join" = false ->
   ~ In (nodeNameOf node) (map fst switchCases) ->
   parseNodePlan node plan = None).
Proof.
  intros d. unfold parseNodePlan, parseNodePlanTry. repeat split.
  - intros HS. rewrite switch_no_fallback by now left. rewrite HS.
    unfold clause, clauseParser. fold d. now destruct (parseFileScan _ _).
  - intros HS HJ. rewrite switch_no_fallback by now right. rewrite HS, HJ.
    unfold clause, clauseParser. fold d. now destruct (parseJoin _).
  - intros HS HJ Hn.
    destruct (find _ switchCases) as [[label ty] | ] eqn:E.
    + exfalso. apply find_some in E. destruct E as [Hin Heq]. simpl in Heq.
      apply String.eqb_eq in Heq. subst label. apply Hn.
      apply in_map_iff. exists (nodeNameOf node, ty). now split.
    + now rewrite HS, HJ.
Qed.

End DerivedMetrics.

(** *** The pipeline *)

Section Pipeline.

Context `{Num : JsNumber} `{Pay : Payloads} `{Imp : @Imports Num Pay}.

Import Graphlib.
Local Open Scope list_scope.

Lemma retyped_refl (h : Heap) : Forall2 retyped h h.
Proof. induction h; constructor; [now left | assumption]. Qed.

Lemma setType_retyped (h : Heap) (r : Ref) : Forall2 retyped h (setType h r "output").
Proof.
  revert r. induction h as [ | a h IH]; intros r; simpl; [constructor | ].
  destruct r; constructor; try apply retyped_refl; try apply IH;
    [now right | now left].
Qed.

Lemma forceOutput_retyped (h h' : Heap) (refs : list Ref) :
  forceOutput h refs = JS.Normal h' -> Forall2 retyped h h'.
Proof.
  unfold forceOutput. destruct (Nat.eqb _ 0).
  - destruct (lastOf _); [ | discriminate]. intros [= <-]. apply setType_retyped.
  - intros [= <-]. apply retyped_refl.
Qed.

Lemma retyped_filter (p : EnrichedSqlNode.t -> bool) (h h' : Heap) :
  Forall2 retyped h h' ->
  Forall2 retyped (filter p h) (map snd (filter (fun xy => p (fst xy)) (combine h h'))).
Proof.
  induction 1 as [ | a b h h' Hab _ IH]; simpl; [constructor | ].
  destruct (p a); simpl; [constructor | ]; assumption.
Qed.

Lemma classified_retyped (sql : SparkSQL.t) (plan : option SQLPlan.t)
    (icebergCommit : option IcebergCommitsInfo.t) (l : list EnrichedSqlNode.t) :
  classifiedGraphNodes sql plan icebergCommit = JS.Normal l ->
  Forall2 retyped
    (filter (fun node => negb (EnrichedSqlNode.isCodegenNode node))
            (typeEnrichedNodes sql plan icebergCommit)) l.
Proof.
  unfold classifiedGraphNodes.
  destruct (forceOutput _ _) as [h' | ] eqn:Hf; [ | discriminate].
  intros [= <-]. apply forceOutput_retyped in Hf.
  unfold graphNodeRefs.
  rewrite (objects_filterRefs _ (typeEnrichedNodes sql plan icebergCommit) h' [] []
             eq_refl (Forall2_length Hf)).
  now apply retyped_filter.
Qed.

Lemma calculateSql_nodes (sql : SparkSQL.t) (plan : option SQLPlan.t)
    (icebergCommit : option IcebergCommitsInfo.t) (stages : SparkStagesStore)
    (g g' : IdGen) (r : EnrichedSparkSQL.t) :
  calculateSql sql plan icebergCommit stages g = JS.Normal (r, g') ->
  exists l,
    classifiedGraphNodes sql plan icebergCommit = JS.Normal l /\
    EnrichedSparkSQL.nodes r =
      map (fun node =>
             withMetrics node
               (updateNodeMetrics node (EnrichedSqlNode.metrics node)
                  (generateGraph (SparkSQL.edges sql) (SparkSQL.nodes sql)) l)
               (calcExchangeMetrics (EnrichedSqlNode.nodeName node)
                                    (EnrichedSqlNode.metrics node))
               (calcBroadcastExchangeDuration (EnrichedSqlNode.nodeName node)
                                              (EnrichedSqlNode.metrics node))) l /\
    EnrichedSparkSQL.codegenNodes r =
      map (fun node =>
             withCodegenDuration node (calcCodegenDuration (EnrichedSqlNode.metrics node)))
          (filter EnrichedSqlNode.isCodegenNode
                  (typeEnrichedNodes sql plan icebergCommit)) /\
    EnrichedSparkSQL.filters r =
      {| Filters.io :=
           {| Tier.nodesIds :=
                map EnrichedSqlNode.nodeId (filter (hasType ["input"; "output"; "join"]) l);
              Tier.edges :=
                cleanUpDAG (SparkSQL.edges sql) l
                           (filter (hasType ["input"; "output"; "join"]) l) |};
         Filters.basic :=
           {| Tier.nodesIds :=
                map EnrichedSqlNode.nodeId
                    (filter (hasType ["input"; "output"; "join"; "transformation"]) l);
              Tier.edges :=
                cleanUpDAG (SparkSQL.edges sql) l
                  (filter (hasType ["input"; "output"; "join"; "transformation"]) l) |};
         Filters.advanced :=
           {| Tier.nodesIds :=
                map EnrichedSqlNode.nodeId
                    (filter (fun node =>
                               negb (String.eqb (EnrichedSqlNode.type node) "other")) l);
              Tier.edges :=
                cleanUpDAG (SparkSQL.edges sql) l
                  (filter (fun node =>
                             negb (String.eqb (EnrichedSqlNode.type node) "other")) l) |} |} /\
    EnrichedSparkSQL.originalNumOfNodes r = List.length (SparkSQL.nodes sql).
Proof.
  unfold calculateSql, bind, liftC.
  destruct (classifiedGraphNodes sql plan icebergCommit) as [l | ]; [ | discriminate].
  unfold uuidv4, ret. intros [= <- <-]. exists l. repeat split.
Qed.

Lemma retyped_ids (l l' : list EnrichedSqlNode.t) :
  Forall2 retyped l l' ->
  map EnrichedSqlNode.nodeId l' = map EnrichedSqlNode.nodeId l /\
  map EnrichedSqlNode.nodeName l' = map EnrichedSqlNode.nodeName l /\
  map EnrichedSqlNode.isCodegenNode l' = map EnrichedSqlNode.isCodegenNode l /\
  map EnrichedSqlNode.icebergCommit l' = map EnrichedSqlNode.icebergCommit l.
Proof.
  induction 1 as [ | a b l l' [-> | ->] _ [I1 [I2 [I3 I4]]]]; simpl;
    rewrite ?I1, ?I2, ?I3, ?I4; auto.
Qed.

Lemma filter_map_comm {A B : Type} (f : A -> B) (p : B -> bool) (l : list A) :
  filter p (map f l) = map f (filter (fun a => p (f a)) l).
Proof.
  induction l as [ | a l IH]; simpl; [reflexivity | ].
  destruct (p (f a)); simpl; now rewrite IH.
Qed.

(** X11. [calculateSql] splits the nodes of the snapshot in two, in
    snapshot order: [nodes] has the ids of the nodes whose name does not
    contain "WholeStageCodegen", [codegenNodes] the ids of those whose
    name does; the two counts add up to [originalNumOfNodes]. *)
Theorem calculateSql_partition (sql : SparkSQL.t) (plan : option SQLPlan.t)
    (icebergCommit : option IcebergCommitsInfo.t) (stages : SparkStagesStore)
    (g g' : IdGen) (r : EnrichedSparkSQL.t) :
  calculateSql sql plan icebergCommit stages g = JS.Normal (r, g') ->
  let codegen (node : SqlNode.t) :=
    JS.includes (SqlNode.nodeName node) "WholeStageCodegen" in
  map EnrichedSqlNode.nodeId (EnrichedSparkSQL.nodes r)
  = map SqlNode.nodeId (filter (fun node => negb (codegen node)) (SparkSQL.nodes sql)) /\
  map EnrichedSqlNode.nodeId (EnrichedSparkSQL.codegenNodes r)
  = map SqlNode.nodeId (filter codegen (SparkSQL.nodes sql)) /\
  (List.length (EnrichedSparkSQL.nodes r)
   + List.length (EnrichedSparkSQL.codegenNodes r))%nat
  = EnrichedSparkSQL.originalNumOfNodes r /\
  (forall node, In node (EnrichedSparkSQL.nodes r) ->
     EnrichedSqlNode.isCodegenNode node = false) /\
  (forall node, In node (EnrichedSparkSQL.codegenNodes r) ->
     EnrichedSqlNode.isCodegenNode node = true).
Proof.
  intros Hr codegen. apply calculateSql_nodes in Hr.
  destruct Hr as [l [Hl [Hn [Hc [_ Ho]]]]].
  apply classified_retyped, retyped_ids in Hl. destruct Hl as [I1 [_ [I3 _]]].
  unfold typeEnrichedNodes in *. rewrite filter_map_comm, map_map in I1, I3.
  rewrite filter_map_comm in Hc.
  assert (E1 : map EnrichedSqlNode.nodeId (EnrichedSparkSQL.nodes r)
               = map SqlNode.nodeId
                     (filter (fun node => negb (codegen node)) (SparkSQL.nodes sql))).
  { rewrite Hn, map_map. simpl. exact I1. }
  assert (E2 : map EnrichedSqlNode.nodeId (EnrichedSparkSQL.codegenNodes r)
               = map SqlNode.nodeId (filter codegen (SparkSQL.nodes sql))).
  { rewrite Hc, !map_map. reflexivity. }
  repeat split.
  - exact E1.
  - exact E2.
  - rewrite Ho. rewrite <- (length_map EnrichedSqlNode.nodeId (EnrichedSparkSQL.nodes r)).
    rewrite <- (length_map EnrichedSqlNode.nodeId (EnrichedSparkSQL.codegenNodes r)).
    rewrite E1, E2, !length_map.
    clear. induction (SparkSQL.nodes sql) as [ | a l IH]; simpl; [reflexivity | ].
    destruct (codegen a); simpl; lia.
  - intros node Hin. rewrite Hn in Hin. apply in_map_iff in Hin.
    destruct Hin as [x [<- Hx]]. simpl.
    assert (Hall : Forall (fun b => b = false) (map EnrichedSqlNode.isCodegenNode l)).
    { rewrite I3. apply Forall_forall. intros b Hb. apply in_map_iff in Hb.
      destruct Hb as [y [<- Hy]]. apply filter_In in Hy. destruct Hy as [_ Hy].
      simpl in Hy. simpl. now apply negb_true_iff in Hy. }
    rewrite Forall_forall in Hall. apply Hall. now apply in_map.
  - intros node Hin. rewrite Hc in Hin. apply in_map_iff in Hin.
    destruct Hin as [x [<- Hx]]. apply in_map_iff in Hx.
    destruct Hx as [y [<- Hy]]. apply filter_In in Hy. now destruct Hy.
Qed.


Lemma incl_map_filter {A B : Type} (f : A -> B) (p q : A -> bool) (l : list A) :
  (forall a, p a = true -> q a = true) ->
  incl (map f (filter p l)) (map f (filter q l)).
Proof.
  intros Hpq b Hb. apply in_map_iff in Hb. destruct Hb as [a [<- Ha]].
  apply filter_In in Ha. destruct Ha as [Ha Hp].
  apply in_map, filter_In. auto.
Qed.

Lemma tier_edges_inside (es : list EnrichedSqlEdge)
    (allNodes visibleNodes : list EnrichedSqlNode.t) (e : EnrichedSqlEdge) :
  In e (cleanUpDAG es allNodes visibleNodes) ->
  In (fromId e) (map JS.Int (map EnrichedSqlNode.nodeId visibleNodes)) /\
  In (toId e) (map JS.Int (map EnrichedSqlNode.nodeId visibleNodes)).
Proof.
  intros He. apply cleanUpDAG_visible in He. rewrite visibleIds_Ints in He.
  destruct He as [Hf Ht]. split; now apply Array_includes_Ints.
Qed.

(** X14. The three filter tiers are nested, io within basic within
    advanced within the graph nodes, and every edge of a tier joins two
    ids of that tier. *)
Theorem calculateSql_tiers (sql : SparkSQL.t) (plan : option SQLPlan.t)
    (icebergCommit : option IcebergCommitsInfo.t) (stages : SparkStagesStore)
    (g g' : IdGen) (r : EnrichedSparkSQL.t) :
  calculateSql sql plan icebergCommit stages g = JS.Normal (r, g') ->
  let io := Filters.io (EnrichedSparkSQL.filters r) in
  let basic := Filters.basic (EnrichedSparkSQL.filters r) in
  let advanced := Filters.advanced (EnrichedSparkSQL.filters r) in
  incl (Tier.nodesIds io) (Tier.nodesIds basic) /\
  incl (Tier.nodesIds basic) (Tier.nodesIds advanced) /\
  incl (Tier.nodesIds advanced)
       (map EnrichedSqlNode.nodeId (EnrichedSparkSQL.nodes r)) /\
  (forall tier e, In tier [io; basic; advanced] -> In e (Tier.edges tier) ->
     In (fromId e) (map JS.Int (Tier.nodesIds tier)) /\
     In (toId e) (map JS.Int (Tier.nodesIds tier))).
Proof.
  intros Hr. apply calculateSql_nodes in Hr.
  destruct Hr as [l [_ [Hn [_ [Hf _]]]]]. rewrite Hf, Hn. simpl. repeat split.
  - apply incl_map_filter. intros a. unfold hasType. simpl.
    destruct (String.eqb _ "input"), (String.eqb _ "output"), (String.eqb _ "join");
      simpl; auto; discriminate.
  - apply incl_map_filter. intros a. unfold hasType. simpl.
    destruct (String.eqb_spec (EnrichedSqlNode.type a) "other") as [-> | _];
      [discriminate | reflexivity].
  - rewrite map_map. simpl. intros x Hx. apply in_map_iff in Hx.
    destruct Hx as [a [<- Ha]]. apply filter_In in Ha. now apply in_map.
  - destruct H as [<- | [<- | [<- | []]]]; simpl in *;
      now apply tier_edges_inside in H0.
  - destruct H as [<- | [<- | [<- | []]]]; simpl in *;
      now apply tier_edges_inside in H0.
Qed.

(** *** When [calculateSql] throws *)

Lemma length_zero_lastOf {A : Type} (l : list A) :
  Nat.eqb (List.length l) 0 = true <-> lastOf l = None.
Proof.
  destruct l as [ | a l]; [simpl; tauto | ]. split.
  - simpl. discriminate.
  - rewrite lastOf_cons. now destruct (lastOf l).
Qed.

Lemma classified_throws (sql : SparkSQL.t) (plan : option SQLPlan.t)
    (icebergCommit : option IcebergCommitsInfo.t) :
  let graphNodes :=
    filter (fun node => negb (EnrichedSqlNode.isCodegenNode node))
           (typeEnrichedNodes sql plan icebergCommit) in
  match classifiedGraphNodes sql plan icebergCommit with
  | JS.Throw e =>
      e = JS.TypeError /\
      forall node, In node graphNodes ->
        isOutput node = false /\ notAqeWrapper node = false
  | JS.Normal _ =>
      exists node, In node graphNodes /\
        (isOutput node = true \/ notAqeWrapper node = true)
  end.
Proof.
  intros graphNodes. unfold classifiedGraphNodes, forceOutput, graphNodeRefs.
  set (h := typeEnrichedNodes sql plan icebergCommit) in *.
  set (p := fun node : EnrichedSqlNode.t => negb (EnrichedSqlNode.isCodegenNode node)).
  rewrite !filterRefs_filterRefs.
  pose proof (lastOf_filterRefs (fun n => p n && isOutput n) h []) as Ho.
  pose proof (lastOf_filterRefs (fun n => p n && notAqeWrapper n) h []) as Ha.
  simpl in Ho, Ha.
  destruct (Nat.eqb (List.length (filterRefs h (fun n => p n && isOutput n)
                                             (seq 0 (List.length h)))) 0) eqn:E.
  - apply length_zero_lastOf in E. rewrite E in Ho.
    destruct (lastOf (filterRefs h (fun n => p n && notAqeWrapper n) _)) as [r | ].
    + destruct Ha as [h1 [x [h2 [Hh [_ [Hx _]]]]]].
      apply andb_prop in Hx. destruct Hx as [Hp Hx].
      exists x. split; [ | now right].
      apply filter_In. split; [ | exact Hp]. rewrite Hh. apply in_elt.
    + split; [reflexivity | ]. intros node Hn. apply filter_In in Hn.
      destruct Hn as [Hn Hp]. fold (p node) in Hp.
      specialize (Ho _ Hn). specialize (Ha _ Hn). rewrite Hp in Ho, Ha. auto.
  - destruct (lastOf (filterRefs h (fun n => p n && isOutput n) _)) as [r | ] eqn:L.
    + destruct Ho as [h1 [x [h2 [Hh [_ [Hx _]]]]]].
      apply andb_prop in Hx. destruct Hx as [Hp Hx].
      exists x. split; [ | now left].
      apply filter_In. split; [ | exact Hp]. rewrite Hh. apply in_elt.
    + apply length_zero_lastOf in L. congruence.
Qed.

(** X12. [calculateSql] throws (a TypeError, on [lastNode.type]) exactly
    when no graph node is classified output and none is left after the
    AdaptiveSparkPlan and ResultQueryStage wrappers are set aside; it
    throws nothing else; a snapshot without nodes makes it throw. *)
Theorem calculateSql_throws (sql : SparkSQL.t) (plan : option SQLPlan.t)
    (icebergCommit : option IcebergCommitsInfo.t) (stages : SparkStagesStore)
    (g : IdGen) :
  let graphNodes :=
    filter (fun node => negb (EnrichedSqlNode.isCodegenNode node))
           (typeEnrichedNodes sql plan icebergCommit) in
  (calculateSql sql plan icebergCommit stages g = JS.Throw JS.TypeError <->
   forall node, In node graphNodes ->
     isOutput node = false /\ notAqeWrapper node = false) /\
  (forall e, calculateSql sql plan icebergCommit stages g = JS.Throw e ->
     e = JS.TypeError) /\
  (SparkSQL.nodes sql = [] ->
   calculateSql sql plan icebergCommit stages g = JS.Throw JS.TypeError).
Proof.
  intros graphNodes.
  pose proof (calculateSql_returns sql plan icebergCommit stages g) as Hr.
  pose proof (classified_throws sql plan icebergCommit) as Hc. simpl in Hc.
  fold graphNodes in Hc.
  assert (Hiff : calculateSql sql plan icebergCommit stages g = JS.Throw JS.TypeError <->
                 forall node, In node graphNodes ->
                   isOutput node = false /\ notAqeWrapper node = false).
  { destruct (classifiedGraphNodes sql plan icebergCommit) as [l | e].
    - destruct Hr as [r [Hr _]]. destruct Hc as [node [Hn Hc]]. split.
      + rewrite Hr. discriminate.
      + intros Hall. destruct (Hall _ Hn) as [H1 H2].
        destruct Hc; congruence.
    - destruct Hc as [-> Hc]. tauto. }
  split; [exact Hiff | split].
  - intros e He. destruct (classifiedGraphNodes sql plan icebergCommit) as [l | e'].
    + destruct Hr as [r [Hr _]]. congruence.
    + destruct Hc as [-> _]. congruence.
  - intros Hnil. apply Hiff. unfold graphNodes, typeEnrichedNodes.
    rewrite Hnil. intros node [].
Qed.

(** Every execution [calculateSql] returns has an output node, and the
    io tier lists it. *)
Lemma retyped_output (l l' : list EnrichedSqlNode.t) (x : EnrichedSqlNode.t) :
  Forall2 retyped l l' -> In x l -> isOutput x = true ->
  exists y, In y l' /\ isOutput y = true.
Proof.
  induction 1 as [ | a b l l' Hab _ IH]; [intros [] | intros [<- | Hx] Ho].
  - exists b. split; [now left | ]. destruct Hab as [-> | ->]; [exact Ho | reflexivity].
  - destruct (IH Hx Ho) as [y [Hy Hyo]]. exists y. split; [now right | exact Hyo].
Qed.


Lemma classified_output (sql : SparkSQL.t) (plan : option SQLPlan.t)
    (icebergCommit : option IcebergCommitsInfo.t) (l : list EnrichedSqlNode.t) :
  classifiedGraphNodes sql plan icebergCommit = JS.Normal l ->
  exists node, In node l /\ isOutput node = true.
Proof.
  intros Hl. pose proof (classified_retyped _ _ _ _ Hl) as Hrel.
  revert Hl. unfold classifiedGraphNodes, forceOutput, graphNodeRefs.
  set (h := typeEnrichedNodes sql plan icebergCommit) in *.
  set (p := fun node : EnrichedSqlNode.t => negb (EnrichedSqlNode.isCodegenNode node))
    in *.
  rewrite !filterRefs_filterRefs.
  pose proof (lastOf_filterRefs (fun n => p n && isOutput n) h []) as Ho.
  pose proof (lastOf_filterRefs (fun n => p n && notAqeWrapper n) h []) as Ha.
  simpl in Ho, Ha.
  destruct (Nat.eqb (List.length (filterRefs h (fun n => p n && isOutput n)
                                             (seq 0 (List.length h)))) 0) eqn:E.
  - destruct (lastOf (filterRefs h (fun n => p n && notAqeWrapper n) _)) as [r | ];
      [ | discriminate].
    destruct Ha as [h1 [x [h2 [Hh [-> [Hx _]]]]]].
    apply andb_prop in Hx. destruct Hx as [Hp _].
    intros [= <-]. rewrite Hh, setType_at.
    rewrite <- Hh.
    assert (Hlen : List.length h = List.length (h1 ++ withType x "output" :: h2)).
    { rewrite Hh, !length_app. reflexivity. }
    pose proof (objects_filterRefs p h (h1 ++ withType x "output" :: h2) [] []
                  eq_refl Hlen) as Hobj.
    simpl in Hobj. rewrite Hobj.
    exists (withType x "output"). split; [ | reflexivity].
    apply in_map_iff. exists (x, withType x "output"). split; [reflexivity | ].
    apply filter_In. split; [ | exact Hp].
    rewrite Hh at 1. clear. induction h1; simpl; auto.
  - intros _.
    destruct (lastOf (filterRefs h (fun n => p n && isOutput n) _)) as [r | ] eqn:L.
    + destruct Ho as [h1 [x [h2 [Hh [_ [Hx _]]]]]].
      apply andb_prop in Hx. destruct Hx as [Hp Hx].
      apply (retyped_output _ _ x Hrel); [ | exact Hx].
      apply filter_In. split; [ | exact Hp]. rewrite Hh. apply in_elt.
    + apply length_zero_lastOf in L. congruence.
Qed.

(** X13. Every execution [calculateSql] returns has a node of type
    output among its [nodes], listed in all three tiers. *)
Theorem calculateSql_has_output (sql : SparkSQL.t) (plan : option SQLPlan.t)
    (icebergCommit : option IcebergCommitsInfo.t) (stages : SparkStagesStore)
    (g g' : IdGen) (r : EnrichedSparkSQL.t) :
  calculateSql sql plan icebergCommit stages g = JS.Normal (r, g') ->
  exists node,
    In node (EnrichedSparkSQL.nodes r) /\
    EnrichedSqlNode.type node = "output" /\
    In (EnrichedSqlNode.nodeId node)
       (Tier.nodesIds (Filters.io (EnrichedSparkSQL.filters r))) /\
    In (EnrichedSqlNode.nodeId node)
       (Tier.nodesIds (Filters.basic (EnrichedSparkSQL.filters r))) /\
    In (EnrichedSqlNode.nodeId node)
       (Tier.nodesIds (Filters.advanced (EnrichedSparkSQL.filters r))).
Proof.
  intros Hr. apply calculateSql_nodes in Hr.
  destruct Hr as [l [Hl [Hn [_ [Hf _]]]]].
  apply classified_output in Hl. destruct Hl as [x [Hx Ho]].
  unfold isOutput in Ho. pose proof Ho as Ht. apply String.eqb_eq in Ht.
  eexists. split; [rewrite Hn; apply in_map; exact Hx | ].
  rewrite Hf. simpl. repeat split; try exact Ht.
  all: apply in_map, filter_In; split; [exact Hx | ].
  all: unfold hasType; simpl; rewrite Ht; reflexivity.
Qed.

(** *** The identifier of a codegen node *)

Lemma replace_paren (d : Decimal.uint) :
  JS.replace (NilEmpty.string_of_uint d ++ ")") ")" EmptyString
  = NilEmpty.string_of_uint d.
Proof.
  induction d; cbn [NilEmpty.string_of_uint append]; [reflexivity | .. ];
    (cbn - [NilEmpty.string_of_uint append] in *; now rewrite IHd).
Qed.

Lemma replace_paren_int (z : Z) :
  JS.replace (JS.toString (JS.Int z) ++ ")") ")" EmptyString = JS.toString (JS.Int z).
Proof.
  unfold JS.toString, NilZero.string_of_int.
  destruct (Z.to_int z) as [d | d]; unfold NilZero.string_of_uint.
  - destruct d; try apply replace_paren. reflexivity.
  - cbn [append]. 
    assert (E : forall s, JS.replace (String "-" s) ")" EmptyString
                          = String "-" (JS.replace s ")" EmptyString)) by reflexivity.
    rewrite E. f_equal. destruct d; try apply replace_paren. reflexivity.
Qed.

(** X10. The id of a codegen node is read back from its name: a node
    named "WholeStageCodegen (n)" is a codegen node with
    [wholeStageCodegenId] n. *)
Theorem typeEnrich_codegen_id (sql : SparkSQL.t) (plan : option SQLPlan.t)
    (icebergCommit : option IcebergCommitsInfo.t) (node : SqlNode.t) (n : Z) :
  SqlNode.nodeName node
  = ("WholeStageCodegen (" ++ JS.toString (JS.Int n) ++ ")")%string ->
  EnrichedSqlNode.isCodegenNode (typeEnrich sql plan icebergCommit node) = true /\
  EnrichedSqlNode.wholeStageCodegenId (typeEnrich sql plan icebergCommit node)
  = Some (JS.Int n).
Proof.
  intros Hname. unfold typeEnrich. cbn [EnrichedSqlNode.isCodegenNode
                                         EnrichedSqlNode.wholeStageCodegenId].
  assert (Hc : JS.includes (SqlNode.nodeName node) "WholeStageCodegen" = true).
  { rewrite Hname. reflexivity. }
  rewrite Hc. split; [reflexivity | ]. f_equal. unfold extractCodegenId.
  rewrite Hname.
  assert (E : JS.replace ("WholeStageCodegen (" ++ JS.toString (JS.Int n) ++ ")")
                         "WholeStageCodegen (" EmptyString
              = (JS.toString (JS.Int n) ++ ")")%string).
  { cbn - [JS.toString]. now destruct (JS.toString (JS.Int n) ++ ")")%string. }
  rewrite E, replace_paren_int. apply parseInt_toString.
Qed.

(** *** The commit information *)

(** X15. The commit information goes to the nodes [calcNodeType]
    classifies as output (or to the only node of a one-node plan); it is
    assigned before the output type is forced, so in a plan of several
    nodes none of which is an output of its own, no node of the result
    carries it, the forced output node included. *)
Theorem forced_output_no_commit (sql : SparkSQL.t) (plan : option SQLPlan.t)
    (icebergCommit : option IcebergCommitsInfo.t) (stages : SparkStagesStore)
    (g g' : IdGen) (r : EnrichedSparkSQL.t) :
  calculateSql sql plan icebergCommit stages g = JS.Normal (r, g') ->
  List.length (SparkSQL.nodes sql) <> 1%nat ->
  (forall node, In node (SparkSQL.nodes sql) ->
     calcNodeType (SqlNode.nodeName node) <> "output") ->
  forall node,
    In node (EnrichedSparkSQL.nodes r) \/ In node (EnrichedSparkSQL.codegenNodes r) ->
    EnrichedSqlNode.icebergCommit node = None.
Proof.
  intros Hr Hlen Hty. apply calculateSql_nodes in Hr.
  destruct Hr as [l [Hl [Hn [Hc _]]]].
  assert (Hh : forall x, In x (typeEnrichedNodes sql plan icebergCommit) ->
                 EnrichedSqlNode.icebergCommit x = None).
  { intros x Hx. unfold typeEnrichedNodes in Hx. apply in_map_iff in Hx.
    destruct Hx as [n [<- Hin]]. unfold typeEnrich. simpl.
    apply Nat.eqb_neq in Hlen. rewrite Hlen.
    specialize (Hty _ Hin). apply String.eqb_neq in Hty. now rewrite Hty. }
  apply classified_retyped, retyped_ids in Hl. destruct Hl as [_ [_ [_ I4]]].
  intros node [Hin | Hin].
  - rewrite Hn in Hin. apply in_map_iff in Hin. destruct Hin as [x [<- Hx]]. simpl.
    assert (Hall : Forall (fun c => c = None) (map EnrichedSqlNode.icebergCommit l)).
    { rewrite I4. apply Forall_forall. intros c Hcm. apply in_map_iff in Hcm.
      destruct Hcm as [y [<- Hy]]. apply filter_In in Hy. destruct Hy as [Hy _].
      now apply Hh. }
    rewrite Forall_forall in Hall. apply Hall. now apply in_map.
  - rewrite Hc in Hin. apply in_map_iff in Hin. destruct Hin as [x [<- Hx]]. simpl.
    apply filter_In in Hx. destruct Hx as [Hx _]. now apply Hh.
Qed.

End Pipeline.

(** *** The store merge, continued *)

Section StoreOrder.

Context `{Num : JsNumber} `{Pay : Payloads} `{Imp : @Imports Num Pay}.

Local Open Scope list_scope.

Lemma mapM_map {A B C : Type} (f : A -> M B) (h : B -> C) (k : A -> C) :
  (forall a g g' b, f a g = JS.Normal (b, g') -> h b = k a) ->
  forall l g bs g', mapM f l g = JS.Normal (bs, g') -> map h bs = map k l.
Proof.
  intros Hf. induction l as [ | a l IH]; intros g bs g' Hm; simpl in Hm.
  - unfold ret in Hm. now injection Hm as <- <-.
  - unfold bind in Hm.
    destruct (f a g) as [[b g1] | ] eqn:Hb; [ | discriminate].
    destruct (mapM f l g1) as [[bs' g2] | ] eqn:Hbs; [ | discriminate].
    unfold ret in Hm. injection Hm as <- <-. simpl.
    now rewrite (Hf _ _ _ _ Hb), (IH _ _ _ Hbs).
Qed.

Lemma mergedSql_id (currentStore : SparkSQLStore.t)
    (sqls : list SparkSQL.t) (plans : list SQLPlan.t) (icebergInfo : IcebergInfo.t)
    (stages : SparkStagesStore) (id : JS.jsint) (g g' : IdGen)
    (r : EnrichedSparkSQL.t) :
  mergedSql currentStore sqls plans icebergInfo stages id g = JS.Normal (r, g') ->
  JS.parseInt (EnrichedSparkSQL.id r) = id.
Proof.
  unfold mergedSql.
  destruct (findNewSql sqls id) as [newSql | ] eqn:Hnew; [ | discriminate].
  apply find_some in Hnew. destruct Hnew as [_ Hnew]. apply strictEq_eq in Hnew.
  assert (Hcalc : forall plan commit,
             calculateSql newSql plan commit stages g = JS.Normal (r, g') ->
             JS.parseInt (EnrichedSparkSQL.id r) = id).
  { intros plan commit H. apply calculateSql_identity in H.
    destruct H as [_ [_ [-> _]]]. exact Hnew. }
  destruct (findCurrentSql currentStore id) as [currentSql | ] eqn:Hcur;
    [ | apply Hcalc].
  destruct (_ || _); [apply Hcalc | ].
  destruct (negb _); [apply Hcalc | ].
  unfold ret. intros [= <- <-]. simpl.
  apply find_some in Hcur. destruct Hcur as [_ Hcur]. now apply strictEq_eq in Hcur.
Qed.

Lemma map_filter_comm {A B : Type} (f : A -> B) (p : B -> bool) (l : list A) :
  map f (filter (fun a => p (f a)) l) = filter p (map f l).
Proof.
  induction l as [ | a l IH]; simpl; [reflexivity | ].
  destruct (p (f a)); simpl; now rewrite IH.
Qed.

(** X17. The ids of the store [calculateSqlStore] returns: those of the
    stored executions below the smallest id of the batch, in their
    order, followed by the ids of the batch, in its order. *)
Theorem calculateSqlStore_ids (currentStore : SparkSQLStore.t)
    (sqls : list SparkSQL.t) (plans : list SQLPlan.t) (icebergInfo : IcebergInfo.t)
    (stages : SparkStagesStore) (g g' : IdGen) (store' : SparkSQLStore.t) :
  calculateSqlStore (Some currentStore) sqls plans icebergInfo stages g
  = JS.Normal (store', g') ->
  let sqlIds := map (fun sql => JS.parseInt (SparkSQL.id sql)) sqls in
  map (fun sql => JS.parseInt (EnrichedSparkSQL.id sql)) (SparkSQLStore.sqls store')
  = filter (fun id => JS.lt id (JS.Math_min sqlIds))
           (map (fun sql => JS.parseInt (EnrichedSparkSQL.id sql))
                (SparkSQLStore.sqls currentStore))
    ++ sqlIds.
Proof.
  intros Hs sqlIds. rewrite calculateSqlStore_pushes in Hs. fold sqlIds in Hs.
  destruct (mapM _ sqlIds g) as [[pushed g1] | ] eqn:Hp; [ | discriminate].
  injection Hs as <- <-. simpl. rewrite map_app. f_equal.
  - apply (map_filter_comm (fun sql => JS.parseInt (EnrichedSparkSQL.id sql))
             (fun id => JS.lt id (JS.Math_min sqlIds))).
  - transitivity (map (fun id : JS.jsint => id) sqlIds); [ | apply map_id].
    apply (mapM_map _ _ (fun id => id) (mergedSql_id _ _ _ _ _) _ _ _ _ Hp).
Qed.

(** *** Order *)

Lemma lt_min2 (x a b : JS.jsint) :
  JS.lt x (JS.min2 a b) = true -> JS.lt x a = true /\ JS.lt x b = true.
Proof.
  destruct x as [ | x | ], a as [ | a | ], b as [ | b | ]; simpl;
    try discriminate; try tauto.
  intros H. apply Z.ltb_lt in H. split; apply Z.ltb_lt; lia.
Qed.

Lemma lt_fold_min (x : JS.jsint) (l : list JS.jsint) (acc : JS.jsint) :
  JS.lt x (fold_left JS.min2 l acc) = true ->
  JS.lt x acc = true /\ forall y, In y l -> JS.lt x y = true.
Proof.
  revert acc. induction l as [ | a l IH]; intros acc H; simpl in H.
  - split; [exact H | intros y []].
  - apply IH in H. destruct H as [H Hl]. apply lt_min2 in H. destruct H as [H1 H2].
    split; [exact H1 | ]. intros y [<- | Hy]; auto.
Qed.

Lemma StronglySorted_filter {A : Type} (R : A -> A -> Prop) (p : A -> bool)
    (l : list A) :
  StronglySorted R l -> StronglySorted R (filter p l).
Proof.
  induction 1 as [ | a l Hl IH Ha]; simpl; [constructor | ].
  destruct (p a); [ | exact IH]. constructor; [exact IH | ].
  rewrite Forall_forall in *. intros x Hx. apply filter_In in Hx. now apply Ha.
Qed.

Lemma StronglySorted_app {A : Type} (R : A -> A -> Prop) (l1 l2 : list A) :
  StronglySorted R l1 -> StronglySorted R l2 ->
  (forall x y, In x l1 -> In y l2 -> R x y) ->
  StronglySorted R (l1 ++ l2).
Proof.
  induction 1 as [ | a l Hl IH Ha]; intros H2 Hx; simpl; [exact H2 | ].
  constructor.
  - apply IH; [exact H2 | ]. intros x y Hin. apply Hx. now right.
  - rewrite Forall_forall in *. intros x Hin. apply in_app_or in Hin.
    destruct Hin as [Hin | Hin]; [now apply Ha | ]. apply Hx; [now left | exact Hin].
Qed.

(** X18. [calculateSqlStore] keeps the store in increasing order of id
    (hence without two executions of one id) when the batch is in
    increasing order. *)
Theorem calculateSqlStore_sorted (currentStore : SparkSQLStore.t)
    (sqls : list SparkSQL.t) (plans : list SQLPlan.t) (icebergInfo : IcebergInfo.t)
    (stages : SparkStagesStore) (g g' : IdGen) (store' : SparkSQLStore.t) :
  let before (a b : JS.jsint) := JS.lt a b = true in
  StronglySorted before
    (map (fun sql => JS.parseInt (EnrichedSparkSQL.id sql))
         (SparkSQLStore.sqls currentStore)) ->
  StronglySorted before (map (fun sql => JS.parseInt (SparkSQL.id sql)) sqls) ->
  calculateSqlStore (Some currentStore) sqls plans icebergInfo stages g
  = JS.Normal (store', g') ->
  StronglySorted before
    (map (fun sql => JS.parseInt (EnrichedSparkSQL.id sql)) (SparkSQLStore.sqls store')).
Proof.
  intros before Hcur Hnew Hs. rewrite calculateSqlStore_pushes in Hs.
  set (sqlIds := map (fun sql => JS.parseInt (SparkSQL.id sql)) sqls) in *.
  destruct (mapM _ sqlIds g) as [[pushed g1] | ] eqn:Hp; [ | discriminate].
  injection Hs as <- <-. simpl. rewrite map_app.
  rewrite (mapM_map _ (fun sql => JS.parseInt (EnrichedSparkSQL.id sql))
             (fun id => id) (mergedSql_id _ _ _ _ _) _ _ _ _ Hp), map_id.
  rewrite (map_filter_comm (fun sql => JS.parseInt (EnrichedSparkSQL.id sql))
             (fun id => JS.lt id (JS.Math_min sqlIds))).
  apply StronglySorted_app; [now apply StronglySorted_filter | exact Hnew | ].
  intros x y Hx Hy. apply filter_In in Hx. destruct Hx as [_ Hx].
  unfold JS.Math_min in Hx. apply lt_fold_min in Hx. now apply Hx.
Qed.

(** *** An empty batch *)

Lemma filter_all {A : Type} (p : A -> bool) (l : list A) :
  (forall a, In a l -> p a = true) -> filter p l = l.
Proof.
  induction l as [ | a l IH]; intros H; simpl; [reflexivity | ].
  rewrite (H a (or_introl eq_refl)). f_equal. apply IH. intros x Hx. apply H. now right.
Qed.

(** X19. An empty batch: [Math.min()] is [Infinity], every stored
    execution whose id parses to a number is kept as it is, nothing is
    recomputed and no identity is drawn. *)
Theorem calculateSqlStore_empty_batch (currentStore : SparkSQLStore.t)
    (plans : list SQLPlan.t) (icebergInfo : IcebergInfo.t)
    (stages : SparkStagesStore) (g : IdGen) :
  calculateSqlStore (Some currentStore) [] plans icebergInfo stages g
  = JS.Normal
      ({| SparkSQLStore.sqls :=
            filter (fun sql =>
                      match JS.parseInt (EnrichedSparkSQL.id sql) with
                      | JS.Int _ => true
                      | _ => false
                      end)
                   (SparkSQLStore.sqls currentStore) |}, g) /\
  ((forall sql, In sql (SparkSQLStore.sqls currentStore) ->
      exists z, JS.parseInt (EnrichedSparkSQL.id sql) = JS.Int z) ->
   calculateSqlStore (Some currentStore) [] plans icebergInfo stages g
   = JS.Normal (currentStore, g)).
Proof.
  assert (E : calculateSqlStore (Some currentStore) [] plans icebergInfo stages g
              = JS.Normal
                  ({| SparkSQLStore.sqls :=
                        filter (fun sql =>
                                  match JS.parseInt (EnrichedSparkSQL.id sql) with
                                  | JS.Int _ => true
                                  | _ => false
                                  end)
                               (SparkSQLStore.sqls currentStore) |}, g)).
  { rewrite calculateSqlStore_pushes. simpl. unfold ret. rewrite app_nil_r.
    do 3 f_equal;
      try (apply filter_ext; intros sql;
           now destruct (JS.parseInt (EnrichedSparkSQL.id sql))). }
  split; [exact E | ]. intros Hall. rewrite E. do 2 f_equal.
  destruct currentStore as [l]. simpl in *. f_equal.
  apply filter_all. intros sql Hin. now destruct (Hall sql Hin) as [z ->].
Qed.

(** *** A snapshot whose id does not parse *)

Lemma classified_throw_kind (sql : SparkSQL.t) (plan : option SQLPlan.t)
    (icebergCommit : option IcebergCommitsInfo.t) (e : JS.exn) :
  classifiedGraphNodes sql plan icebergCommit = JS.Throw e -> e = JS.TypeError.
Proof.
  unfold classifiedGraphNodes, forceOutput.
  destruct (Nat.eqb _ 0); [ | discriminate].
  destruct (lastOf _); [discriminate | ]. now intros [= <-].
Qed.

Lemma calculateSql_throw_kind (sql : SparkSQL.t) (plan : option SQLPlan.t)
    (icebergCommit : option IcebergCommitsInfo.t) (stages : SparkStagesStore)
    (g : IdGen) (e : JS.exn) :
  calculateSql sql plan icebergCommit stages g = JS.Throw e -> e = JS.TypeError.
Proof.
  pose proof (calculateSql_returns sql plan icebergCommit stages g) as Hr.
  destruct (classifiedGraphNodes sql plan icebergCommit) as [l | e'] eqn:Hc.
  - destruct Hr as [r [Hr _]]. rewrite Hr. discriminate.
  - rewrite Hr. intros [= <-]. eapply classified_throw_kind; eauto.
Qed.

Lemma mergedSql_throw_kind (currentStore : SparkSQLStore.t)
    (sqls : list SparkSQL.t) (plans : list SQLPlan.t) (icebergInfo : IcebergInfo.t)
    (stages : SparkStagesStore) (id : JS.jsint) (g : IdGen) (e : JS.exn) :
  mergedSql currentStore sqls plans icebergInfo stages id g = JS.Throw e ->
  e = JS.TypeError.
Proof.
  unfold mergedSql.
  destruct (findNewSql sqls id) as [newSql | ]; [ | unfold throw; now intros [= <-]].
  destruct (findCurrentSql currentStore id) as [currentSql | ];
    [ | apply calculateSql_throw_kind].
  destruct (_ || _); [apply calculateSql_throw_kind | ].
  destruct (negb _); [apply calculateSql_throw_kind | ].
  unfold ret. discriminate.
Qed.

Lemma mapM_throws {A B : Type} (f : A -> M B) (l : list A) (a : A) (g : IdGen) :
  In a l -> (forall g, f a g = JS.Throw JS.TypeError) ->
  (forall x g e, f x g = JS.Throw e -> e = JS.TypeError) ->
  mapM f l g = JS.Throw JS.TypeError.
Proof.
  intros Hin Ha Hkind. revert g.
  induction l as [ | x l IH]; intros g; [destruct Hin | ]. simpl. unfold bind.
  destruct (f x g) as [[b g1] | e] eqn:Hx.
  - destruct Hin as [-> | Hin]; [rewrite Ha in Hx; discriminate | ].
    now rewrite (IH Hin).
  - now rewrite (Hkind _ _ _ Hx).
Qed.

(** X20. A snapshot whose id does not parse to a number makes
    [calculateSqlStore] throw on a store that exists: [find] matches
    nothing against [NaN] and [calculateSql] reads [nodes] of
    [undefined]. *)
Theorem calculateSqlStore_unparsable_id (currentStore : SparkSQLStore.t)
    (sqls : list SparkSQL.t) (plans : list SQLPlan.t) (icebergInfo : IcebergInfo.t)
    (stages : SparkStagesStore) (g : IdGen) (sql : SparkSQL.t) :
  In sql sqls -> JS.parseInt (SparkSQL.id sql) = JS.NaN ->
  calculateSqlStore (Some currentStore) sqls plans icebergInfo stages g
  = JS.Throw JS.TypeError.
Proof.
  intros Hin Hnan. rewrite calculateSqlStore_pushes.
  rewrite (mapM_throws _ _ JS.NaN); [reflexivity | | | ].
  - rewrite <- Hnan. now apply (in_map (fun sql => JS.parseInt (SparkSQL.id sql))).
  - intros g0. unfold mergedSql.
    destruct (findNewSql sqls JS.NaN) as [newSql | ] eqn:Hnew; [ | reflexivity].
    apply find_some in Hnew. destruct Hnew as [_ Hnew].
    now destruct (JS.parseInt (SparkSQL.id newSql)).
  - apply mergedSql_throw_kind.
Qed.

(** *** The first store *)

Lemma calculateSqls_tokens (sqls : list SparkSQL.t) (plans : list SQLPlan.t)
    (icebergInfo : IcebergInfo.t) (stages : SparkStagesStore) :
  forall (g g' : IdGen) (l : list EnrichedSparkSQL.t),
  calculateSqls sqls plans icebergInfo stages g = JS.Normal (l, g') ->
  map EnrichedSparkSQL.id l = map SparkSQL.id sqls /\
  map EnrichedSparkSQL.uniqueId l
  = map (fun i => (g + 2 * i)%nat) (seq 0 (List.length sqls)) /\
  map EnrichedSparkSQL.metricUpdateId l
  = map (fun i => (g + 2 * i + 1)%nat) (seq 0 (List.length sqls)) /\
  g' = (g + 2 * List.length sqls)%nat.
Proof.
  unfold calculateSqls.
  induction sqls as [ | sql sqls IH]; intros g g' l Hl; simpl in Hl.
  - unfold ret in Hl. injection Hl as <- <-. simpl. repeat split. lia.
  - unfold bind in Hl.
    pose proof (calculateSql_returns sql
                  (findPlan plans (JS.parseInt (SparkSQL.id sql)))
                  (findCommit icebergInfo (JS.parseInt (SparkSQL.id sql)))
                  stages g) as Hr.
    destruct (classifiedGraphNodes _ _ _); [ | rewrite Hr in Hl; discriminate].
    destruct Hr as [r [Hr [Hu [Hm [Hid _]]]]]. rewrite Hr in Hl.
    destruct (mapM _ sqls (S (S g))) as [[bs g2] | ] eqn:Hbs; [ | discriminate].
    unfold ret in Hl. injection Hl as <- <-.
    destruct (IH _ _ _ Hbs) as [I1 [I2 [I3 I4]]].
    simpl. rewrite I1, I2, I3, Hu, Hm, Hid, <- !seq_shift, !map_map.
    repeat split.
    + f_equal; [lia | ]. apply map_ext. intros i. lia.
    + f_equal; [lia | ]. apply map_ext. intros i. lia.
    + lia.
Qed.

Lemma NoDup_map_inj {A B : Type} (f : A -> B) (l : list A) :
  (forall x y, f x = f y -> x = y) -> NoDup l -> NoDup (map f l).
Proof.
  intros Hinj. induction 1 as [ | a l Ha Hl IH]; simpl; constructor; [ | exact IH].
  intros Hin. apply in_map_iff in Hin. destruct Hin as [y [Ey Hy]].
  apply Hinj in Ey. now subst y.
Qed.

(** X16. The first store: one execution per snapshot, in snapshot order,
    and all the [uniqueId]s and [metricUpdateId]s in it are pairwise
    distinct and freshly drawn. *)
Theorem calculateSqlStore_first (sqls : list SparkSQL.t) (plans : list SQLPlan.t)
    (icebergInfo : IcebergInfo.t) (stages : SparkStagesStore) (g g' : IdGen)
    (store' : SparkSQLStore.t) :
  calculateSqlStore None sqls plans icebergInfo stages g = JS.Normal (store', g') ->
  map EnrichedSparkSQL.id (SparkSQLStore.sqls store') = map SparkSQL.id sqls /\
  NoDup (map EnrichedSparkSQL.uniqueId (SparkSQLStore.sqls store')
         ++ map EnrichedSparkSQL.metricUpdateId (SparkSQLStore.sqls store')) /\
  (forall token,
     In token (map EnrichedSparkSQL.uniqueId (SparkSQLStore.sqls store')
               ++ map EnrichedSparkSQL.metricUpdateId (SparkSQLStore.sqls store')) ->
     (g <= token < g')%nat).
Proof.
  unfold calculateSqlStore, bind. intros Hs.
  destruct (calculateSqls sqls plans icebergInfo stages g) as [[l g1] | ] eqn:Hl;
    [ | discriminate].
  unfold ret in Hs. injection Hs as <- <-. simpl.
  apply calculateSqls_tokens in Hl. destruct Hl as [I1 [I2 [I3 ->]]].
  rewrite I2, I3. split; [exact I1 | ]. split.
  - apply NoDup_app.
    + apply NoDup_map_inj; [intros i j; lia | apply seq_NoDup].
    + apply NoDup_map_inj; [intros i j; lia | apply seq_NoDup].
    + intros x Hx Hy. apply in_map_iff in Hx, Hy.
      destruct Hx as [i [<- _]], Hy as [j [Hj _]]. lia.
  - intros token Hin. apply in_app_or in Hin.
    destruct Hin as [Hin | Hin]; apply in_map_iff in Hin;
      destruct Hin as [i [<- Hi]]; apply in_seq in Hi; lia.
Qed.

(** *** What a recomputed execution does to the store *)

Lemma mergedSql_mono (currentStore : SparkSQLStore.t)
    (sqls : list SparkSQL.t) (plans : list SQLPlan.t) (icebergInfo : IcebergInfo.t)
    (stages : SparkStagesStore) (id : JS.jsint) (g g' : IdGen)
    (r : EnrichedSparkSQL.t) :
  mergedSql currentStore sqls plans icebergInfo stages id g = JS.Normal (r, g') ->
  (g <= g')%nat.
Proof.
  unfold mergedSql.
  destruct (findNewSql sqls id) as [newSql | ]; [ | discriminate].
  assert (Hcalc : forall plan commit,
             calculateSql newSql plan commit stages g = JS.Normal (r, g') ->
             (g <= g')%nat).
  { intros plan commit H. apply calculateSql_identity in H. destruct H as [-> _]. lia. }
  destruct (findCurrentSql currentStore id) as [currentSql | ]; [ | apply Hcalc].
  destruct (_ || _); [apply Hcalc | ].
  destruct (negb _); [apply Hcalc | ].
  unfold ret. intros [= <- <-]. lia.
Qed.

Lemma mapM_pushed {A B : Type} (f : A -> M B) :
  (forall a g g' b, f a g = JS.Normal (b, g') -> (g <= g')%nat) ->
  forall l g bs g', mapM f l g = JS.Normal (bs, g') ->
    (g <= g')%nat /\
    (forall a, In a l ->
       exists b gi gi', (g <= gi)%nat /\ f a gi = JS.Normal (b, gi') /\ In b bs) /\
    (forall b, In b bs ->
       exists a gi gi', In a l /\ (g <= gi)%nat /\ f a gi = JS.Normal (b, gi')).
Proof.
  intros Hmono. induction l as [ | x l IH]; intros g bs g' Hm; simpl in Hm.
  - unfold ret in Hm. injection Hm as <- <-.
    split; [lia | split; [intros a [] | intros b []]].
  - unfold bind in Hm.
    destruct (f x g) as [[b0 g1] | ] eqn:Hx; [ | discriminate].
    destruct (mapM f l g1) as [[bs' g2] | ] eqn:Hbs; [ | discriminate].
    unfold ret in Hm. injection Hm as <- <-.
    pose proof (Hmono _ _ _ _ Hx) as Hle.
    destruct (IH _ _ _ Hbs) as [Hle' [Hfw Hbw]].
    split; [lia | split].
    + intros a [<- | Ha].
      * exists b0, g, g1. split; [lia | split; [exact Hx | now left]].
      * destruct (Hfw a Ha) as [b [gi [gi' [H1 [H2 H3]]]]].
        exists b, gi, gi'. split; [lia | split; [exact H2 | now right]].
    + intros b [<- | Hb].
      * exists x, g, g1. split; [now left | split; [lia | exact Hx]].
      * destruct (Hbw b Hb) as [a [gi [gi' [H1 [H2 H3]]]]].
        exists a, gi, gi'. split; [now right | split; [lia | exact H3]].
Qed.

Lemma lt_Math_min_In (l : list JS.jsint) (y : JS.jsint) :
  In y l -> JS.lt y (JS.Math_min l) = false.
Proof.
  intros Hin. destruct (JS.lt y (JS.Math_min l)) eqn:E; [ | reflexivity].
  unfold JS.Math_min in E. apply lt_fold_min in E. destruct E as [_ E].
  specialize (E y Hin). destruct y as [ | z | ]; simpl in E; try discriminate.
  rewrite Z.ltb_irrefl in E. discriminate.
Qed.

Lemma recomputed_in_store (currentStore : SparkSQLStore.t)
    (sqls : list SparkSQL.t) (plans : list SQLPlan.t) (icebergInfo : IcebergInfo.t)
    (stages : SparkStagesStore) (id : JS.jsint)
    (newSql : SparkSQL.t) (currentSql : EnrichedSparkSQL.t)
    (g g' : IdGen) (store' : SparkSQLStore.t) :
  findNewSql sqls id = Some newSql ->
  findCurrentSql currentStore id = Some currentSql ->
  (forall gi, mergedSql currentStore sqls plans icebergInfo stages id gi
              = calculateSql newSql (findPlan plans id) (findCommit icebergInfo id)
                             stages gi) ->
  (EnrichedSparkSQL.uniqueId currentSql < g)%nat ->
  calculateSqlStore (Some currentStore) sqls plans icebergInfo stages g
  = JS.Normal (store', g') ->
  (exists r gi,
     (g <= gi)%nat /\
     calculateSql newSql (findPlan plans id) (findCommit icebergInfo id) stages gi
     = JS.Normal (r, S (S gi)) /\
     In r (SparkSQLStore.sqls store') /\
     EnrichedSparkSQL.uniqueId r = gi /\
     EnrichedSparkSQL.uniqueId r <> EnrichedSparkSQL.uniqueId currentSql /\
     EnrichedSparkSQL.status r = SparkSQL.status newSql /\
     EnrichedSparkSQL.originalNumOfNodes r = List.length (SparkSQL.nodes newSql)) /\
  ~ In currentSql (SparkSQLStore.sqls store') /\
  (forall x, In x (SparkSQLStore.sqls store') ->
     JS.parseInt (EnrichedSparkSQL.id x) = id ->
     EnrichedSparkSQL.uniqueId x <> EnrichedSparkSQL.uniqueId currentSql /\
     exists gi,
       (g <= gi)%nat /\
       calculateSql newSql (findPlan plans id) (findCommit icebergInfo id) stages gi
       = JS.Normal (x, S (S gi))).
Proof.
  intros Hnew Hcur Hre Hlt Hs.
  pose proof (findNewSql_In _ _ _ Hnew) as Hid.
  rewrite calculateSqlStore_pushes in Hs.
  set (sqlIds := map (fun sql => JS.parseInt (SparkSQL.id sql)) sqls) in *.
  destruct (mapM _ sqlIds g) as [[pushed g1] | ] eqn:Hp; [ | discriminate].
  injection Hs as <- <-. cbn [SparkSQLStore.sqls].
  destruct (mapM_pushed _ (mergedSql_mono currentStore sqls plans icebergInfo stages)
              _ _ _ _ Hp) as [_ [Hfw Hbw]].
  assert (Hall : forall x, In x (filter
                    (fun sql => JS.lt (JS.parseInt (EnrichedSparkSQL.id sql))
                                      (JS.Math_min sqlIds))
                    (SparkSQLStore.sqls currentStore) ++ pushed) ->
             JS.parseInt (EnrichedSparkSQL.id x) = id ->
             exists gi,
               (g <= gi)%nat /\
               calculateSql newSql (findPlan plans id) (findCommit icebergInfo id)
                            stages gi = JS.Normal (x, S (S gi))).
  { intros x Hx Hxid. apply in_app_or in Hx. destruct Hx as [Hx | Hx].
    - apply filter_In in Hx. destruct Hx as [_ Hx]. rewrite Hxid in Hx.
      rewrite (lt_Math_min_In _ _ Hid) in Hx. discriminate.
    - destruct (Hbw x Hx) as [a [gi [gi' [Ha [Hle Hm]]]]].
      pose proof (mergedSql_id _ _ _ _ _ _ _ _ _ Hm) as E. rewrite Hxid in E. subst a.
      rewrite Hre in Hm. pose proof (calculateSql_identity _ _ _ _ _ _ _ Hm) as [-> _].
      exists gi. split; [exact Hle | exact Hm]. }
  split; [ | split].
  - destruct (Hfw id Hid) as [r [gi [gi' [Hle [Hm Hin]]]]].
    rewrite Hre in Hm.
    pose proof (calculateSql_identity _ _ _ _ _ _ _ Hm) as [-> [Hu [_ [Hst Hn]]]].
    exists r, gi. repeat split; try assumption.
    + apply in_or_app. now right.
    + lia.
  - intros Hin.
    assert (E : JS.parseInt (EnrichedSparkSQL.id currentSql) = id).
    { apply find_some in Hcur. destruct Hcur as [_ Hcur]. now apply strictEq_eq in Hcur. }
    destruct (Hall _ Hin E) as [gi [Hle Hm]].
    apply calculateSql_identity in Hm. destruct Hm as [_ [Hu _]]. lia.
  - intros x Hx Hxid. destruct (Hall x Hx Hxid) as [gi [Hle Hm]].
    split; [ | exists gi; auto].
    apply calculateSql_identity in Hm. destruct Hm as [_ [Hu _]]. lia.
Qed.

Lemma recomputed_throws (currentStore : SparkSQLStore.t)
    (sqls : list SparkSQL.t) (plans : list SQLPlan.t) (icebergInfo : IcebergInfo.t)
    (stages : SparkStagesStore) (id : JS.jsint) (newSql : SparkSQL.t)
    (e : JS.exn) (g : IdGen) :
  findNewSql sqls id = Some newSql ->
  (forall gi, mergedSql currentStore sqls plans icebergInfo stages id gi
              = calculateSql newSql (findPlan plans id) (findCommit icebergInfo id)
                             stages gi) ->
  classifiedGraphNodes newSql (findPlan plans id) (findCommit icebergInfo id)
  = JS.Throw e ->
  calculateSqlStore (Some currentStore) sqls plans icebergInfo stages g
  = JS.Throw JS.TypeError.
Proof.
  intros Hnew Hre Hc. rewrite calculateSqlStore_pushes.
  rewrite (mapM_throws _ _ id); [reflexivity | | | ].
  - eapply findNewSql_In; eauto.
  - intros g0. rewrite Hre.
    pose proof (calculateSql_returns newSql (findPlan plans id)
                  (findCommit icebergInfo id) stages g0) as Hr.
    rewrite Hc in Hr. rewrite Hr. f_equal. eapply classified_throw_kind; eauto.
  - apply mergedSql_throw_kind.
Qed.

(** C2. [calculateSqlStore] never reads the stored status.  The batch
    holds the id of a stored execution, with the new status Completed or
    Failed: the loop runs [calculateSql] on the new snapshot, whatever
    the stored execution is.  In the store returned, the stored execution
    is gone: an execution computed by [calculateSql] from the snapshot is
    there in its place, with a [uniqueId] drawn during the call and
    different from the stored one, and every execution of that id in the
    store returned is one so computed.  When [calculateSql] throws on the
    snapshot, so does [calculateSqlStore].  The stored executions whose
    id is below the smallest id of the batch are kept as they are. *)
Theorem terminal_snapshot_replaces_stored (currentStore : SparkSQLStore.t)
    (sqls : list SparkSQL.t) (plans : list SQLPlan.t) (icebergInfo : IcebergInfo.t)
    (stages : SparkStagesStore) (id : JS.jsint)
    (newSql : SparkSQL.t) (currentSql : EnrichedSparkSQL.t) (g : IdGen) :
  findNewSql sqls id = Some newSql ->
  findCurrentSql currentStore id = Some currentSql ->
  SparkSQL.status newSql = SqlStatus.Completed \/
  SparkSQL.status newSql = SqlStatus.Failed ->
  (EnrichedSparkSQL.uniqueId currentSql < g)%nat ->
  (* the loop body *)
  mergedSql currentStore sqls plans icebergInfo stages id g
  = calculateSql newSql (findPlan plans id) (findCommit icebergInfo id) stages g /\
  match classifiedGraphNodes newSql (findPlan plans id) (findCommit icebergInfo id) with
  | JS.Throw e =>
      mergedSql currentStore sqls plans icebergInfo stages id g = JS.Throw e /\
      calculateSqlStore (Some currentStore) sqls plans icebergInfo stages g
      = JS.Throw JS.TypeError
  | JS.Normal _ =>
      exists r,
        mergedSql currentStore sqls plans icebergInfo stages id g
        = JS.Normal (r, S (S g)) /\
        EnrichedSparkSQL.uniqueId r = g /\
        EnrichedSparkSQL.uniqueId r <> EnrichedSparkSQL.uniqueId currentSql /\
        r <> currentSql /\
        EnrichedSparkSQL.status r = SparkSQL.status newSql /\
        EnrichedSparkSQL.originalNumOfNodes r = List.length (SparkSQL.nodes newSql)
  end /\
  (* the store returned *)
  (forall store' g',
     calculateSqlStore (Some currentStore) sqls plans icebergInfo stages g
     = JS.Normal (store', g') ->
     (exists r gi,
        (g <= gi)%nat /\
        calculateSql newSql (findPlan plans id) (findCommit icebergInfo id) stages gi
        = JS.Normal (r, S (S gi)) /\
        In r (SparkSQLStore.sqls store') /\
        EnrichedSparkSQL.uniqueId r = gi /\
        EnrichedSparkSQL.uniqueId r <> EnrichedSparkSQL.uniqueId currentSql /\
        EnrichedSparkSQL.status r = SparkSQL.status newSql /\
        EnrichedSparkSQL.originalNumOfNodes r = List.length (SparkSQL.nodes newSql)) /\
     ~ In currentSql (SparkSQLStore.sqls store') /\
     (forall x, In x (SparkSQLStore.sqls store') ->
        JS.parseInt (EnrichedSparkSQL.id x) = id ->
        EnrichedSparkSQL.uniqueId x <> EnrichedSparkSQL.uniqueId currentSql /\
        exists gi,
          (g <= gi)%nat /\
          calculateSql newSql (findPlan plans id) (findCommit icebergInfo id) stages gi
          = JS.Normal (x, S (S gi)))) /\
  (* below the batch *)
  (forall g0 store' g' old,
     calculateSqlStore (Some currentStore) sqls plans icebergInfo stages g0
     = JS.Normal (store', g') ->
     In old (SparkSQLStore.sqls currentStore) ->
     JS.lt (JS.parseInt (EnrichedSparkSQL.id old))
           (JS.Math_min (map (fun sql => JS.parseInt (SparkSQL.id sql)) sqls)) = true ->
     In old (SparkSQLStore.sqls store')).
Proof.
  intros Hnew Hcur Hst Hlt.
  assert (Hre : forall gi,
             mergedSql currentStore sqls plans icebergInfo stages id gi
             = calculateSql newSql (findPlan plans id) (findCommit icebergInfo id)
                            stages gi).
  { intros gi. unfold mergedSql. rewrite Hnew, Hcur.
    destruct Hst as [-> | ->]; reflexivity. }
  split; [apply Hre | split; [ | split]].
  - pose proof (mergedSql_recomputed currentStore sqls plans icebergInfo stages id
                  newSql currentSql g (Hre g) Hlt) as Hm.
    destruct (classifiedGraphNodes newSql (findPlan plans id)
                (findCommit icebergInfo id)) as [l | e] eqn:Hc; [exact Hm | ].
    split; [exact Hm | ]. eapply recomputed_throws; eauto.
  - intros store' g' Hs. eapply recomputed_in_store; eauto.
  - intros g0 store' g' old Hs Hold Hmin. rewrite calculateSqlStore_pushes in Hs.
    destruct (mapM _ _ g0) as [[pushed g1] | e]; [ | discriminate].
    injection Hs as <- <-. simpl. apply in_or_app. left.
    apply filter_In. now split.
Qed.

(** C4. The batch holds the id of a stored execution, with a status that
    is neither Completed nor Failed (Running) and a number of nodes other
    than the stored [originalNumOfNodes]: the loop runs [calculateSql] on
    the new snapshot.  In the store returned the stored execution is
    gone: an execution computed by [calculateSql] from the snapshot is
    there in its place, with the status and the node count of the
    snapshot and a [uniqueId] drawn during the call, different from the
    stored one: the identity of the first materialization is not
    retained.  Every execution of that id in the store returned is one so
    computed.  When [calculateSql] throws on the snapshot, so does
    [calculateSqlStore]. *)
Theorem restructure_replaces_identity (currentStore : SparkSQLStore.t)
    (sqls : list SparkSQL.t) (plans : list SQLPlan.t) (icebergInfo : IcebergInfo.t)
    (stages : SparkStagesStore) (id : JS.jsint)
    (newSql : SparkSQL.t) (currentSql : EnrichedSparkSQL.t) (g : IdGen) :
  findNewSql sqls id = Some newSql ->
  findCurrentSql currentStore id = Some currentSql ->
  SparkSQL.status newSql <> SqlStatus.Completed ->
  SparkSQL.status newSql <> SqlStatus.Failed ->
  EnrichedSparkSQL.originalNumOfNodes currentSql <> List.length (SparkSQL.nodes newSql) ->
  (EnrichedSparkSQL.uniqueId currentSql < g)%nat ->
  (* the loop body *)
  mergedSql currentStore sqls plans icebergInfo stages id g
  = calculateSql newSql (findPlan plans id) (findCommit icebergInfo id) stages g /\
  match classifiedGraphNodes newSql (findPlan plans id) (findCommit icebergInfo id) with
  | JS.Throw e =>
      mergedSql currentStore sqls plans icebergInfo stages id g = JS.Throw e /\
      calculateSqlStore (Some currentStore) sqls plans icebergInfo stages g
      = JS.Throw JS.TypeError
  | JS.Normal _ =>
      exists r,
        mergedSql currentStore sqls plans icebergInfo stages id g
        = JS.Normal (r, S (S g)) /\
        EnrichedSparkSQL.uniqueId r = g /\
        EnrichedSparkSQL.uniqueId r <> EnrichedSparkSQL.uniqueId currentSql /\
        r <> currentSql /\
        EnrichedSparkSQL.status r = SparkSQL.status newSql /\
        EnrichedSparkSQL.originalNumOfNodes r = List.length (SparkSQL.nodes newSql)
  end /\
  (* the store returned *)
  (forall store' g',
     calculateSqlStore (Some currentStore) sqls plans icebergInfo stages g
     = JS.Normal (store', g') ->
     (exists r gi,
        (g <= gi)%nat /\
        calculateSql newSql (findPlan plans id) (findCommit icebergInfo id) stages gi
        = JS.Normal (r, S (S gi)) /\
        In r (SparkSQLStore.sqls store') /\
        EnrichedSparkSQL.uniqueId r = gi /\
        EnrichedSparkSQL.uniqueId r <> EnrichedSparkSQL.uniqueId currentSql /\
        EnrichedSparkSQL.status r = SparkSQL.status newSql /\
        EnrichedSparkSQL.originalNumOfNodes r = List.length (SparkSQL.nodes newSql)) /\
     ~ In currentSql (SparkSQLStore.sqls store') /\
     (forall x, In x (SparkSQLStore.sqls store') ->
        JS.parseInt (EnrichedSparkSQL.id x) = id ->
        EnrichedSparkSQL.uniqueId x <> EnrichedSparkSQL.uniqueId currentSql /\
        exists gi,
          (g <= gi)%nat /\
          calculateSql newSql (findPlan plans id) (findCommit icebergInfo id) stages gi
          = JS.Normal (x, S (S gi)))).
Proof.
  intros Hnew Hcur Hc Hf Hn Hlt.
  assert (Hre : forall gi,
             mergedSql currentStore sqls plans icebergInfo stages id gi
             = calculateSql newSql (findPlan plans id) (findCommit icebergInfo id)
                            stages gi).
  { intros gi. unfold mergedSql. rewrite Hnew, Hcur.
    apply String.eqb_neq in Hc, Hf. rewrite Hc, Hf. simpl.
    apply Nat.eqb_neq in Hn. now rewrite Hn. }
  split; [apply Hre | split].
  - pose proof (mergedSql_recomputed currentStore sqls plans icebergInfo stages id
                  newSql currentSql g (Hre g) Hlt) as Hm.
    destruct (classifiedGraphNodes newSql (findPlan plans id)
                (findCommit icebergInfo id)) as [l | e] eqn:Hcl; [exact Hm | ].
    split; [exact Hm | ]. eapply recomputed_throws; eauto.
  - intros store' g' Hs. eapply recomputed_in_store; eauto.
Qed.

End StoreOrder.

(** *** The metric update *)

Section MetricUpdateFacts.

Context `{Num : JsNumber} `{Pay : Payloads} `{Imp : @Imports Num Pay}
        `{Sto : CachedStorage}.

Local Open Scope list_scope.

(** X22. [updateSqlNodeMetrics] for an id the store does not hold
    returns the store as it is and draws no identity. *)
Theorem updateSqlNodeMetrics_unknown (currentStore : StoredSQLStore.t)
    (sqlId : string) (sqlMetrics : list NodeMetrics.t) (stages : list SparkStage.t)
    (g : IdGen) :
  (forall sql, In sql (StoredSQLStore.sqls currentStore) ->
     StoredSparkSQL.id sql <> sqlId) ->
  updateSqlNodeMetrics currentStore sqlId sqlMetrics stages g
  = JS.Normal (currentStore, g).
Proof.
  intros Hno. unfold updateSqlNodeMetrics.
  rewrite filter_none; [reflexivity | ].
  intros sql Hin. apply String.eqb_neq. now apply Hno.
Qed.

(** The execution the update is applied to: the first one with the id. *)
Lemma runningSql_first (l before after : list StoredSparkSQL.t)
    (runningSql : StoredSparkSQL.t) (sqlId : string) :
  l = before ++ runningSql :: after ->
  (forall sql, In sql before -> StoredSparkSQL.id sql <> sqlId) ->
  StoredSparkSQL.id runningSql = sqlId ->
  filter (fun sql => String.eqb (StoredSparkSQL.id sql) sqlId) l
  = runningSql :: filter (fun sql => String.eqb (StoredSparkSQL.id sql) sqlId) after.
Proof.
  intros -> Hb Hid. rewrite filter_app. rewrite filter_none.
  - simpl. apply String.eqb_eq in Hid. now rewrite Hid.
  - intros sql Hin. apply String.eqb_neq. now apply Hb.
Qed.

Lemma updateNode_frame (runningSql : StoredSparkSQL.t)
    (sqlMetrics : list NodeMetrics.t) (node : StoredSqlNode.t) :
  let node' := updateNode runningSql sqlMetrics node in
  EnrichedSqlNode.nodeId (StoredSqlNode.node node')
  = EnrichedSqlNode.nodeId (StoredSqlNode.node node) /\
  EnrichedSqlNode.nodeName (StoredSqlNode.node node')
  = EnrichedSqlNode.nodeName (StoredSqlNode.node node) /\
  EnrichedSqlNode.type (StoredSqlNode.node node')
  = EnrichedSqlNode.type (StoredSqlNode.node node) /\
  StoredSqlNode.stage node' = StoredSqlNode.stage node /\
  StoredSqlNode.storageInfo node' = StoredSqlNode.storageInfo node.
Proof.
  unfold updateNode. destruct (matchedMetrics sqlMetrics node); simpl; auto.
Qed.

Lemma attachStorageInfo_frame (infos : list NodeStorageInfo.t) (node : StoredSqlNode.t) :
  StoredSqlNode.node (attachStorageInfo infos node) = StoredSqlNode.node node /\
  StoredSqlNode.stage (attachStorageInfo infos node) = StoredSqlNode.stage node.
Proof.
  unfold attachStorageInfo. destruct (find _ infos) as [i | ]; [ | auto].
  destruct (NodeStorageInfo.storageInfo i); simpl; auto.
Qed.

Lemma updateCodegenNode_frame (sqlMetrics : list NodeMetrics.t)
    (node : StoredSqlNode.t) :
  let node' := updateCodegenNode sqlMetrics node in
  EnrichedSqlNode.nodeId (StoredSqlNode.node node')
  = EnrichedSqlNode.nodeId (StoredSqlNode.node node) /\
  EnrichedSqlNode.nodeName (StoredSqlNode.node node')
  = EnrichedSqlNode.nodeName (StoredSqlNode.node node) /\
  EnrichedSqlNode.metrics (StoredSqlNode.node node')
  = EnrichedSqlNode.metrics (StoredSqlNode.node node) /\
  StoredSqlNode.stage node' = StoredSqlNode.stage node /\
  StoredSqlNode.storageInfo node' = StoredSqlNode.storageInfo node.
Proof.
  unfold updateCodegenNode. destruct (matchedMetrics sqlMetrics node); simpl; auto.
Qed.

(** X23. [updateSqlNodeMetrics] for an id the store holds: the first
    execution with that id is replaced by an updated one, placed between
    the executions of smaller and of larger id; the update draws a new
    [metricUpdateId] and keeps [uniqueId], [status], [duration], [edges],
    [filters] and [originalNumOfNodes]; node by node, id, name, type and
    stage are kept, and a codegen node keeps its metrics. *)
Theorem updateSqlNodeMetrics_frame (currentStore : StoredSQLStore.t)
    (sqlId : string) (sqlMetrics : list NodeMetrics.t) (stages : list SparkStage.t)
    (g : IdGen) (before after : list StoredSparkSQL.t) (runningSql : StoredSparkSQL.t) :
  StoredSQLStore.sqls currentStore = before ++ runningSql :: after ->
  (forall sql, In sql before -> StoredSparkSQL.id sql <> sqlId) ->
  StoredSparkSQL.id runningSql = sqlId ->
  exists updatedSql,
    updateSqlNodeMetrics currentStore sqlId sqlMetrics stages g
    = JS.Normal
        ({| StoredSQLStore.sqls :=
              filter (fun sql => String.ltb (StoredSparkSQL.id sql) sqlId)
                     (StoredSQLStore.sqls currentStore)
              ++ [updatedSql]
              ++ filter (fun sql => String.ltb sqlId (StoredSparkSQL.id sql))
                        (StoredSQLStore.sqls currentStore) |}, S g) /\
    (* written by the update *)
    StoredSparkSQL.metricUpdateId updatedSql = g /\
    (* as stored *)
    StoredSparkSQL.uniqueId updatedSql = StoredSparkSQL.uniqueId runningSql /\
    StoredSparkSQL.id updatedSql = sqlId /\
    StoredSparkSQL.status updatedSql = StoredSparkSQL.status runningSql /\
    StoredSparkSQL.duration updatedSql = StoredSparkSQL.duration runningSql /\
    StoredSparkSQL.edges updatedSql = StoredSparkSQL.edges runningSql /\
    StoredSparkSQL.filters updatedSql = StoredSparkSQL.filters runningSql /\
    StoredSparkSQL.originalNumOfNodes updatedSql
    = StoredSparkSQL.originalNumOfNodes runningSql /\
    (* node by node *)
    (let ident (node : StoredSqlNode.t) :=
       (EnrichedSqlNode.nodeId (StoredSqlNode.node node),
        EnrichedSqlNode.nodeName (StoredSqlNode.node node),
        EnrichedSqlNode.type (StoredSqlNode.node node),
        StoredSqlNode.stage node) in
     map ident (StoredSparkSQL.nodes updatedSql)
     = map ident (StoredSparkSQL.nodes runningSql) /\
     map ident (StoredSparkSQL.codegenNodes updatedSql)
     = map ident (StoredSparkSQL.codegenNodes runningSql)) /\
    map (fun node => EnrichedSqlNode.metrics (StoredSqlNode.node node))
        (StoredSparkSQL.codegenNodes updatedSql)
    = map (fun node => EnrichedSqlNode.metrics (StoredSqlNode.node node))
          (StoredSparkSQL.codegenNodes runningSql).
Proof.
  intros Hl Hb Hid. unfold updateSqlNodeMetrics.
  rewrite (runningSql_first _ _ _ _ _ Hl Hb Hid).
  unfold bind, uuidv4, ret. eexists. split; [reflexivity | ].
  cbn [StoredSparkSQL.metricUpdateId StoredSparkSQL.uniqueId StoredSparkSQL.id
       StoredSparkSQL.status StoredSparkSQL.duration StoredSparkSQL.edges
       StoredSparkSQL.filters StoredSparkSQL.originalNumOfNodes
       StoredSparkSQL.nodes StoredSparkSQL.codegenNodes withUpdate].
  repeat split; try reflexivity; try assumption.
  - rewrite !map_map. apply map_ext. intros node.
    destruct (attachStorageInfo_frame
                (calculateNodeToStorageInfo stages
                   (map (updateNode runningSql sqlMetrics)
                        (StoredSparkSQL.nodes runningSql)))
                (updateNode runningSql sqlMetrics node)) as [-> ->].
    destruct (updateNode_frame runningSql sqlMetrics node) as [-> [-> [-> [-> _]]]].
    reflexivity.
  - rewrite !map_map. apply map_ext. intros node.
    unfold updateCodegenNode. destruct (matchedMetrics sqlMetrics node); reflexivity.
  - rewrite !map_map. apply map_ext. intros node.
    unfold updateCodegenNode. destruct (matchedMetrics sqlMetrics node); reflexivity.
Qed.


(** *** String order *)

Lemma ltb_irrefl (s : string) : String.ltb s s = false.
Proof.
  unfold String.ltb. pose proof (String.compare_antisym s s) as H.
  destruct (String.compare s s); try reflexivity; discriminate.
Qed.

Lemma ltb_asym (a b : string) : String.ltb a b = true -> String.ltb b a = false.
Proof.
  unfold String.ltb. rewrite (String.compare_antisym a b).
  destruct (String.compare b a); simpl; congruence.
Qed.

Lemma ltb_total (a b : string) :
  a <> b -> String.ltb a b = true \/ String.ltb b a = true.
Proof.
  intros Hne. unfold String.ltb. rewrite (String.compare_antisym a b).
  destruct (String.compare b a) eqn:E; simpl; auto.
  apply String.compare_eq_iff in E. congruence.
Qed.

Lemma filter_head_split {A : Type} (p : A -> bool) (l : list A) (x : A) (rest : list A) :
  filter p l = x :: rest ->
  exists before after,
    l = before ++ x :: after /\ p x = true /\
    (forall a, In a before -> p a = false).
Proof.
  induction l as [ | a l IH]; simpl; [discriminate | ].
  destruct (p a) eqn:E.
  - intros [= -> <-]. exists [], l. repeat split; [exact E | intros a []].
  - intros H. destruct (IH H) as [before [after [-> [Hx Hb]]]].
    exists (a :: before), after. repeat split; [exact Hx | ].
    intros y [<- | Hy]; auto.
Qed.

(** X24. [updateSqlNodeMetrics] leaves the executions of other ids in
    the store, adds none, and leaves exactly one execution of the
    updated id when the store had any. *)
Theorem updateSqlNodeMetrics_others (currentStore : StoredSQLStore.t)
    (sqlId : string) (sqlMetrics : list NodeMetrics.t) (stages : list SparkStage.t)
    (g g' : IdGen) (store' : StoredSQLStore.t) :
  updateSqlNodeMetrics currentStore sqlId sqlMetrics stages g = JS.Normal (store', g') ->
  (forall sql, StoredSparkSQL.id sql <> sqlId ->
     (In sql (StoredSQLStore.sqls store') <-> In sql (StoredSQLStore.sqls currentStore))) /\
  ((exists sql, In sql (StoredSQLStore.sqls currentStore) /\
                StoredSparkSQL.id sql = sqlId) ->
   List.length (filter (fun sql => String.eqb (StoredSparkSQL.id sql) sqlId)
                       (StoredSQLStore.sqls store')) = 1%nat).
Proof.
  unfold updateSqlNodeMetrics.
  destruct (filter _ (StoredSQLStore.sqls currentStore)) as [ | runningSql rest] eqn:Hf.
  - unfold ret. intros [= <- <-]. split; [tauto | ].
    intros [sql [Hin Hid]]. exfalso.
    assert (H : In sql (filter (fun sql => String.eqb (StoredSparkSQL.id sql) sqlId)
                               (StoredSQLStore.sqls currentStore))).
    { apply filter_In. split; [exact Hin | now apply String.eqb_eq]. }
    rewrite Hf in H. destruct H.
  - assert (Hid : StoredSparkSQL.id runningSql = sqlId).
    { apply String.eqb_eq.
      assert (H : In runningSql (runningSql :: rest)) by now left.
      rewrite <- Hf in H. apply filter_In in H. apply H. }
    unfold bind, uuidv4, ret. intros [= <- <-]. cbn [StoredSQLStore.sqls]. split.
    + intros sql Hne. split.
      * intros H. apply in_app_or in H.
        destruct H as [H | H]; [apply filter_In in H; apply H | ].
        simpl in H. destruct H as [<- | H]; [now elim Hne | ].
        apply filter_In in H. apply H.
      * intros H. apply in_or_app. destruct (ltb_total _ _ Hne) as [L | L].
        -- left. apply filter_In. auto.
        -- right. simpl. right. apply filter_In. auto.
    + intros _. rewrite filter_app, length_app.
      assert (Hno : forall a b : string, (String.ltb a b = true \/ String.ltb b a = true) ->
                      String.eqb a b = false).
      { intros a b Hab. destruct (String.eqb_spec a b) as [-> | _]; [ | reflexivity].
        rewrite ltb_irrefl in Hab. destruct Hab; discriminate. }
      rewrite filter_none.
      2: { intros a Ha. apply filter_In in Ha. apply Hno. left. apply Ha. }
      simpl. apply String.eqb_eq in Hid. rewrite Hid. simpl.
      rewrite filter_none; [reflexivity | ].
      intros a Ha. apply filter_In in Ha. apply Hno. right. apply Ha.
Qed.

Lemma StronglySorted_split {A : Type} (R : A -> A -> Prop) (l1 l2 : list A) (x : A) :
  StronglySorted R (l1 ++ x :: l2) ->
  (forall a, In a l1 -> R a x) /\ (forall b, In b l2 -> R x b).
Proof.
  induction l1 as [ | a l1 IH]; simpl; intros H; inversion H as [ | ? ? Hs Hall]; subst.
  - split; [intros a [] | ]. now rewrite Forall_forall in Hall.
  - destruct (IH Hs) as [H1 H2]. split; [ | exact H2].
    intros y [<- | Hy]; [ | now apply H1].
    rewrite Forall_forall in Hall. apply Hall. apply in_elt.
Qed.

(** X25. On a store in increasing order of id, the ids compared as
    strings, [updateSqlNodeMetrics] keeps the order of the executions. *)
Theorem updateSqlNodeMetrics_order (currentStore : StoredSQLStore.t)
    (sqlId : string) (sqlMetrics : list NodeMetrics.t) (stages : list SparkStage.t)
    (g g' : IdGen) (store' : StoredSQLStore.t) :
  StronglySorted (fun a b => String.ltb a b = true)
                 (map StoredSparkSQL.id (StoredSQLStore.sqls currentStore)) ->
  updateSqlNodeMetrics currentStore sqlId sqlMetrics stages g = JS.Normal (store', g') ->
  map StoredSparkSQL.id (StoredSQLStore.sqls store')
  = map StoredSparkSQL.id (StoredSQLStore.sqls currentStore).
Proof.
  intros Hsorted. unfold updateSqlNodeMetrics.
  destruct (filter _ (StoredSQLStore.sqls currentStore)) as [ | runningSql rest] eqn:Hf.
  - unfold ret. now intros [= <- <-].
  - apply filter_head_split in Hf. destruct Hf as [before [after [Hl [Hid _]]]].
    apply String.eqb_eq in Hid.
    unfold bind, uuidv4, ret. intros [= <- <-]. cbn [StoredSQLStore.sqls].
    rewrite Hl in *. rewrite map_app in Hsorted. simpl in Hsorted.
    apply StronglySorted_split in Hsorted. destruct Hsorted as [Hb Ha].
    rewrite Hid in Hb, Ha.
    assert (Hb' : forall a, In a before -> String.ltb (StoredSparkSQL.id a) sqlId = true).
    { intros a Hin. apply Hb. now apply in_map. }
    assert (Ha' : forall a, In a after -> String.ltb sqlId (StoredSparkSQL.id a) = true).
    { intros a Hin. apply Ha. now apply in_map. }
    assert (Flt : filter (fun sql => String.ltb (StoredSparkSQL.id sql) sqlId)
                         (before ++ runningSql :: after) = before).
    { rewrite filter_app. simpl. rewrite Hid, ltb_irrefl.
      rewrite (filter_all _ before Hb'), filter_none; [apply app_nil_r | ].
      intros a Hin. now apply ltb_asym, Ha'. }
    assert (Fgt : filter (fun sql => String.ltb sqlId (StoredSparkSQL.id sql))
                         (before ++ runningSql :: after) = after).
    { rewrite filter_app. simpl. rewrite Hid, ltb_irrefl.
      rewrite (filter_all _ after Ha'), filter_none; [reflexivity | ].
      intros a Hin. now apply ltb_asym, Hb'. }
    rewrite Flt, Fgt, !map_app. simpl. now rewrite Hid.
Qed.


(** *** Storage information *)

Lemma in_combine_seq {A : Type} (l : list A) (s i : nat) (x : A) :
  In (i, x) (combine (seq s (List.length l)) l) <->
  (s <= i)%nat /\ nth_error l (i - s) = Some x.
Proof.
  revert s. induction l as [ | a l IH]; intros s; simpl.
  - split; [intros [] | ]. intros [_ H]. now destruct (i - s)%nat.
  - rewrite IH. split.
    + intros [[= <- <-] | [Hle Hn]].
      * rewrite Nat.sub_diag. split; [lia | reflexivity].
      * split; [lia | ]. replace (i - s)%nat with (S (i - S s)) by lia. exact Hn.
    + intros [Hle Hn]. destruct (i - s)%nat as [ | k] eqn:E.
      * left. injection Hn as <-. f_equal. lia.
      * right. split; [lia | ]. replace (i - S s)%nat with k by lia. exact Hn.
Qed.

Lemma in_mapi {A B : Type} (f : A -> nat -> B) (l : list A) (y : B) :
  In y (mapi f l) <-> exists i x, nth_error l i = Some x /\ y = f x i.
Proof.
  unfold mapi. rewrite in_map_iff. split.
  - intros [[i x] [<- Hin]]. apply in_combine_seq in Hin. destruct Hin as [_ Hn].
    rewrite Nat.sub_0_r in Hn. exists i, x. auto.
  - intros [i [x [Hn ->]]]. exists (i, x). split; [reflexivity | ].
    apply in_combine_seq. rewrite Nat.sub_0_r. split; [lia | exact Hn].
Qed.

Lemma nth_error_guard {A : Type} (l : list A) (i : nat) :
  (if Nat.ltb i (List.length l) then nth_error l i else None) = nth_error l i.
Proof.
  destruct (Nat.ltb_spec i (List.length l)); [reflexivity | ].
  symmetry. now apply nth_error_None.
Qed.

(** X21. Every entry of [calculateNodeToStorageInfo] is for an
    InMemoryTableScan node of a one-stage stage that has cached storage,
    and pairs the node at position [index] among the cache nodes of the
    stage with the storage at position [index] of the stage
    ([undefined] past the end). *)
Theorem calculateNodeToStorageInfo_sound (stages : list SparkStage.t)
    (nodes : list StoredSqlNode.t) (entry : NodeStorageInfo.t) :
  In entry (calculateNodeToStorageInfo stages nodes) ->
  exists stage cachedStorage index node nodeStage,
    In stage stages /\
    SparkStage.cachedStorage stage = Some cachedStorage /\
    nth_error (filter (isCacheNode stage) nodes) index = Some node /\
    In node nodes /\
    EnrichedSqlNode.nodeName (StoredSqlNode.node node) = "InMemoryTableScan" /\
    StoredSqlNode.stage node = Some nodeStage /\
    SQLNodeStage.type nodeStage = "onestage" /\
    SQLNodeStage.stageId nodeStage = Some (SparkStage.stageId stage) /\
    NodeStorageInfo.nodeId entry = EnrichedSqlNode.nodeId (StoredSqlNode.node node) /\
    NodeStorageInfo.storageInfo entry = nth_error cachedStorage index.
Proof.
  unfold calculateNodeToStorageInfo. intros Hin. apply in_flat_map in Hin.
  destruct Hin as [stage [Hs Hin]]. apply filter_In in Hs. destruct Hs as [Hs _].
  destruct (SparkStage.cachedStorage stage) as [cachedStorage | ] eqn:Hc; [ | destruct Hin].
  destruct (Nat.ltb 0 _); [ | destruct Hin].
  apply in_mapi in Hin. destruct Hin as [index [node [Hn ->]]].
  pose proof (nth_error_In _ _ Hn) as Hf. apply filter_In in Hf.
  destruct Hf as [Hnode Hp]. unfold isCacheNode in Hp.
  apply andb_prop in Hp. destruct Hp as [Hname Hp].
  destruct (StoredSqlNode.stage node) as [nodeStage | ] eqn:Hst; [ | discriminate].
  apply andb_prop in Hp. destruct Hp as [Hty Hp].
  destruct (SQLNodeStage.stageId nodeStage) as [stageId | ] eqn:Hid; [ | discriminate].
  apply String.eqb_eq in Hname, Hty. apply Z.eqb_eq in Hp. subst stageId.
  exists stage, cachedStorage, index, node, nodeStage. simpl.
  rewrite nth_error_guard. repeat split; auto.
Qed.

Lemma calculateNodeToStorageInfo_no_stage (stages : list SparkStage.t)
    (nodes : list StoredSqlNode.t) :
  (forall node, In node nodes -> StoredSqlNode.stage node = None) ->
  calculateNodeToStorageInfo stages nodes = [].
Proof.
  intros Hno. unfold calculateNodeToStorageInfo.
  induction (filter _ stages) as [ | stage l IH]; simpl; [reflexivity | ].
  rewrite IH, app_nil_r.
  rewrite (filter_none (isCacheNode stage) nodes).
  - now destruct (SparkStage.cachedStorage stage).
  - intros node Hin. unfold isCacheNode. rewrite (Hno _ Hin). apply andb_false_r.
Qed.

Lemma map_fix {A : Type} (f : A -> A) (l : list A) :
  (forall a, In a l -> f a = a) -> map f l = l.
Proof.
  induction l as [ | a l IH]; intros H; simpl; [reflexivity | ].
  rewrite (H a (or_introl eq_refl)), IH; [reflexivity | ].
  intros x Hx. apply H. now right.
Qed.

(** X26. Metrics for unknown node ids are ignored: when no delivered
    entry is for a node of the execution and no node has a stage yet,
    the update changes [metricUpdateId] and nothing else. *)
Theorem updateSqlNodeMetrics_no_data (currentStore : StoredSQLStore.t)
    (sqlId : string) (sqlMetrics : list NodeMetrics.t) (stages : list SparkStage.t)
    (g : IdGen) (before after : list StoredSparkSQL.t) (runningSql : StoredSparkSQL.t) :
  StoredSQLStore.sqls currentStore = before ++ runningSql :: after ->
  (forall sql, In sql before -> StoredSparkSQL.id sql <> sqlId) ->
  StoredSparkSQL.id runningSql = sqlId ->
  (forall nodeMetrics node,
     In nodeMetrics sqlMetrics ->
     In node (StoredSparkSQL.nodes runningSql ++ StoredSparkSQL.codegenNodes runningSql) ->
     NodeMetrics.id nodeMetrics <> EnrichedSqlNode.nodeId (StoredSqlNode.node node)) ->
  (forall node, In node (StoredSparkSQL.nodes runningSql) ->
     StoredSqlNode.stage node = None) ->
  updateSqlNodeMetrics currentStore sqlId sqlMetrics stages g
  = JS.Normal
      ({| StoredSQLStore.sqls :=
            filter (fun sql => String.ltb (StoredSparkSQL.id sql) sqlId)
                   (StoredSQLStore.sqls currentStore)
            ++ [withUpdate runningSql (StoredSparkSQL.nodes runningSql)
                           (StoredSparkSQL.codegenNodes runningSql) g]
            ++ filter (fun sql => String.ltb sqlId (StoredSparkSQL.id sql))
                      (StoredSQLStore.sqls currentStore) |}, S g).
Proof.
  intros Hl Hb Hid Hm Hst. unfold updateSqlNodeMetrics.
  rewrite (runningSql_first _ _ _ _ _ Hl Hb Hid).
  assert (Hmatch : forall node,
            In node (StoredSparkSQL.nodes runningSql
                     ++ StoredSparkSQL.codegenNodes runningSql) ->
            matchedMetrics sqlMetrics node = []).
  { intros node Hin. unfold matchedMetrics. apply filter_none.
    intros nodeMetrics Hnm. apply Z.eqb_neq. now apply Hm. }
  assert (Hn : map (updateNode runningSql sqlMetrics) (StoredSparkSQL.nodes runningSql)
               = StoredSparkSQL.nodes runningSql).
  { apply map_fix. intros node Hin. unfold updateNode.
    rewrite Hmatch; [reflexivity | ]. apply in_or_app. now left. }
  assert (Hc : map (updateCodegenNode sqlMetrics) (StoredSparkSQL.codegenNodes runningSql)
               = StoredSparkSQL.codegenNodes runningSql).
  { apply map_fix. intros node Hin. unfold updateCodegenNode.
    rewrite Hmatch; [reflexivity | ]. apply in_or_app. now right. }
  rewrite Hn, Hc, (calculateNodeToStorageInfo_no_stage _ _ Hst).
  rewrite (map_fix (attachStorageInfo [])); [reflexivity | ].
  intros node _. reflexivity.
Qed.

End MetricUpdateFacts.


(* ================================================================== *)
(** ** The properties on the example executions *)
(* ================================================================== *)

Import Model.

(** The plan of section 8, io tier: the visible nodes are still in the
    graph, and the one edge returned joins two of them. *)
Lemma cleanUpDAG_endpoints_visible_witness :
  incl Example.ioNodes Example.planNodes /\
  cleanUpDAG Example.planEdges Example.planNodes Example.ioNodes = [Example.edge 0 3] /\
  (forall e,
     In e (cleanUpDAG Example.planEdges Example.planNodes Example.ioNodes) ->
     In (fromId e) (visibleIds Example.ioNodes) /\
     In (toId e) (visibleIds Example.ioNodes)) /\
  (forall node, In node Example.ioNodes ->
     Graphlib.hasNode
       (contractedGraph Example.planEdges Example.planNodes Example.ioNodes)
       (nodeKey node) = true).
Proof.
  assert (H : incl Example.ioNodes Example.planNodes).
  { intros x Hx. simpl in *. tauto. }
  split; [exact H | split; [vm_compute; reflexivity | ]].
  exact (cleanUpDAG_endpoints_visible Example.planEdges Example.planNodes
           Example.ioNodes H).
Defined.


(** Section 8 of the spec: inputs of 100 and 200 rows and an output of 50
    give "join rows filtered" = 25.00%. *)
Lemma addJoinMetrics_branches_witness :
  In (EnrichedSqlNode.nodeName (Example.joinNode "50"))
     ["BroadcastHashJoin"; "SortMergeJoin"; "ShuffleHashJoin"] /\
  Graphlib.inEdges (Example.joinGraph "50") (nodeKey (Example.joinNode "50"))
  = Some [Graphlib.mkEdge "1" "4"; Graphlib.mkEdge "3" "4"] /\
  joinInputRows (Example.joinGraph "50") (Example.joinNodes "50")
                (Graphlib.mkEdge "1" "4") = Some (QNum.ofZ 100) /\
  joinInputRows (Example.joinGraph "50") (Example.joinNodes "50")
                (Graphlib.mkEdge "3" "4") = Some (QNum.ofZ 200) /\
  Model.getRowsFromMetrics (Some (Example.rows "50")) = Some (QNum.ofZ 50) /\
  addJoinMetrics (Example.joinNode "50") (Example.rows "50")
                 (Example.joinGraph "50") (Example.joinNodes "50")
  = Some [ {| name := "join rows filtered"; value := "25.00%" |} ].
Proof.
  assert (H0 : In (EnrichedSqlNode.nodeName (Example.joinNode "50"))
                  ["BroadcastHashJoin"; "SortMergeJoin"; "ShuffleHashJoin"]).
  { simpl. tauto. }
  assert (H1 : Graphlib.inEdges (Example.joinGraph "50") (nodeKey (Example.joinNode "50"))
               = Some [Graphlib.mkEdge "1" "4"; Graphlib.mkEdge "3" "4"])
    by (vm_compute; reflexivity).
  assert (H2 : joinInputRows (Example.joinGraph "50") (Example.joinNodes "50")
                 (Graphlib.mkEdge "1" "4") = Some (QNum.ofZ 100))
    by (vm_compute; reflexivity).
  assert (H3 : joinInputRows (Example.joinGraph "50") (Example.joinNodes "50")
                 (Graphlib.mkEdge "3" "4") = Some (QNum.ofZ 200))
    by (vm_compute; reflexivity).
  assert (H4 : Model.getRowsFromMetrics (Some (Example.rows "50")) = Some (QNum.ofZ 50))
    by (vm_compute; reflexivity).
  repeat (split; [assumption | ]).
  pose proof (addJoinMetrics_branches (Example.joinNode "50") (Example.rows "50")
                (Example.joinGraph "50") (Example.joinNodes "50") _ _ _ _
                H0 H1 H2 H3) as T.
  match type of T with
  | match ?rows with Some _ => _ | None => _ end =>
      change rows with (Model.getRowsFromMetrics (Some (Example.rows "50"))) in T
  end.
  rewrite H4 in T. cbv beta iota zeta in T. rewrite T. vm_compute. reflexivity.
Defined.

(** The same join with an output of 500 rows: the ratio 2.5 exceeds 1. *)
Example addJoinMetrics_increase :
  addJoinMetrics (Example.joinNode "500") (Example.rows "500")
                 (Example.joinGraph "500") (Example.joinNodes "500")
  = Some [ {| name := "join rows increase ratio"; value := "2.5X" |} ].
Proof. vm_compute. reflexivity. Qed.

(** C6 as stated fails: a join of the same shape, with both inputs
    resolved, 100 and 200 rows, and no row count of its own yet, gets no
    metric at all. *)
Lemma join_output_rows_unresolved :
  In (EnrichedSqlNode.nodeName Scenario.bareJoin)
     ["BroadcastHashJoin"; "SortMergeJoin"; "ShuffleHashJoin"] /\
  Graphlib.inEdges Scenario.bareJoinGraph (nodeKey Scenario.bareJoin)
  = Some [Graphlib.mkEdge "1" "4"; Graphlib.mkEdge "3" "4"] /\
  joinInputRows Scenario.bareJoinGraph Scenario.bareJoinNodes
                (Graphlib.mkEdge "1" "4") = Some (QNum.ofZ 100) /\
  joinInputRows Scenario.bareJoinGraph Scenario.bareJoinNodes
                (Graphlib.mkEdge "3" "4") = Some (QNum.ofZ 200) /\
  addJoinMetrics Scenario.bareJoin
    (calcNodeMetrics (EnrichedSqlNode.type Scenario.bareJoin)
                     (EnrichedSqlNode.metrics Scenario.bareJoin))
    Scenario.bareJoinGraph Scenario.bareJoinNodes = None /\
  updateNodeMetrics Scenario.bareJoin (EnrichedSqlNode.metrics Scenario.bareJoin)
                    Scenario.bareJoinGraph Scenario.bareJoinNodes = [].
Proof.
  split; [simpl; tauto | ].
  repeat split; vm_compute; reflexivity.
Qed.

(** The Filter of the plan of section 8: 1,000 rows in, 1,000 rows out. *)
Lemma addFilterRatioMetric_guards_witness :
  (JS.includes (EnrichedSqlNode.nodeName Example.filterNode) "Filter" = true \/
   EnrichedSqlNode.enrichedName Example.filterNode = "Distinct") /\
  updateNodeMetrics Example.filterNode (Example.rows "1,000")
                    Example.planGraph Example.planNodes
  = [ {| name := "number of output rows"; value := "1,000" |};
      {| name := "Rows Filtered"; value := "0.00%" |} ].
Proof.
  assert (H0 : JS.includes (EnrichedSqlNode.nodeName Example.filterNode) "Filter" = true \/
               EnrichedSqlNode.enrichedName Example.filterNode = "Distinct").
  { left. vm_compute. reflexivity. }
  split; [exact H0 | ].
  pose proof (addFilterRatioMetric_guards Example.filterNode (Example.rows "1,000")
                Example.planGraph Example.planNodes H0) as T.
  cbv zeta in T. destruct T as [_ [_ [_ [_ T]]]].
  specialize (T {| name := "number of output rows"; value := "1,000" |}).
  assert (H1 : find (fun m => JS.includes (name m) "rows")
                    (calcNodeMetrics (EnrichedSqlNode.type Example.filterNode)
                                     (Example.rows "1,000"))
               = Some {| name := "number of output rows"; value := "1,000" |})
    by (vm_compute; reflexivity).
  assert (H2 : numEq (filterInputRows Example.filterNode Example.planGraph
                                      Example.planNodes) (ofZ 0) = false)
    by (vm_compute; reflexivity).
  assert (H3 : isNaN (parseFloat (JS.removeCommas "1,000")) = false)
    by (vm_compute; reflexivity).
  destruct (T H1 H2 H3) as [_ [_ T3]].
  rewrite T3 by (vm_compute; reflexivity).
  vm_compute. reflexivity.
Defined.

(** C7 as stated fails: the scan upstream of this Filter exposes 1,000
    rows, the Filter has no metric of its own yet, and no "Rows Filtered"
    metric is emitted. *)
Lemma rows_filtered_omitted :
  JS.includes (EnrichedSqlNode.nodeName Example.bareFilter) "Filter" = true /\
  (exists inputNode,
     Model.findLastNodeWithInputRows Example.bareFilter Example.bareGraph
                                     Example.bareNodes = Some inputNode /\
     Model.getRowsFromMetrics (Some (EnrichedSqlNode.metrics inputNode))
     = Some (QNum.ofZ 1000)) /\
  ~ (exists m,
       In m (updateNodeMetrics Example.bareFilter [] Example.bareGraph Example.bareNodes) /\
       name m = "Rows Filtered").
Proof.
  split; [vm_compute; reflexivity | split].
  - exists Example.scan. split; vm_compute; reflexivity.
  - intros [m [Hin _]]. vm_compute in Hin. exact Hin.
Qed.

(** An Exchange with a shuffle write time of 100 ms and a fetch wait time
    of 20 ms, and the same metrics under an alias name. *)
Lemma calcExchangeMetrics_split_witness :
  let metrics := [ {| name := "shuffle write time"; value := "100" |};
                   {| name := "fetch wait time"; value := "20" |} ] in
  "Exchange" = "Exchange" /\ "CometExchange" <> "Exchange" /\
  calcExchangeMetrics "Exchange" metrics
  = Some {| ExchangeMetrics.writeDuration := QNum.ofZ 100;
            ExchangeMetrics.readDuration := QNum.ofZ 20;
            ExchangeMetrics.duration := QNum.ofZ 120 |} /\
  calcExchangeMetrics "CometExchange" metrics = None.
Proof.
  intros metrics.
  assert (Hne : "CometExchange" <> "Exchange") by discriminate.
  split; [reflexivity | split; [exact Hne | split]].
  - destruct (calcExchangeMetrics_split "Exchange" metrics) as [He _].
    destruct (He eq_refl) as [x [Hx [Hw [Hr Hd]]]].
    rewrite Hx. destruct x as [wd rd d]. simpl in Hw, Hr, Hd. subst d wd rd.
    vm_compute. reflexivity.
  - destruct (calcExchangeMetrics_split "CometExchange" metrics) as [_ [Hn _]].
    exact (Hn Hne).
Defined.

(** A scan feeding an aggregate: neither is an output of its own, and the
    aggregate, the last node, is made the output. *)
Lemma forced_output_unique_witness :
  let graphNodes :=
    filter (fun node => negb (EnrichedSqlNode.isCodegenNode node))
           (typeEnrichedNodes Example.running None None) in
  (forall node, In node graphNodes -> isOutput node = false) /\
  (exists node, In node graphNodes /\ notAqeWrapper node = true) /\
  classifiedGraphNodes Example.running None None
  = JS.Normal [ Example.node 0 "Scan parquet" "input" (Example.rows "1,000");
                Example.node 1 "HashAggregate" "output" (Example.rows "10") ] /\
  exists before lastNode after,
    graphNodes = (before ++ lastNode :: after)%list /\
    notAqeWrapper lastNode = true /\
    (forall node, In node after -> notAqeWrapper node = false) /\
    classifiedGraphNodes Example.running None None
    = JS.Normal (before ++ withType lastNode "output" :: after)%list /\
    filter isOutput (before ++ withType lastNode "output" :: after)
    = [withType lastNode "output"].
Proof.
  intros graphNodes.
  assert (H1 : forall node, In node graphNodes -> isOutput node = false).
  { intros node Hin. vm_compute in Hin.
    destruct Hin as [<- | [<- | []]]; vm_compute; reflexivity. }
  assert (H2 : exists node, In node graphNodes /\ notAqeWrapper node = true).
  { exists (Example.node 0 "Scan parquet" "input" (Example.rows "1,000")).
    split; [vm_compute; left; reflexivity | vm_compute; reflexivity]. }
  split; [exact H1 | split; [exact H2 | split; [vm_compute; reflexivity | ]]].
  exact (forced_output_unique Example.running None None H1 H2).
Defined.

(** C9 as stated fails: an execution without nodes, or with a wrapper
    node only, has no node classified as output and none to force;
    [calculateSql] throws. *)
Lemma no_node_to_force :
  (forall node,
     In node (filter (fun node => negb (EnrichedSqlNode.isCodegenNode node))
                     (typeEnrichedNodes Example.noNodes None None)) ->
     isOutput node = false) /\
  ~ (exists l, classifiedGraphNodes Example.noNodes None None = JS.Normal l /\
               List.length (filter isOutput l) = 1%nat) /\
  calculateSql Example.noNodes None None tt 0%nat = JS.Throw JS.TypeError /\
  calculateSql Example.wrapperOnly None None tt 0%nat = JS.Throw JS.TypeError.
Proof.
  split; [intros node [] | split; [ | split; vm_compute; reflexivity]].
  intros [l [H _]]. vm_compute in H. discriminate H.
Qed.

(** A CometFilter node with a plan description. *)
Lemma parseNodePlan_CometFilter_witness :
  let node := Example.rawNode 5 "CometFilter" [] in
  let plan := {| SQLNodePlan.id := 5;
                 SQLNodePlan.planDescription := "CometFilter (x > 1)";
                 SQLNodePlan.rddScopeId := None |} in
  nodeNameOf node = "CometFilter" /\
  parseNodePlan node plan
  = Some {| ParsedNodePlan.type := Filter;
            ParsedNodePlan.plan := "CometFilter (x > 1)" |} /\
  (forall r, parseNodePlan node plan = Some r -> ParsedNodePlan.type r <> Project).
Proof.
  intros node plan.
  assert (H : nodeNameOf node = "CometFilter") by reflexivity.
  destruct (parseNodePlan_CometFilter node plan H) as [T1 [T2 _]].
  split; [exact H | split; [ | exact T2]].
  rewrite T1. vm_compute. reflexivity.
Defined.

(** Execution 1 is stored Running with two nodes; a later Running
    snapshot has the same two nodes and a longer duration. *)
Lemma running_update_frame_witness :
  exists currentSql,
    findNewSql [Example.runningLater] (JS.Int 1) = Some Example.runningLater /\
    findCurrentSql (Example.firstStore Example.running) (JS.Int 1) = Some currentSql /\
    SparkSQL.status Example.runningLater <> SqlStatus.Completed /\
    SparkSQL.status Example.runningLater <> SqlStatus.Failed /\
    EnrichedSparkSQL.originalNumOfNodes currentSql
    = List.length (SparkSQL.nodes Example.runningLater) /\
    exists r,
      calculateSqlStore (Some (Example.firstStore Example.running))
                        [Example.runningLater] [] Example.noIceberg tt 2%nat
      = JS.Normal ({| SparkSQLStore.sqls := [r] |}, 2%nat) /\
      EnrichedSparkSQL.duration r = QNum.ofZ 25 /\
      EnrichedSparkSQL.nodes r = EnrichedSparkSQL.nodes currentSql /\
      EnrichedSparkSQL.filters r = EnrichedSparkSQL.filters currentSql /\
      EnrichedSparkSQL.uniqueId r = EnrichedSparkSQL.uniqueId currentSql.
Proof.
  remember (findCurrentSql (Example.firstStore Example.running) (JS.Int 1)) as o eqn:Hcur.
  destruct o as [cur | ]; [ | vm_compute in Hcur; discriminate Hcur].
  symmetry in Hcur. exists cur.
  assert (H1 : findNewSql [Example.runningLater] (JS.Int 1) = Some Example.runningLater)
    by (vm_compute; reflexivity).
  assert (H3 : SparkSQL.status Example.runningLater <> SqlStatus.Completed)
    by discriminate.
  assert (H4 : SparkSQL.status Example.runningLater <> SqlStatus.Failed)
    by discriminate.
  assert (H5 : EnrichedSparkSQL.originalNumOfNodes cur
               = List.length (SparkSQL.nodes Example.runningLater)).
  { pose proof Hcur as E. vm_compute in E. injection E as <-. reflexivity. }
  repeat (split; [assumption || reflexivity | ]).
  destruct (running_update_frame (Example.firstStore Example.running)
              [Example.runningLater] [] Example.noIceberg tt (JS.Int 1)
              Example.runningLater cur H1 Hcur H3 H4 H5)
    as [r [Hm [_ [Hd [_ [_ [_ [Hn [_ [Hf [Hu _]]]]]]]]]]].
  exists r. split; [ | repeat split; assumption].
  rewrite calculateSqlStore_pushes. cbn [map mapM]. unfold bind.
  change (JS.parseInt (SparkSQL.id Example.runningLater)) with (JS.Int 1).
  rewrite Hm. unfold ret. vm_compute. reflexivity.
Defined.

(** Execution 1 is stored Running with two nodes; the plan is
    re-optimised and a later Running snapshot has three.  The store
    returned holds an execution of three nodes with another identity, and
    no longer the stored one. *)
Lemma restructure_replaces_identity_witness :
  exists currentSql store',
    findNewSql [Example.replanned] (JS.Int 1) = Some Example.replanned /\
    findCurrentSql (Example.firstStore Example.running) (JS.Int 1) = Some currentSql /\
    SparkSQL.status Example.replanned <> SqlStatus.Completed /\
    SparkSQL.status Example.replanned <> SqlStatus.Failed /\
    EnrichedSparkSQL.originalNumOfNodes currentSql
    <> List.length (SparkSQL.nodes Example.replanned) /\
    (EnrichedSparkSQL.uniqueId currentSql < 2)%nat /\
    calculateSqlStore (Some (Example.firstStore Example.running))
                      [Example.replanned] [] Example.noIceberg tt 2%nat
    = JS.Normal (store', 4%nat) /\
    (exists r,
       In r (SparkSQLStore.sqls store') /\
       EnrichedSparkSQL.uniqueId r <> EnrichedSparkSQL.uniqueId currentSql /\
       EnrichedSparkSQL.status r = SqlStatus.Running /\
       EnrichedSparkSQL.originalNumOfNodes r = 3%nat) /\
    ~ In currentSql (SparkSQLStore.sqls store').
Proof.
  remember (findCurrentSql (Example.firstStore Example.running) (JS.Int 1)) as o eqn:Hcur.
  destruct o as [cur | ]; [ | vm_compute in Hcur; discriminate Hcur].
  symmetry in Hcur.
  remember (calculateSqlStore (Some (Example.firstStore Example.running))
              [Example.replanned] [] Example.noIceberg tt 2%nat) as c eqn:Hs.
  destruct c as [[store' g'] | ]; [ | vm_compute in Hs; discriminate Hs].
  symmetry in Hs.
  assert (Hg : g' = 4%nat).
  { pose proof Hs as E. vm_compute in E. now injection E as _ <-. }
  subst g'. exists cur, store'.
  assert (H1 : findNewSql [Example.replanned] (JS.Int 1) = Some Example.replanned)
    by (vm_compute; reflexivity).
  assert (H3 : SparkSQL.status Example.replanned <> SqlStatus.Completed)
    by discriminate.
  assert (H4 : SparkSQL.status Example.replanned <> SqlStatus.Failed)
    by discriminate.
  assert (H5 : EnrichedSparkSQL.originalNumOfNodes cur
               <> List.length (SparkSQL.nodes Example.replanned)).
  { pose proof Hcur as E. vm_compute in E. injection E as <-. discriminate. }
  assert (H6 : (EnrichedSparkSQL.uniqueId cur < 2)%nat).
  { pose proof Hcur as E. vm_compute in E. injection E as <-. simpl. lia. }
  repeat (split; [assumption || reflexivity | ]).
  destruct (restructure_replaces_identity (Example.firstStore Example.running)
              [Example.replanned] [] Example.noIceberg tt (JS.Int 1)
              Example.replanned cur 2%nat H1 Hcur H3 H4 H5 H6)
    as [_ [_ Hstore]].
  destruct (Hstore store' 4%nat Hs) as [[r [gi [_ [_ [Hin [_ [Hu [Hst Hn]]]]]]]] [Hgone _]].
  split; [ | exact Hgone].
  exists r. repeat split; assumption.
Defined.

(** C4 as stated fails: after the re-optimisation the execution carries
    the token 2, not the token 0 it was given when first computed. *)
Lemma identity_not_retained :
  exists stored,
    findCurrentSql (Example.firstStore Example.running) (JS.Int 1) = Some stored /\
    EnrichedSparkSQL.status stored = SqlStatus.Running /\
    SparkSQL.status Example.replanned = SqlStatus.Running /\
    EnrichedSparkSQL.originalNumOfNodes stored
    <> List.length (SparkSQL.nodes Example.replanned) /\
    match calculateSqlStore (Some (Example.firstStore Example.running))
                            [Example.replanned] [] Example.noIceberg tt 2%nat with
    | JS.Normal (store', _) =>
        option_map EnrichedSparkSQL.uniqueId (findCurrentSql store' (JS.Int 1))
        <> Some (EnrichedSparkSQL.uniqueId stored)
    | JS.Throw _ => False
    end.
Proof.
  remember (findCurrentSql (Example.firstStore Example.running) (JS.Int 1)) as o eqn:Hcur.
  destruct o as [cur | ]; [ | vm_compute in Hcur; discriminate Hcur].
  exists cur. vm_compute in Hcur. injection Hcur as ->.
  split; [reflexivity | split; [reflexivity | split; [reflexivity | split]]].
  - discriminate.
  - vm_compute. discriminate.
Qed.

(** Execution 1 is stored Completed; the next batch holds it again, still
    Completed.  The store returned holds a recomputed execution with
    another identity, and no longer the stored one. *)
Lemma terminal_snapshot_replaces_stored_witness :
  exists currentSql store',
    findNewSql [Example.completed] (JS.Int 1) = Some Example.completed /\
    findCurrentSql (Example.firstStore Example.completed) (JS.Int 1) = Some currentSql /\
    (SparkSQL.status Example.completed = SqlStatus.Completed \/
     SparkSQL.status Example.completed = SqlStatus.Failed) /\
    (EnrichedSparkSQL.uniqueId currentSql < 2)%nat /\
    EnrichedSparkSQL.status currentSql = SqlStatus.Completed /\
    calculateSqlStore (Some (Example.firstStore Example.completed))
                      [Example.completed] [] Example.noIceberg tt 2%nat
    = JS.Normal (store', 4%nat) /\
    (exists r,
       In r (SparkSQLStore.sqls store') /\
       EnrichedSparkSQL.uniqueId r <> EnrichedSparkSQL.uniqueId currentSql /\
       EnrichedSparkSQL.status r = SqlStatus.Completed) /\
    ~ In currentSql (SparkSQLStore.sqls store').
Proof.
  remember (findCurrentSql (Example.firstStore Example.completed) (JS.Int 1)) as o eqn:Hcur.
  destruct o as [cur | ]; [ | vm_compute in Hcur; discriminate Hcur].
  symmetry in Hcur.
  remember (calculateSqlStore (Some (Example.firstStore Example.completed))
              [Example.completed] [] Example.noIceberg tt 2%nat) as c eqn:Hs.
  destruct c as [[store' g'] | ]; [ | vm_compute in Hs; discriminate Hs].
  symmetry in Hs.
  assert (Hg : g' = 4%nat).
  { pose proof Hs as E. vm_compute in E. now injection E as _ <-. }
  subst g'. exists cur, store'.
  assert (H1 : findNewSql [Example.completed] (JS.Int 1) = Some Example.completed)
    by (vm_compute; reflexivity).
  assert (H3 : SparkSQL.status Example.completed = SqlStatus.Completed \/
               SparkSQL.status Example.completed = SqlStatus.Failed)
    by (left; reflexivity).
  assert (H4 : (EnrichedSparkSQL.uniqueId cur < 2)%nat).
  { pose proof Hcur as E. vm_compute in E. injection E as <-. simpl. lia. }
  assert (H5 : EnrichedSparkSQL.status cur = SqlStatus.Completed).
  { pose proof Hcur as E. vm_compute in E. injection E as <-. reflexivity. }
  repeat (split; [assumption || reflexivity | ]).
  destruct (terminal_snapshot_replaces_stored (Example.firstStore Example.completed)
              [Example.completed] [] Example.noIceberg tt (JS.Int 1)
              Example.completed cur 2%nat H1 Hcur H3 H4)
    as [_ [_ [Hstore _]]].
  destruct (Hstore store' 4%nat Hs) as [[r [gi [_ [_ [Hin [_ [Hu [Hst _]]]]]]]] [Hgone _]].
  split; [ | exact Hgone].
  exists r. repeat split; assumption.
Defined.

(** C2 as stated fails: execution 1 is stored Completed, the same
    Completed snapshot comes again, and the execution in the store
    returned is not the stored one. *)
Lemma terminal_execution_replaced :
  exists stored,
    findCurrentSql (Example.firstStore Example.completed) (JS.Int 1) = Some stored /\
    EnrichedSparkSQL.status stored = SqlStatus.Completed /\
    match calculateSqlStore (Some (Example.firstStore Example.completed))
                            [Example.completed] [] Example.noIceberg tt 2%nat with
    | JS.Normal (store', _) => findCurrentSql store' (JS.Int 1) <> Some stored
    | JS.Throw _ => False
    end.
Proof.
  remember (findCurrentSql (Example.firstStore Example.completed) (JS.Int 1)) as o eqn:Hcur.
  destruct o as [cur | ]; [ | vm_compute in Hcur; discriminate Hcur].
  exists cur. vm_compute in Hcur. injection Hcur as ->.
  split; [reflexivity | split; [reflexivity | ]].
  vm_compute. discriminate.
Qed.


(* ================================================================== *)
(** ** The further properties on the example executions *)
(* ================================================================== *)

Import Scenario.

(** The io tier of the plan of section 8: its one edge, from the scan to
    the aggregate, stands for the path 0 -> 1 -> 2 -> 3. *)
Lemma cleanUpDAG_sound_witness :
  In (Example.edge 0 3)
     (cleanUpDAG Example.planEdges Example.planNodes Example.ioNodes) /\
  clos_trans _ (fun a b => In {| fromId := a; toId := b |} Example.planEdges)
             (JS.Int 0) (JS.Int 3).
Proof.
  assert (H : In (Example.edge 0 3)
                 (cleanUpDAG Example.planEdges Example.planNodes Example.ioNodes)).
  { vm_compute. left. reflexivity. }
  split; [exact H | ].
  exact (cleanUpDAG_sound Example.planEdges Example.planNodes Example.ioNodes
           (Example.edge 0 3) H).
Defined.

(** With the Exchange hidden, the edge from the scan to the filter
    stays. *)
Lemma cleanUpDAG_keeps_visible_edges_witness :
  In Example.scan Scenario.withoutExchange /\
  In Example.filterNode Scenario.withoutExchange /\
  In (Example.edge 0 1) Example.planEdges /\
  In (Example.edge 0 1)
     (cleanUpDAG Example.planEdges Example.planNodes Scenario.withoutExchange).
Proof.
  assert (H1 : In Example.scan Scenario.withoutExchange) by (left; reflexivity).
  assert (H2 : In Example.filterNode Scenario.withoutExchange)
    by (right; left; reflexivity).
  assert (H3 : In {| fromId := JS.Int (EnrichedSqlNode.nodeId Example.scan);
                     toId := JS.Int (EnrichedSqlNode.nodeId Example.filterNode) |}
                  Example.planEdges) by (left; reflexivity).
  split; [exact H1 | split; [exact H2 | split; [exact H3 | ]]].
  exact (cleanUpDAG_keeps_visible_edges Example.planEdges Example.planNodes
           Scenario.withoutExchange Example.scan Example.filterNode H1 H2 H3).
Defined.

(** With the Exchange hidden, the filter is joined to the aggregate. *)
Lemma cleanUpDAG_bypass_witness :
  notVisible Example.planNodes Scenario.withoutExchange = [Example.exchange] /\
  find (fun e => JS.strictEq (fromId e) (JS.Int 2)) Example.planEdges
  = Some (Example.edge 2 3) /\
  cleanUpDAG Example.planEdges Example.planNodes Scenario.withoutExchange
  = [Example.edge 0 1; Example.edge 1 3] /\
  In (Example.edge 1 3)
     (cleanUpDAG Example.planEdges Example.planNodes Scenario.withoutExchange).
Proof.
  assert (H0 : notVisible Example.planNodes Scenario.withoutExchange = [Example.exchange])
    by (vm_compute; reflexivity).
  assert (H1 : In Example.filterNode Scenario.withoutExchange)
    by (right; left; reflexivity).
  assert (H2 : In Example.aggregate Scenario.withoutExchange)
    by (right; right; left; reflexivity).
  assert (H3 : In {| fromId := JS.Int (EnrichedSqlNode.nodeId Example.filterNode);
                     toId := JS.Int (EnrichedSqlNode.nodeId Example.exchange) |}
                  Example.planEdges) by (right; left; reflexivity).
  assert (H4 : find (fun e => JS.strictEq (fromId e)
                                (JS.Int (EnrichedSqlNode.nodeId Example.exchange)))
                    Example.planEdges = Some (Example.edge 2 3))
    by (vm_compute; reflexivity).
  assert (H5 : toId (Example.edge 2 3)
               = JS.Int (EnrichedSqlNode.nodeId Example.aggregate)) by reflexivity.
  split; [exact H0 | split; [exact H4 | split; [vm_compute; reflexivity | ]]].
  exact (cleanUpDAG_bypass Example.planEdges Example.planNodes Scenario.withoutExchange
           Example.filterNode Example.exchange Example.aggregate (Example.edge 2 3)
           H0 H1 H2 H3 H4 H5).
Defined.

(** All four nodes visible: the three edges come back as they are. *)
Lemma cleanUpDAG_nothing_hidden_witness :
  notVisible Example.planNodes Example.planNodes = [] /\
  NoDup Example.planEdges /\
  cleanUpDAG Example.planEdges Example.planNodes Example.planNodes = Example.planEdges.
Proof.
  assert (H0 : notVisible Example.planNodes Example.planNodes = [])
    by (vm_compute; reflexivity).
  assert (H1 : NoDup Example.planEdges).
  { repeat constructor; simpl; intuition discriminate. }
  split; [exact H0 | split; [exact H1 | ]].
  rewrite (cleanUpDAG_nothing_hidden Example.planEdges Example.planNodes
             Example.planNodes H0 H1).
  vm_compute. reflexivity.
Defined.

(** A scan and a join that the switch does not list. *)
Lemma parseNodePlan_fallback_witness :
  JS.includes (SqlNode.nodeName Scenario.orcScan) "Scan" = true /\
  parseNodePlan Scenario.orcScan Scenario.nodePlan
  = Some {| ParsedNodePlan.type := FileScan; ParsedNodePlan.plan := "(1) operator" |} /\
  parseNodePlan Scenario.hashJoin Scenario.nodePlan
  = Some {| ParsedNodePlan.type := Join; ParsedNodePlan.plan := "(1) operator" |}.
Proof.
  assert (H0 : JS.includes (nodeNameOf Scenario.orcScan) "Scan" = true)
    by (vm_compute; reflexivity).
  assert (H1 : JS.includes (nodeNameOf Scenario.hashJoin) "Scan" = false)
    by (vm_compute; reflexivity).
  assert (H2 : JS.includes (nodeNameOf Scenario.hashJoin) "Join" = true)
    by (vm_compute; reflexivity).
  split; [exact H0 | split].
  - rewrite (proj1 (parseNodePlan_fallback Scenario.orcScan Scenario.nodePlan) H0).
    vm_compute. reflexivity.
  - rewrite (proj1 (proj2 (parseNodePlan_fallback Scenario.hashJoin Scenario.nodePlan))
               H1 H2).
    vm_compute. reflexivity.
Defined.

(** An Exchange: the broadcast duration is undefined whatever metrics it
    has; a BroadcastExchange: only "time to broadcast" counts. *)
Lemma calcBroadcastExchangeDuration_broadcast_only_witness :
  calcBroadcastExchangeDuration "BroadcastExchange"
    [ {| name := "time to build"; value := "30" |};
      {| name := "time to broadcast"; value := "12" |};
      {| name := "time to collect"; value := "50" |} ]
  = Some (QNum.ofZ 12).
Proof.
  rewrite (proj2 (calcBroadcastExchangeDuration_broadcast_only "BroadcastExchange" _)).
  vm_compute. reflexivity.
Defined.

(** 100 rows times 200 rows scanned, 5,000 out. *)
Lemma addCrossJoinFilterRatioMetric_branches_witness :
  In (EnrichedSqlNode.nodeName Scenario.crossJoin)
     ["BroadcastNestedLoopJoin"; "CartesianProduct"] /\
  Graphlib.inEdges Scenario.crossGraph (nodeKey Scenario.crossJoin)
  = Some [Graphlib.mkEdge "0" "2"; Graphlib.mkEdge "1" "2"] /\
  addCrossJoinFilterRatioMetric Scenario.crossJoin (Example.rows "5,000")
                                Scenario.crossGraph Scenario.crossNodes
  = Some [ {| name := "Cross Join Scanned Rows"; value := "20000" |};
           {| name := "Rows Filtered"; value := "75.00%" |} ].
Proof.
  assert (H0 : In (EnrichedSqlNode.nodeName Scenario.crossJoin)
                  ["BroadcastNestedLoopJoin"; "CartesianProduct"])
    by (right; left; reflexivity).
  assert (H1 : Graphlib.inEdges Scenario.crossGraph (nodeKey Scenario.crossJoin)
               = Some [Graphlib.mkEdge "0" "2"; Graphlib.mkEdge "1" "2"])
    by (vm_compute; reflexivity).
  split; [exact H0 | split; [exact H1 | ]].
  pose proof (proj2 (proj2 (addCrossJoinFilterRatioMetric_branches Scenario.crossJoin
                              (Example.rows "5,000") Scenario.crossGraph
                              Scenario.crossNodes))
                (Graphlib.mkEdge "0" "2") (Graphlib.mkEdge "1" "2")
                (QNum.ofZ 100) (QNum.ofZ 200) (QNum.ofZ 5000) H0 H1) as T.
  rewrite T; vm_compute; reflexivity.
Defined.

(** The Exchange of the plan of section 8 gets no derived metric. *)
Lemma updateNodeMetrics_extends_witness :
  updateNodeMetrics Example.exchange (Example.rows "1,000")
                    Example.planGraph Example.planNodes
  = Example.rows "1,000".
Proof.
  destruct (updateNodeMetrics_extends Example.exchange (Example.rows "1,000")
              Example.planGraph Example.planNodes) as [derived [E [_ [_ Hnone]]]].
  rewrite E, Hnone.
  - vm_compute. reflexivity.
  - vm_compute. reflexivity.
  - discriminate.
  - simpl. intuition discriminate.
Defined.

(** "WholeStageCodegen (1)" is codegen node 1. *)
Lemma typeEnrich_codegen_id_witness :
  SqlNode.nodeName Scenario.codegenNode
  = "WholeStageCodegen (" ++ JS.toString (JS.Int 1) ++ ")" /\
  EnrichedSqlNode.wholeStageCodegenId
    (typeEnrich (Imp := Model.imports) Scenario.withCodegen None None Scenario.codegenNode)
  = Some (JS.Int 1).
Proof.
  assert (H : SqlNode.nodeName Scenario.codegenNode
              = "WholeStageCodegen (" ++ JS.toString (JS.Int 1) ++ ")")
    by (vm_compute; reflexivity).
  split; [exact H | ].
  exact (proj2 (typeEnrich_codegen_id (Imp := Model.imports) Scenario.withCodegen None None
                  Scenario.codegenNode 1 H)).
Defined.

(** A codegen node, a scan and an aggregate: two graph nodes, one
    codegen node. *)
Lemma calculateSql_partition_witness :
  exists r,
    calculateSql (Imp := Model.imports) Scenario.withCodegen None None tt 0%nat = JS.Normal (r, 2%nat) /\
    map EnrichedSqlNode.nodeId (EnrichedSparkSQL.nodes r) = [1; 2] /\
    map EnrichedSqlNode.nodeId (EnrichedSparkSQL.codegenNodes r) = [0] /\
    EnrichedSparkSQL.originalNumOfNodes r = 3%nat.
Proof.
  remember (calculateSql (Imp := Model.imports) Scenario.withCodegen None None tt 0%nat) as o eqn:Hr.
  destruct o as [[r g'] | ]; [ | vm_compute in Hr; discriminate Hr].
  symmetry in Hr.
  assert (Hg : g' = 2%nat).
  { pose proof Hr as E. vm_compute in E. now injection E as _ <-. }
  subst g'. exists r. split; [reflexivity | ].
  destruct (calculateSql_partition (Imp := Model.imports) Scenario.withCodegen None None tt 0%nat 2%nat r Hr)
    as [H1 [H2 [H3 _]]].
  rewrite H1, H2, <- H3, <- (length_map EnrichedSqlNode.nodeId (EnrichedSparkSQL.nodes r)),
    <- (length_map EnrichedSqlNode.nodeId (EnrichedSparkSQL.codegenNodes r)), H1, H2.
  vm_compute. repeat split; reflexivity.
Defined.

(** An execution without nodes, and one with a wrapper only. *)
Lemma calculateSql_throws_witness :
  calculateSql (Imp := Model.imports) Example.noNodes None None tt 0%nat = JS.Throw JS.TypeError /\
  calculateSql (Imp := Model.imports) Example.wrapperOnly None None tt 0%nat = JS.Throw JS.TypeError.
Proof.
  split.
  - exact (proj2 (proj2 (calculateSql_throws (Imp := Model.imports) Example.noNodes None None tt 0%nat))
             eq_refl).
  - apply (proj1 (calculateSql_throws (Imp := Model.imports) Example.wrapperOnly None None tt 0%nat)).
    intros node Hin. vm_compute in Hin. destruct Hin as [<- | []].
    split; vm_compute; reflexivity.
Defined.

(** A scan and an aggregate, neither an output of its own: the
    aggregate is the output, in every tier. *)
Lemma calculateSql_has_output_witness :
  exists r node,
    calculateSql (Imp := Model.imports) Example.completed None None tt 0%nat = JS.Normal (r, 2%nat) /\
    In node (EnrichedSparkSQL.nodes r) /\
    EnrichedSqlNode.type node = "output" /\
    In (EnrichedSqlNode.nodeId node)
       (Tier.nodesIds (Filters.io (EnrichedSparkSQL.filters r))).
Proof.
  remember (calculateSql (Imp := Model.imports) Example.completed None None tt 0%nat) as o eqn:Hr.
  destruct o as [[r g'] | ]; [ | vm_compute in Hr; discriminate Hr].
  symmetry in Hr.
  assert (Hg : g' = 2%nat).
  { pose proof Hr as E. vm_compute in E. now injection E as _ <-. }
  subst g'.
  destruct (calculateSql_has_output (Imp := Model.imports) Example.completed None None tt 0%nat 2%nat r Hr)
    as [node [H1 [H2 [H3 _]]]].
  exists r, node. auto.
Defined.

(** The same execution: the io tier is within the basic tier, and its
    edges are between its ids. *)
Lemma calculateSql_tiers_witness :
  exists r,
    calculateSql (Imp := Model.imports) Example.completed None None tt 0%nat = JS.Normal (r, 2%nat) /\
    incl (Tier.nodesIds (Filters.io (EnrichedSparkSQL.filters r)))
         (Tier.nodesIds (Filters.basic (EnrichedSparkSQL.filters r))) /\
    forall e, In e (Tier.edges (Filters.io (EnrichedSparkSQL.filters r))) ->
      In (fromId e) (map JS.Int (Tier.nodesIds (Filters.io (EnrichedSparkSQL.filters r)))).
Proof.
  remember (calculateSql (Imp := Model.imports) Example.completed None None tt 0%nat) as o eqn:Hr.
  destruct o as [[r g'] | ]; [ | vm_compute in Hr; discriminate Hr].
  symmetry in Hr.
  assert (Hg : g' = 2%nat).
  { pose proof Hr as E. vm_compute in E. now injection E as _ <-. }
  subst g'. exists r. split; [reflexivity | ].
  destruct (calculateSql_tiers (Imp := Model.imports) Example.completed None None tt 0%nat 2%nat r Hr)
    as [H1 [_ [_ H4]]].
  split; [exact H1 | ]. intros e He.
  apply (H4 (Filters.io (EnrichedSparkSQL.filters r)) e); [now left | exact He].
Defined.

(** A commit for an execution of two nodes, none an output of its own:
    no node carries it. *)
Lemma forced_output_no_commit_witness :
  exists r,
    calculateSql (Imp := Model.imports) Example.completed None (Some Scenario.commit) tt 0%nat
    = JS.Normal (r, 2%nat) /\
    forall node, In node (EnrichedSparkSQL.nodes r) ->
      EnrichedSqlNode.icebergCommit node = None.
Proof.
  remember (calculateSql (Imp := Model.imports) Example.completed None (Some Scenario.commit) tt 0%nat)
    as o eqn:Hr.
  destruct o as [[r g'] | ]; [ | vm_compute in Hr; discriminate Hr].
  symmetry in Hr.
  assert (Hg : g' = 2%nat).
  { pose proof Hr as E. vm_compute in E. now injection E as _ <-. }
  subst g'. exists r. split; [reflexivity | ].
  assert (Hlen : List.length (SparkSQL.nodes Example.completed) <> 1%nat)
    by (vm_compute; discriminate).
  pose proof (forced_output_no_commit (Imp := Model.imports) Example.completed None (Some Scenario.commit)
                tt 0%nat 2%nat r Hr Hlen) as T.
  intros node Hin. apply T; [ | now left].
  intros n Hn. vm_compute in Hn. destruct Hn as [<- | [<- | []]]; vm_compute; discriminate.
Defined.

(** Three snapshots, the generator starting at 0: executions 1, 2, 3
    with the identities 0, 2, 4 and the update tokens 1, 3, 5. *)
Lemma calculateSqlStore_first_witness :
  exists store',
    calculateSqlStore None Scenario.threeSnapshots [] Example.noIceberg tt 0%nat
    = JS.Normal (store', 6%nat) /\
    map EnrichedSparkSQL.id (SparkSQLStore.sqls store') = ["1"; "2"; "3"] /\
    NoDup (map EnrichedSparkSQL.uniqueId (SparkSQLStore.sqls store')
           ++ map EnrichedSparkSQL.metricUpdateId (SparkSQLStore.sqls store'))%list.
Proof.
  remember (calculateSqlStore None Scenario.threeSnapshots [] Example.noIceberg tt 0%nat)
    as o eqn:Hs.
  destruct o as [[store' g'] | ]; [ | vm_compute in Hs; discriminate Hs].
  symmetry in Hs.
  assert (Hg : g' = 6%nat).
  { pose proof Hs as E. vm_compute in E. now injection E as _ <-. }
  subst g'. exists store'. split; [reflexivity | ].
  destruct (calculateSqlStore_first Scenario.threeSnapshots [] Example.noIceberg tt
              0%nat 6%nat store' Hs) as [H1 [H2 _]].
  split; [rewrite H1; reflexivity | exact H2].
Defined.

(** Executions 1, 2, 3 stored; a batch for 2 and 3: execution 1 is kept
    in front of them. *)
Lemma calculateSqlStore_ids_witness :
  exists store' g',
    calculateSqlStore (Some Scenario.threeStore)
      [Scenario.execution "2" SqlStatus.Running; Scenario.execution "3" SqlStatus.Completed]
      [] Example.noIceberg tt 6%nat
    = JS.Normal (store', g') /\
    map (fun sql => JS.parseInt (EnrichedSparkSQL.id sql)) (SparkSQLStore.sqls store')
    = [JS.Int 1; JS.Int 2; JS.Int 3].
Proof.
  remember (calculateSqlStore (Some Scenario.threeStore)
              [Scenario.execution "2" SqlStatus.Running;
               Scenario.execution "3" SqlStatus.Completed]
              [] Example.noIceberg tt 6%nat) as o eqn:Hs.
  destruct o as [[store' g'] | ]; [ | vm_compute in Hs; discriminate Hs].
  symmetry in Hs. exists store', g'. split; [reflexivity | ].
  rewrite (calculateSqlStore_ids _ _ _ _ _ _ _ _ Hs).
  vm_compute. reflexivity.
Defined.

(** The same store and batch: the order is kept. *)
Lemma calculateSqlStore_sorted_witness :
  exists store' g',
    calculateSqlStore (Some Scenario.threeStore)
      [Scenario.execution "2" SqlStatus.Running; Scenario.execution "3" SqlStatus.Completed]
      [] Example.noIceberg tt 6%nat
    = JS.Normal (store', g') /\
    StronglySorted (fun a b => JS.lt a b = true)
      (map (fun sql => JS.parseInt (EnrichedSparkSQL.id sql)) (SparkSQLStore.sqls store')).
Proof.
  remember (calculateSqlStore (Some Scenario.threeStore)
              [Scenario.execution "2" SqlStatus.Running;
               Scenario.execution "3" SqlStatus.Completed]
              [] Example.noIceberg tt 6%nat) as o eqn:Hs.
  destruct o as [[store' g'] | ]; [ | vm_compute in Hs; discriminate Hs].
  symmetry in Hs. exists store', g'. split; [reflexivity | ].
  refine (calculateSqlStore_sorted _ _ _ _ _ _ _ _ _ _ Hs).
  - vm_compute. repeat constructor.
  - vm_compute. repeat constructor.
Defined.

(** An empty batch leaves the store of three as it is. *)
Lemma calculateSqlStore_empty_batch_witness :
  calculateSqlStore (Some Scenario.threeStore) [] [] Example.noIceberg tt 6%nat
  = JS.Normal (Scenario.threeStore, 6%nat).
Proof.
  apply (proj2 (calculateSqlStore_empty_batch Scenario.threeStore [] Example.noIceberg
                  tt 6%nat)).
  intros sql Hin. vm_compute in Hin.
  destruct Hin as [<- | [<- | [<- | []]]]; eexists; vm_compute; reflexivity.
Defined.

(** A snapshot whose id is not a number. *)
Lemma calculateSqlStore_unparsable_id_witness :
  JS.parseInt (SparkSQL.id (Scenario.execution "latest" SqlStatus.Running)) = JS.NaN /\
  calculateSqlStore (Some Scenario.threeStore)
    [Scenario.execution "latest" SqlStatus.Running] [] Example.noIceberg tt 6%nat
  = JS.Throw JS.TypeError.
Proof.
  assert (H : JS.parseInt (SparkSQL.id (Scenario.execution "latest" SqlStatus.Running))
              = JS.NaN) by (vm_compute; reflexivity).
  split; [exact H | ].
  exact (calculateSqlStore_unparsable_id Scenario.threeStore
           [Scenario.execution "latest" SqlStatus.Running] [] Example.noIceberg tt 6%nat
           (Scenario.execution "latest" SqlStatus.Running) (or_introl eq_refl) H).
Defined.

(** Two scans of stage 5 and one cached RDD: the first scan gets it. *)
Lemma calculateNodeToStorageInfo_sound_witness :
  calculateNodeToStorageInfo Scenario.stages Scenario.cacheNodes
  = [ {| NodeStorageInfo.nodeId := 0; NodeStorageInfo.storageInfo := Some "rdd 12" |};
      {| NodeStorageInfo.nodeId := 2; NodeStorageInfo.storageInfo := None |} ] /\
  exists stage cachedStorage index node,
    In stage Scenario.stages /\
    SparkStage.cachedStorage stage = Some cachedStorage /\
    nth_error (filter (isCacheNode stage) Scenario.cacheNodes) index = Some node /\
    EnrichedSqlNode.nodeId (StoredSqlNode.node node) = 2 /\
    nth_error cachedStorage index = None.
Proof.
  split; [vm_compute; reflexivity | ].
  assert (H : In {| NodeStorageInfo.nodeId := 2; NodeStorageInfo.storageInfo := None |}
                 (calculateNodeToStorageInfo Scenario.stages Scenario.cacheNodes)).
  { vm_compute. right. left. reflexivity. }
  destruct (calculateNodeToStorageInfo_sound _ _ _ H)
    as [stage [cs [index [node [nodeStage [H1 [H2 [H3 [_ [_ [_ [_ [_ [H4 H5]]]]]]]]]]]]]].
  exists stage, cs, index, node. simpl in H4, H5. auto.
Defined.

(** The store holds executions "1", "2", "3": an update for "7" changes
    nothing. *)
Lemma updateSqlNodeMetrics_unknown_witness :
  updateSqlNodeMetrics Scenario.stored "7" Scenario.delivered Scenario.stages 6%nat
  = JS.Normal (Scenario.stored, 6%nat).
Proof.
  apply updateSqlNodeMetrics_unknown.
  intros sql Hin. vm_compute in Hin.
  destruct Hin as [<- | [<- | [<- | []]]]; vm_compute; discriminate.
Defined.

(** Metrics arrive for execution "2" of the store of three, the
    generator at 6: the execution keeps its identity 2 and gets the update
    token 6; the executions around it keep theirs. *)
Lemma updateSqlNodeMetrics_frame_witness :
  exists store',
    updateSqlNodeMetrics Scenario.stored "2" Scenario.delivered Scenario.stages 6%nat
    = JS.Normal (store', 7%nat) /\
    map StoredSparkSQL.id (StoredSQLStore.sqls store') = ["1"; "2"; "3"] /\
    map StoredSparkSQL.uniqueId (StoredSQLStore.sqls store') = [0; 2; 4]%nat /\
    map StoredSparkSQL.metricUpdateId (StoredSQLStore.sqls store') = [1; 6; 5]%nat.
Proof.
  remember (StoredSQLStore.sqls Scenario.stored) as l eqn:Hl.
  assert (Hids : map StoredSparkSQL.id l = ["1"; "2"; "3"])
    by (subst l; vm_compute; reflexivity).
  assert (Hus : map StoredSparkSQL.uniqueId l = [0; 2; 4]%nat)
    by (subst l; vm_compute; reflexivity).
  assert (Hms : map StoredSparkSQL.metricUpdateId l = [1; 3; 5]%nat)
    by (subst l; vm_compute; reflexivity).
  destruct l as [ | a [ | b [ | c [ | d l]]]]; try discriminate Hids.
  cbn [map] in Hids, Hus, Hms.
  assert (Ha : StoredSparkSQL.id a = "1") by (now injection Hids).
  assert (Hb : StoredSparkSQL.id b = "2") by (now injection Hids).
  assert (Hc : StoredSparkSQL.id c = "3") by (now injection Hids).
  assert (Hua : StoredSparkSQL.uniqueId a = 0%nat) by (now injection Hus).
  assert (Hub : StoredSparkSQL.uniqueId b = 2%nat) by (now injection Hus).
  assert (Huc : StoredSparkSQL.uniqueId c = 4%nat) by (now injection Hus).
  assert (Hma : StoredSparkSQL.metricUpdateId a = 1%nat) by (now injection Hms).
  assert (Hmc : StoredSparkSQL.metricUpdateId c = 5%nat) by (now injection Hms).
  assert (H1 : StoredSQLStore.sqls Scenario.stored = ([a] ++ b :: [c])%list)
    by (symmetry; exact Hl).
  assert (H2 : forall sql, In sql [a] -> StoredSparkSQL.id sql <> "2").
  { intros sql [E | []]. rewrite <- E, Ha. discriminate. }
  destruct (updateSqlNodeMetrics_frame Scenario.stored "2" Scenario.delivered
              Scenario.stages 6%nat [a] [c] b H1 H2 Hb)
    as [u [E [Hm [Hu [Hi _]]]]].
  assert (Flt : filter (fun sql => String.ltb (StoredSparkSQL.id sql) "2") [a; b; c]
                = [a]).
  { cbn [filter]. rewrite Ha, Hb, Hc. reflexivity. }
  assert (Fgt : filter (fun sql => String.ltb "2" (StoredSparkSQL.id sql)) [a; b; c]
                = [c]).
  { cbn [filter]. rewrite Ha, Hb, Hc. reflexivity. }
  eexists. split; [exact E | ].
  cbn [StoredSQLStore.sqls]. rewrite <- Hl, Flt, Fgt.
  change ([a] ++ [u] ++ [c])%list with [a; u; c]. cbn [map].
  rewrite Ha, Hc, Hi, Hua, Huc, Hu, Hub, Hma, Hmc, Hm. repeat split.
Defined.

(** The same update: one execution "2" is in the result, and execution
    "1" still is. *)
Lemma updateSqlNodeMetrics_others_witness :
  exists store' g',
    updateSqlNodeMetrics Scenario.stored "2" Scenario.delivered Scenario.stages 6%nat
    = JS.Normal (store', g') /\
    List.length (filter (fun sql => String.eqb (StoredSparkSQL.id sql) "2")
                        (StoredSQLStore.sqls store')) = 1%nat /\
    forall sql, In sql (StoredSQLStore.sqls Scenario.stored) ->
      StoredSparkSQL.id sql = "1" -> In sql (StoredSQLStore.sqls store').
Proof.
  remember (updateSqlNodeMetrics Scenario.stored "2" Scenario.delivered
              Scenario.stages 6%nat) as o eqn:Hs.
  destruct o as [[store' g'] | ]; [ | vm_compute in Hs; discriminate Hs].
  symmetry in Hs. exists store', g'. split; [reflexivity | ].
  destruct (updateSqlNodeMetrics_others Scenario.stored "2" Scenario.delivered
              Scenario.stages 6%nat g' store' Hs) as [Hothers Hone].
  split.
  - apply Hone.
    remember (StoredSQLStore.sqls Scenario.stored) as l eqn:Hl.
    assert (Hids : map StoredSparkSQL.id l = ["1"; "2"; "3"])
      by (subst l; vm_compute; reflexivity).
    destruct l as [ | a [ | b l]]; try discriminate Hids.
    cbn [map] in Hids.
    assert (Hb : StoredSparkSQL.id b = "2") by (now injection Hids). exists b. split; [right; left; reflexivity | exact Hb].
  - intros sql Hin Hid. apply Hothers; [rewrite Hid; discriminate | exact Hin].
Defined.

(** The ids "1", "2", "3" are in string order: the update keeps the
    order of the store. *)
Lemma updateSqlNodeMetrics_order_witness :
  exists store' g',
    updateSqlNodeMetrics Scenario.stored "2" Scenario.delivered Scenario.stages 6%nat
    = JS.Normal (store', g') /\
    map StoredSparkSQL.id (StoredSQLStore.sqls store') = ["1"; "2"; "3"].
Proof.
  remember (updateSqlNodeMetrics Scenario.stored "2" Scenario.delivered
              Scenario.stages 6%nat) as o eqn:Hs.
  destruct o as [[store' g'] | ]; [ | vm_compute in Hs; discriminate Hs].
  symmetry in Hs. exists store', g'. split; [reflexivity | ].
  assert (Hsorted : StronglySorted (fun a b => String.ltb a b = true)
                      (map StoredSparkSQL.id (StoredSQLStore.sqls Scenario.stored))).
  { vm_compute. repeat constructor. }
  rewrite (updateSqlNodeMetrics_order Scenario.stored "2" Scenario.delivered
             Scenario.stages 6%nat g' store' Hsorted Hs).
  vm_compute. reflexivity.
Defined.

(** Metrics for a node 9 that execution "2" does not have: only the
    update token changes. *)
Lemma updateSqlNodeMetrics_no_data_witness :
  exists store',
    updateSqlNodeMetrics Scenario.stored "2" Scenario.misdelivered Scenario.stages 6%nat
    = JS.Normal (store', 7%nat) /\
    map StoredSparkSQL.nodes (StoredSQLStore.sqls store')
    = map StoredSparkSQL.nodes (StoredSQLStore.sqls Scenario.stored) /\
    map StoredSparkSQL.metricUpdateId (StoredSQLStore.sqls store') = [1; 6; 5]%nat.
Proof.
  remember (StoredSQLStore.sqls Scenario.stored) as l eqn:Hl.
  assert (Hids : map StoredSparkSQL.id l = ["1"; "2"; "3"])
    by (subst l; vm_compute; reflexivity).
  assert (Hms : map StoredSparkSQL.metricUpdateId l = [1; 3; 5]%nat)
    by (subst l; vm_compute; reflexivity).
  assert (Hns : map (fun sql =>
                       map (fun node => EnrichedSqlNode.nodeId (StoredSqlNode.node node))
                           (StoredSparkSQL.nodes sql ++ StoredSparkSQL.codegenNodes sql))
                    l = [[0; 1]; [0; 1]; [0; 1]])
    by (subst l; vm_compute; reflexivity).
  assert (Hst : map (fun sql => map StoredSqlNode.stage (StoredSparkSQL.nodes sql)) l
                = [[None; None]; [None; None]; [None; None]])
    by (subst l; vm_compute; reflexivity).
  destruct l as [ | a [ | b [ | c [ | d l]]]]; try discriminate Hids.
  cbn [map] in Hids, Hms, Hns, Hst.
  assert (Ha : StoredSparkSQL.id a = "1") by (now injection Hids).
  assert (Hb : StoredSparkSQL.id b = "2") by (now injection Hids).
  assert (Hc : StoredSparkSQL.id c = "3") by (now injection Hids).
  assert (Hma : StoredSparkSQL.metricUpdateId a = 1%nat) by (now injection Hms).
  assert (Hmc : StoredSparkSQL.metricUpdateId c = 5%nat) by (now injection Hms).
  assert (Hnb : map (fun node => EnrichedSqlNode.nodeId (StoredSqlNode.node node))
                    (StoredSparkSQL.nodes b ++ StoredSparkSQL.codegenNodes b)
                = [0; 1]) by (now injection Hns).
  assert (Hsb : map StoredSqlNode.stage (StoredSparkSQL.nodes b) = [None; None])
    by (now injection Hst).
  assert (H1 : StoredSQLStore.sqls Scenario.stored = ([a] ++ b :: [c])%list)
    by (symmetry; exact Hl).
  assert (H2 : forall sql, In sql [a] -> StoredSparkSQL.id sql <> "2").
  { intros sql [E | []]. rewrite <- E, Ha. discriminate. }
  assert (H3 : forall nodeMetrics node,
             In nodeMetrics Scenario.misdelivered ->
             In node (StoredSparkSQL.nodes b ++ StoredSparkSQL.codegenNodes b) ->
             NodeMetrics.id nodeMetrics
             <> EnrichedSqlNode.nodeId (StoredSqlNode.node node)).
  { intros nodeMetrics node [<- | []] Hin.
    apply (in_map (fun node => EnrichedSqlNode.nodeId (StoredSqlNode.node node))) in Hin.
    rewrite Hnb in Hin. cbv beta in Hin. intros X. rewrite <- X in Hin.
    vm_compute in Hin. intuition discriminate. }
  assert (H4 : forall node, In node (StoredSparkSQL.nodes b) ->
                 StoredSqlNode.stage node = None).
  { intros node Hin. apply (in_map StoredSqlNode.stage) in Hin.
    rewrite Hsb in Hin. destruct Hin as [E | [E | []]]; symmetry; exact E. }
  assert (Flt : filter (fun sql => String.ltb (StoredSparkSQL.id sql) "2") [a; b; c]
                = [a]).
  { cbn [filter]. rewrite Ha, Hb, Hc. reflexivity. }
  assert (Fgt : filter (fun sql => String.ltb "2" (StoredSparkSQL.id sql)) [a; b; c]
                = [c]).
  { cbn [filter]. rewrite Ha, Hb, Hc. reflexivity. }
  eexists. split.
  - exact (updateSqlNodeMetrics_no_data Scenario.stored "2" Scenario.misdelivered
             Scenario.stages 6%nat [a] [c] b H1 H2 Hb H3 H4).
  - cbn [StoredSQLStore.sqls]. rewrite <- Hl, Flt, Fgt.
    match goal with
    | |- context [([a] ++ [?u] ++ [c])%list] =>
        change ([a] ++ [u] ++ [c])%list with [a; u; c]
    end.
    cbn [map StoredSparkSQL.nodes StoredSparkSQL.metricUpdateId withUpdate].
    rewrite Hma, Hmc. split; reflexivity.
Defined.
